(** * GridSense-AI: the Pathway stream-processing service

    A shallow embedding of [server/services/pathway] (config.py, utils.py,
    processor.py) and the properties of its three derived views: anomalies,
    per-device-type statistics and cost/carbon recommendations.

    Python [float] is IEEE-754 binary64, modelled by Rocq's primitive
    [float]; Python [str] by [string]; Python comparisons by the primitive
    boolean comparisons, so that NaN and the infinities behave as in the
    source. The two polling generators of utils.py are modelled by the
    events they produce against a list of successive polls, with Python's
    exceptions as an error monad. The Pathway operators that processor.py
    calls are modelled on tables given as the list of rows received so far:
    [filter] and [select] row by row, [groupby(...).reduce(...)] as a finite
    map from the key to the reduced row, and [asof_join] with
    [Direction.BACKWARD] as the search of the latest right row at or before
    the left row's time.

    The readers of routes/pathway_routes.py are modelled on files given by
    their lines, each line by what [json.loads] does on it.

    The file has two parts: the embedding and the vocabulary of the
    statements first, then the properties. *)

From Stdlib Require Import ZArith List String Ascii Bool Lia Floats DecimalString.
From stdpp Require Import gmap strings fin_maps.
Import ListNotations.

Set Warnings "-inexact-float,-register-all,-clear-no-such-hyp".
Local Open Scope Z_scope.

(* ===================================================================== *)
(** * Python's float built-ins used by the service *)
(* ===================================================================== *)

Module PyFloat.

(** [a > b] on Python floats. *)
Definition gt (a b : float) : bool := (b <? a)%float.

(** [float(n)] for an integer that is in range: the nearest binary64. *)
Definition of_Z (z : Z) : float :=
  SF2Prim (binary_normalize prec emax z 0 false).

(** Nearest integer to [num / den] ([den > 0]), ties to even. *)
Definition round_half_even (num den : Z) : Z :=
  let q := num / den in
  let r := num mod den in
  match Z.compare (2 * r) den with
  | Lt => q
  | Gt => q + 1
  | Eq => if Z.even q then q else q + 1
  end.

(** The magnitude [m * 2^e] scaled by [10^nd] and rounded to an integer,
    as the correctly rounded decimal conversion of CPython does. *)
Definition scaled_digits (nd : nat) (m : positive) (e : Z) : Z :=
  let p := 10 ^ Z.of_nat nd in
  if 0 <=? e then Z.pos m * 2 ^ e * p
  else round_half_even (Z.pos m * p) (2 ^ (- e)).

Definition decimal (z : Z) : string :=
  NilZero.string_of_uint (N.to_uint (Z.to_N z)).

Fixpoint zeros (n : nat) : string :=
  match n with
  | O => EmptyString
  | S k => String "0" (zeros k)
  end.

(** The fractional digits, left-padded with zeros to width [nd]. *)
Definition fraction (nd : nat) (z : Z) : string :=
  let s := decimal z in
  String.append (zeros (nd - String.length s)) s.

Definition sign_prefix (s : bool) : string :=
  if s then "-"%string else EmptyString.

Definition fixed (nd : nat) (s : bool) (n : Z) : string :=
  let p := 10 ^ Z.of_nat nd in
  String.append (sign_prefix s)
    (String.append (decimal (n / p))
       (match nd with
        | O => EmptyString
        | S _ => String "." (fraction nd (n mod p))
        end)).

(** [f"{x:.{nd}f}"]. *)
Definition format_f (nd : nat) (x : float) : string :=
  match Prim2SF x with
  | S754_nan => "nan"%string
  | S754_infinity s => String.append (sign_prefix s) "inf"
  | S754_zero s => fixed nd s 0
  | S754_finite s m e => fixed nd s (scaled_digits nd m e)
  end.

(** [round(x, nd)] for [nd >= 0]: the decimal rounding of the exact value,
    read back as the nearest binary64. *)
Definition round (x : float) (nd : nat) : float :=
  match Prim2SF x with
  | S754_finite s m e =>
      match scaled_digits nd m e with
      | Z.pos n =>
          SF2Prim (SFdiv prec emax (S754_finite s n 0)
                     (S754_finite false (Z.to_pos (10 ^ Z.of_nat nd)) 0))
      | _ => SF2Prim (S754_zero s)
      end
  | _ => x
  end.

End PyFloat.

(* ===================================================================== *)
(** * config.py *)
(* ===================================================================== *)

Module PathwayConfig.

Definition INTERNAL_POLL_INTERVAL : float := 0.1%float.
Definition EXTERNAL_POLL_INTERVAL : float := 15.0%float.
Definition HIGH_CURRENT_THRESHOLD : float := 100.0%float.

End PathwayConfig.

(* ===================================================================== *)
(** * utils.py: alert and recommendation texts *)
(* ===================================================================== *)

Infix "+++" := String.append (right associativity, at level 60).

Module Alert.

Definition motor_inrush (current : float) : string :=
  "⚠️ MOTOR INRUSH: " +++ PyFloat.format_f 1 current +++ "A".
Definition fault (current : float) : string :=
  "🚨 FAULT DETECTED: " +++ PyFloat.format_f 1 current +++ "A".
Definition high_current (current : float) : string :=
  "⚡ HIGH CURRENT: " +++ PyFloat.format_f 1 current +++ "A".
Definition generic (current : float) : string :=
  "⚠️ ANOMALY: " +++ PyFloat.format_f 1 current +++ "A".

End Alert.

Definition get_anomaly_alert (current : float) (status : string) : string :=
  if String.eqb status "starting"
     && PyFloat.gt current PathwayConfig.HIGH_CURRENT_THRESHOLD
  then Alert.motor_inrush current
  else if String.eqb status "fault" then Alert.fault current
  else if PyFloat.gt current PathwayConfig.HIGH_CURRENT_THRESHOLD
  then Alert.high_current current
  else Alert.generic current.

Module Recommendation.

(** Rule (a): high price and a heavy load. *)
Definition stop_device (device_id : string)
    (electricity_price cost_per_hour : float) : string :=
  let savings_per_hour := cost_per_hour in
  "Grid Price is $" +++ PyFloat.format_f 3 electricity_price
    +++ "/kWh (High). " +++ "Stopping " +++ device_id
    +++ " will save approx $" +++ PyFloat.format_f 2 savings_per_hour
    +++ "/hour.".

(** Rule (b): high price and high carbon. *)
Definition price_and_carbon (device_id : string)
    (power carbon_intensity electricity_price cost_per_hour : float)
    : string :=
  let savings_per_hour := cost_per_hour in
  let carbon_per_hour := ((power / 1000) * carbon_intensity)%float in
  "Peak pricing ($" +++ PyFloat.format_f 3 electricity_price
    +++ "/kWh) + High carbon (" +++ PyFloat.format_f 0 carbon_intensity
    +++ "gCO2/kWh). " +++ "Reducing " +++ device_id +++ " saves $"
    +++ PyFloat.format_f 2 savings_per_hour +++ "/hr and "
    +++ PyFloat.format_f 0 carbon_per_hour +++ "g CO2/hr.".

(** Rule (c): high carbon and a heavy load. *)
Definition defer_carbon (device_id : string)
    (power carbon_intensity : float) : string :=
  let carbon_per_hour := ((power / 1000) * carbon_intensity)%float in
  "Carbon intensity is " +++ PyFloat.format_f 0 carbon_intensity
    +++ "gCO2/kWh (High). " +++ "Deferring " +++ device_id
    +++ " avoids " +++ PyFloat.format_f 0 carbon_per_hour
    +++ "g CO2/hr.".

(** Rule (d): low price and low carbon. *)
Definition optimal (device_id : string)
    (electricity_price renewable_pct : float) : string :=
  "Optimal conditions: $" +++ PyFloat.format_f 3 electricity_price
    +++ "/kWh, " +++ PyFloat.format_f 0 renewable_pct
    +++ "% renewable. " +++ "Good time to run " +++ device_id +++ ".".

(** Rule (e): mostly renewable grid. *)
Definition clean_energy (device_id : string) (renewable_pct : float)
    : string :=
  "Grid is " +++ PyFloat.format_f 0 renewable_pct
    +++ "% renewable (Clean energy!). " +++ device_id
    +++ " running on mostly clean power.".

(** Rule (f): the fallback. *)
Definition normal (device_id : string)
    (electricity_price cost_per_hour : float) : string :=
  device_id +++ " operating normally. " +++ "Current cost: $"
    +++ PyFloat.format_f 2 cost_per_hour +++ "/hr at $"
    +++ PyFloat.format_f 3 electricity_price +++ "/kWh.".

End Recommendation.

Definition generate_llm_recommendation
    (device_id device_type : string) (power current carbon_intensity : float)
    (carbon_level : string) (electricity_price : float)
    (pricing_tier : string) (renewable_pct cost_per_hour : float) : string :=
  if String.eqb pricing_tier "HIGH" && PyFloat.gt power 500
  then Recommendation.stop_device device_id electricity_price cost_per_hour
  else if String.eqb pricing_tier "HIGH" && String.eqb carbon_level "HIGH"
  then Recommendation.price_and_carbon device_id power carbon_intensity
         electricity_price cost_per_hour
  else if String.eqb carbon_level "HIGH" && PyFloat.gt power 500
  then Recommendation.defer_carbon device_id power carbon_intensity
  else if String.eqb pricing_tier "LOW" && String.eqb carbon_level "LOW"
  then Recommendation.optimal device_id electricity_price renewable_pct
  else if PyFloat.gt renewable_pct 70
  then Recommendation.clean_energy device_id renewable_pct
  else Recommendation.normal device_id electricity_price cost_per_hour.

(* ===================================================================== *)
(** * processor.py: the schemas *)
(* ===================================================================== *)

Module DeviceRow.
Record t := mk {
  device_id : string;
  device_type : string;
  status : string;
  voltage : float;
  current : float;
  power : float;
  timestamp : float
}.
End DeviceRow.

Module GridRow.
Record t := mk {
  carbon_intensity : float;
  carbon_level : string;
  electricity_price : float;
  pricing_tier : string;
  renewable_pct : float;
  timestamp : float
}.
End GridRow.

Module AnomalyRow.
Record t := mk {
  device_id : string;
  device_type : string;
  current : float;
  power : float;
  status : string;
  alert : string;
  timestamp : float
}.
End AnomalyRow.

Module AggregateRow.
Record t := mk {
  device_type : string;
  avg_current : float;
  max_current : float;
  avg_power : float;
  total_samples : Z
}.
End AggregateRow.

Module RecommendationRow.
Record t := mk {
  device_id : string;
  device_type : string;
  current : float;
  power : float;
  carbon_intensity : float;
  carbon_level : string;
  pricing_tier : string;
  renewable_pct : float;
  electricity_price : float;
  cost_per_hour : float;
  recommendation : string;
  timestamp : float
}.
End RecommendationRow.

(* ===================================================================== *)
(** * processor.py: anomaly detection *)
(* ===================================================================== *)

(** The predicate of [device_stream.filter(...)]. *)
Definition is_anomalous (r : DeviceRow.t) : bool :=
  PyFloat.gt (DeviceRow.current r) PathwayConfig.HIGH_CURRENT_THRESHOLD.

(** The projection of [.select(...)]. *)
Definition anomaly_of (r : DeviceRow.t) : AnomalyRow.t :=
  {| AnomalyRow.device_id := DeviceRow.device_id r;
     AnomalyRow.device_type := DeviceRow.device_type r;
     AnomalyRow.current := DeviceRow.current r;
     AnomalyRow.power := DeviceRow.power r;
     AnomalyRow.status := DeviceRow.status r;
     AnomalyRow.alert :=
       get_anomaly_alert (DeviceRow.current r) (DeviceRow.status r);
     AnomalyRow.timestamp := DeviceRow.timestamp r |}.

(** What the detector does with one row. *)
Definition evaluate (r : DeviceRow.t) : option AnomalyRow.t :=
  if is_anomalous r then Some (anomaly_of r) else None.

Definition _detect_anomalies (device_stream : list DeviceRow.t)
    : list AnomalyRow.t :=
  List.map anomaly_of (List.filter is_anomalous device_stream).

(* ===================================================================== *)
(** * processor.py: the enrichment join *)
(* ===================================================================== *)

(** [pw.coalesce(x, d)]: the first value that is present. *)
Definition coalesce {A : Type} (x : option A) (d : A) : A :=
  match x with
  | Some v => v
  | None => d
  end.

(** One step of the backward as-of search for the instant [t]: a right row
    is a candidate when its time is at or before [t]; among candidates the
    one with the greatest time is kept. The operator does not say which of
    several candidates with the same greatest time it keeps; here it is the
    one that arrived last. *)
Definition asof_pick (t : float) (best : option GridRow.t) (g : GridRow.t)
    : option GridRow.t :=
  if (GridRow.timestamp g <=? t)%float then
    match best with
    | Some b =>
        if (GridRow.timestamp b <=? GridRow.timestamp g)%float
        then Some g else best
    | None => Some g
    end
  else best.

(** [direction=pw.temporal.Direction.BACKWARD]. *)
Definition asof_backward (t : float) (right : list GridRow.t)
    : option GridRow.t :=
  fold_left (asof_pick t) right None.

(** [left.asof_join(right, left.timestamp, right.timestamp,
    how=pw.JoinMode.LEFT, direction=BACKWARD)]: every left row is kept,
    with its match when there is one. *)
Definition asof_join (left : list DeviceRow.t) (right : list GridRow.t)
    : list (DeviceRow.t * option GridRow.t) :=
  List.map (fun d => (d, asof_backward (DeviceRow.timestamp d) right)) left.

(** [lambda p, price: round(p / 1000 * price, 4)]. *)
Definition cost_lambda (p price : float) : float :=
  PyFloat.round (p / 1000 * price)%float 4.

(** The projection of [joined.select(...)]. *)
Definition combined (d : DeviceRow.t) (right : option GridRow.t)
    : RecommendationRow.t :=
  let carbon_intensity :=
    coalesce (option_map GridRow.carbon_intensity right) 500.0%float in
  let carbon_level :=
    coalesce (option_map GridRow.carbon_level right) "MEDIUM"%string in
  let pricing_tier :=
    coalesce (option_map GridRow.pricing_tier right) "MEDIUM"%string in
  let renewable_pct :=
    coalesce (option_map GridRow.renewable_pct right) 35.0%float in
  let electricity_price :=
    coalesce (option_map GridRow.electricity_price right) 0.15%float in
  {| RecommendationRow.device_id := DeviceRow.device_id d;
     RecommendationRow.device_type := DeviceRow.device_type d;
     RecommendationRow.current := DeviceRow.current d;
     RecommendationRow.power := DeviceRow.power d;
     RecommendationRow.carbon_intensity := carbon_intensity;
     RecommendationRow.carbon_level := carbon_level;
     RecommendationRow.pricing_tier := pricing_tier;
     RecommendationRow.renewable_pct := renewable_pct;
     RecommendationRow.electricity_price := electricity_price;
     RecommendationRow.cost_per_hour :=
       cost_lambda (DeviceRow.power d) electricity_price;
     RecommendationRow.recommendation :=
       generate_llm_recommendation
         (DeviceRow.device_id d) (DeviceRow.device_type d)
         (DeviceRow.power d) (DeviceRow.current d)
         carbon_intensity carbon_level electricity_price pricing_tier
         renewable_pct
         (cost_lambda (DeviceRow.power d) electricity_price);
     RecommendationRow.timestamp := DeviceRow.timestamp d |}.

Definition _generate_recommendations
    (device_stream : list DeviceRow.t) (grid_stream : list GridRow.t)
    : list RecommendationRow.t :=
  List.map (fun j => combined (fst j) (snd j))
    (asof_join device_stream grid_stream).

(** The "latest wins" reading of the join: the grid row that arrived
    last, whatever its timestamp. *)
Definition latest_known (grid_stream : list GridRow.t) : option GridRow.t :=
  List.last (List.map Some grid_stream) None.

(* ===================================================================== *)
(** * processor.py: the per-type statistics *)
(* ===================================================================== *)

(** [max(a, b)] on floats: [b] when it is greater, else [a]. *)
Definition float_max (a b : float) : float :=
  if (a <? b)%float then b else a.

(** The reducers of [pw.reducers], applied to the rows of one group in
    their order of arrival. *)
Module reducers.

Definition count (g : list DeviceRow.t) : Z := Z.of_nat (List.length g).

Definition sum (f : DeviceRow.t -> float) (g : list DeviceRow.t) : float :=
  fold_left (fun acc r => (acc + f r)%float) g 0%float.

Definition avg (f : DeviceRow.t -> float) (g : list DeviceRow.t) : float :=
  (sum f g / PyFloat.of_Z (count g))%float.

Definition max (f : DeviceRow.t -> float) (g : list DeviceRow.t) : float :=
  match g with
  | [] => neg_infinity
  | r :: rest => fold_left (fun acc r' => float_max acc (f r')) rest (f r)
  end.

End reducers.

(** [table.groupby(key)]: the rows of each key, in their order of arrival. *)
Definition groupby (key : DeviceRow.t -> string) (rows : list DeviceRow.t)
    : gmap string (list DeviceRow.t) :=
  fold_left
    (fun (m : gmap string (list DeviceRow.t)) r =>
       <[key r := default [] (m !! key r) ++ [r]]> m)
    rows ∅.

(** The row of [.reduce(...)] for the group [g] of the type [ty]. *)
Definition reduce_group (ty : string) (g : list DeviceRow.t)
    : AggregateRow.t :=
  {| AggregateRow.device_type := ty;
     AggregateRow.avg_current := reducers.avg DeviceRow.current g;
     AggregateRow.max_current := reducers.max DeviceRow.current g;
     AggregateRow.avg_power := reducers.avg DeviceRow.power g;
     AggregateRow.total_samples := reducers.count g |}.

(** The [device_stats] table after the rows [device_stream] have arrived:
    one row per device type. *)
Definition _compute_statistics (device_stream : list DeviceRow.t)
    : gmap string AggregateRow.t :=
  map_imap (fun ty g => Some (reduce_group ty g))
    (groupby DeviceRow.device_type device_stream).

(** The statistics of the specification, on plain lists of values: the
    left-to-right sum divided by the length, and the greatest value. *)
Definition arithmetic_mean (xs : list float) : float :=
  (fold_left PrimFloat.add xs 0 / PyFloat.of_Z (Z.of_nat (List.length xs)))%float.

Definition maximum (xs : list float) : float :=
  match xs with
  | [] => neg_infinity
  | x :: rest => fold_left float_max rest x
  end.

Definition rows_of_type (ty : string) (rows : list DeviceRow.t)
    : list DeviceRow.t :=
  List.filter (fun r => String.eqb (DeviceRow.device_type r) ty) rows.

(* ===================================================================== *)
(** * processor.py: the [device_stats] changelog *)
(* ===================================================================== *)

#[global] Instance float_eq_dec : EqDecision float.
Proof.
  intros x y. destruct (PrimFloat.Leibniz.eqb x y) eqn:E.
  - left. apply FloatAxioms.Leibniz.eqb_spec. exact E.
  - right. intros H. apply FloatAxioms.Leibniz.eqb_spec in H. congruence.
Defined.

#[global] Instance AggregateRow_eq_dec : EqDecision AggregateRow.t.
Proof. solve_decision. Defined.

(** One line of an output file: the row and its [diff], +1 for an
    insertion and -1 for a retraction. *)
Module ChangelogEntry.
Record t := mk { row : AggregateRow.t; diff : Z }.
End ChangelogEntry.

Definition insertion (r : AggregateRow.t) : ChangelogEntry.t :=
  ChangelogEntry.mk r 1.
Definition retraction (r : AggregateRow.t) : ChangelogEntry.t :=
  ChangelogEntry.mk r (-1).

(** Modelled from the spec: what [pw.io.jsonlines.write(device_stats, ...)]
    appends for one device type when a commit changes the table from [old]
    to [new]; the writer is Pathway's and not in the sources. The old row,
    when there is one, is retracted and the new row is inserted right
    after it. *)
Definition key_changes (old new : gmap string AggregateRow.t) (ty : string)
    : list ChangelogEntry.t :=
  match new !! ty with
  | Some n =>
      match old !! ty with
      | Some o => [retraction o; insertion n]
      | None => [insertion n]
      end
  | None => []
  end.

(** The entries of one commit: the rows [batch] arrive after the rows
    [seen]; the device types of the batch are the keys that change. *)
Definition commit_changes (seen batch : list DeviceRow.t)
    : list ChangelogEntry.t :=
  flat_map
    (key_changes (_compute_statistics seen)
       (_compute_statistics (seen ++ batch)))
    (remove_dups (List.map DeviceRow.device_type batch)).

Fixpoint changelog_from (seen : list DeviceRow.t)
    (commits : list (list DeviceRow.t)) : list ChangelogEntry.t :=
  match commits with
  | [] => []
  | batch :: rest =>
      commit_changes seen batch ++ changelog_from (seen ++ batch) rest
  end.

(** The file [device_stats.jsonl] after the commits [commits]. *)
Definition device_stats_changelog (commits : list (list DeviceRow.t))
    : list ChangelogEntry.t :=
  changelog_from [] commits.

(** The sum of [diff] over the entries of the row [r]. *)
Definition cumulative_diff (r : AggregateRow.t) (log : list ChangelogEntry.t)
    : Z :=
  fold_right
    (fun e acc =>
       if decide (ChangelogEntry.row e = r)
       then ChangelogEntry.diff e + acc else acc)
    0 log.

(** The sum of [diff] over the entries of the device type [ty]. *)
Definition net_diff (ty : string) (log : list ChangelogEntry.t) : Z :=
  fold_right
    (fun e acc =>
       if decide (AggregateRow.device_type (ChangelogEntry.row e) = ty)
       then ChangelogEntry.diff e + acc else acc)
    0 log.

(** Replaying one entry into the view keyed by device type. *)
Definition apply_entry (view : gmap string AggregateRow.t)
    (e : ChangelogEntry.t) : gmap string AggregateRow.t :=
  let ty := AggregateRow.device_type (ChangelogEntry.row e) in
  if 0 <? ChangelogEntry.diff e
  then <[ty := ChangelogEntry.row e]> view
  else delete ty view.

Definition replay_from (view : gmap string AggregateRow.t)
    (log : list ChangelogEntry.t) : gmap string AggregateRow.t :=
  fold_left apply_entry log view.

Definition replay (log : list ChangelogEntry.t)
    : gmap string AggregateRow.t :=
  replay_from ∅ log.

(** The rows of [view] are exactly the rows of positive cumulative diff in
    [log], each with cumulative diff 1. *)
Definition reconstructs (log : list ChangelogEntry.t)
    (view : gmap string AggregateRow.t) : Prop :=
  forall r : AggregateRow.t,
    cumulative_diff r log =
    if decide (view !! AggregateRow.device_type r = Some r) then 1 else 0.

(** Every retraction is immediately followed by an insertion for the same
    device type. *)
Inductive retract_then_insert : list ChangelogEntry.t -> Prop :=
| rti_nil : retract_then_insert []
| rti_insert (n : AggregateRow.t) (log : list ChangelogEntry.t) :
    retract_then_insert log -> retract_then_insert (insertion n :: log)
| rti_update (o n : AggregateRow.t) (log : list ChangelogEntry.t) :
    AggregateRow.device_type o = AggregateRow.device_type n ->
    retract_then_insert log ->
    retract_then_insert (retraction o :: insertion n :: log).

(* ===================================================================== *)
(** * utils.py: the source adapters *)
(* ===================================================================== *)

(** The values [response.json()] returns, the exceptions of the adapters
    and the outcome of an expression that may raise. *)
Module Py.

Inductive value :=
| NoneValue
| Bool (b : bool)
| Int (z : Z)
| Float (f : float)
| Str (s : string)
| List (l : list value)
| Dict (items : list (string * value)).

Inductive exn :=
| KeyError (key : string)
| TypeError
| ValueError
| AttributeError
| OverflowError
| ConnectionError
| Timeout
| HTTPError (status_code : Z)
| JSONDecodeError.

Inductive result (A : Type) :=
| Ok (a : A)
| Raise (e : exn).
Arguments Ok {A} a.
Arguments Raise {A} e.

(** The value of the key [k] in the items of a dict. *)
Fixpoint lookup (k : string) (items : list (string * value)) : option value :=
  match items with
  | [] => None
  | (k', v) :: rest => if String.eqb k k' then Some v else lookup k rest
  end.

(** [v[k]] for a string [k]. *)
Definition getitem (v : value) (k : string) : result value :=
  match v with
  | Dict items =>
      match lookup k items with
      | Some x => Ok x
      | None => Raise (KeyError k)
      end
  | _ => Raise TypeError
  end.

(** [v.get(k, d)]. *)
Definition get (v : value) (k : string) (d : value) : result value :=
  match v with
  | Dict items =>
      match lookup k items with
      | Some x => Ok x
      | None => Ok d
      end
  | _ => Raise AttributeError
  end.

(** [v.items()]. *)
Definition items (v : value) : result (list (string * value)) :=
  match v with
  | Dict l => Ok l
  | _ => Raise AttributeError
  end.

(** The two built-ins whose text handling is left open: [float(s)] on a
    string, [None] when the string is not a number, and [str(v)] on a
    value that is not a string. *)
Class Builtins := {
  float_of_str : string -> option float;
  repr : value -> string
}.

(** [float(v)]. *)
Definition float `{Builtins} (v : value) : result PrimFloat.float :=
  match v with
  | Float f => Ok f
  | Int z =>
      if is_infinity (PyFloat.of_Z z) then Raise OverflowError
      else Ok (PyFloat.of_Z z)
  | Bool b => Ok (if b then 1 else 0)%float
  | Str s =>
      match float_of_str s with
      | Some f => Ok f
      | None => Raise ValueError
      end
  | NoneValue | List _ | Dict _ => Raise TypeError
  end.

(** [str(v)]. *)
Definition str `{Builtins} (v : value) : string :=
  match v with
  | Str s => s
  | _ => repr v
  end.

End Py.

#[global] Instance result_ret : MRet Py.result := fun A a => Py.Ok a.
#[global] Instance result_bind : MBind Py.result :=
  fun A B f m =>
    match m with
    | Py.Ok a => f a
    | Py.Raise e => Py.Raise e
    end.

(** What a generator does, as seen from outside. *)
Inductive event (R : Type) :=
| Yield (row : R)
| Print (msg : string)
| PrintError (stream : string) (e : Py.exn)
| Sleep (seconds : float).
Arguments Yield {R} row.
Arguments Print {R} msg.
Arguments PrintError {R} stream e.
Arguments Sleep {R} seconds.

(** A piece of generator code: the events it produces, and its value or
    the exception that ended it. *)
Definition gen (R A : Type) : Type := list (event R) * Py.result A.

#[global] Instance gen_ret {R} : MRet (gen R) := fun A a => ([], Py.Ok a).
#[global] Instance gen_bind {R} : MBind (gen R) :=
  fun A B f m =>
    match m with
    | (es, Py.Ok a) => let (es', r) := f a in (es ++ es', r)
    | (es, Py.Raise e) => (es, Py.Raise e)
    end.

Definition lift {R A : Type} (r : Py.result A) : gen R A := ([], r).
Definition yield {R : Type} (row : R) : gen R unit := ([Yield row], Py.Ok tt).
Definition print {R : Type} (msg : string) : gen R unit :=
  ([Print msg], Py.Ok tt).
Definition sleep {R : Type} (seconds : float) : gen R unit :=
  ([Sleep seconds], Py.Ok tt).

(** [print(f"⚠️  Error in {stream} stream: {e}")]. *)
Definition print_error {R : Type} (stream : string) (e : Py.exn)
    : gen R unit :=
  ([PrintError stream e], Py.Ok tt).

(** [try: body except Exception as e: handler(e)]; every exception of
    [Py.exn] is an [Exception]. *)
Definition try_except {R A : Type} (body : gen R A)
    (handler : Py.exn -> gen R A) : gen R A :=
  match body with
  | (es, Py.Raise e) => let (es', r) := handler e in (es ++ es', r)
  | (es, Py.Ok a) => (es, Py.Ok a)
  end.

(** [for x in l: body(x)]. *)
Fixpoint for_each {R A : Type} (l : list A) (body : A -> gen R unit)
    : gen R unit :=
  match l with
  | [] => mret tt
  | x :: rest => body x ≫= fun _ => for_each rest body
  end.

(** What [requests.get] meets at one poll. *)
Inductive http_outcome :=
| ConnectionFailed
| TimedOut
| Response (status_code : Z) (json : option Py.value).

(** One poll: the outcome of the request and the value of [time.time()]. *)
Record poll := { outcome : http_outcome; now : float }.

(** [while True: body], run against the successive polls [polls]: the
    result is [Ok] while the loop goes on and [Raise e] when [e] left it. *)
Fixpoint while_true {R : Type} (body : poll -> gen R unit)
    (polls : list poll) : gen R unit :=
  match polls with
  | [] => mret tt
  | p :: rest => body p ≫= fun _ => while_true body rest
  end.

(** [requests.get(url, timeout=...)], [response.raise_for_status()] and
    [response.json()]. *)
Definition fetch (o : http_outcome) : Py.result Py.value :=
  match o with
  | ConnectionFailed => Py.Raise Py.ConnectionError
  | TimedOut => Py.Raise Py.Timeout
  | Response status_code json =>
      if (400 <=? status_code) && (status_code <? 600)
      then Py.Raise (Py.HTTPError status_code)
      else match json with
           | Some v => Py.Ok v
           | None => Py.Raise Py.JSONDecodeError
           end
  end.

Definition fetch_internal_stream (o : http_outcome) : Py.result Py.value :=
  fetch o.
Definition fetch_external_stream (o : http_outcome) : Py.result Py.value :=
  fetch o.

(** The events of a piece of generator code and the rows among them. *)
Definition events {R A : Type} (g : gen R A) : list (event R) := fst g.

Fixpoint yields {R : Type} (es : list (event R)) : list R :=
  match es with
  | [] => []
  | Yield r :: rest => r :: yields rest
  | _ :: rest => yields rest
  end.

Definition logs_error {R : Type} (es : list (event R)) : Prop :=
  exists stream e, In (PrintError stream e) es.

Section Adapters.
Context `{Py.Builtins}.

(** The dict that the device adapter yields for one telemetry entry. *)
Definition device_record (device_id : string) (telemetry timestamp : Py.value)
    : Py.result DeviceRow.t :=
  device_type ← Py.getitem telemetry "device_type";
  status ← Py.getitem telemetry "status";
  voltage ← Py.getitem telemetry "voltage" ≫= Py.float;
  current ← Py.getitem telemetry "current" ≫= Py.float;
  power ← Py.getitem telemetry "power" ≫= Py.float;
  timestamp ← Py.float timestamp;
  mret {| DeviceRow.device_id := device_id;
          DeviceRow.device_type := Py.str device_type;
          DeviceRow.status := Py.str status;
          DeviceRow.voltage := voltage;
          DeviceRow.current := current;
          DeviceRow.power := power;
          DeviceRow.timestamp := timestamp |}.

(** The body of the [for] of the device adapter. *)
Definition yield_entry (timestamp : Py.value) (entry : string * Py.value)
    : gen DeviceRow.t unit :=
  row ← lift (device_record (fst entry) (snd entry) timestamp);
  yield row.

(** The body of the [try] of the device adapter. *)
Definition internal_try (p : poll) : gen DeviceRow.t unit :=
  data ← lift (fetch_internal_stream (outcome p));
  timestamp ← lift (Py.get data "timestamp" (Py.Float (now p)));
  devices ← lift (Py.get data "devices" (Py.Dict []));
  entries ← lift (Py.items devices);
  for_each entries (yield_entry timestamp).

(** One turn of the loop of the device adapter. *)
Definition internal_iteration (p : poll) : gen DeviceRow.t unit :=
  try_except (internal_try p) (fun e => print_error "internal" e)
  ≫= fun _ => sleep PathwayConfig.INTERNAL_POLL_INTERVAL.

Definition internal_stream_generator (polls : list poll)
    : gen DeviceRow.t unit :=
  print ("📡 Starting internal stream ("
         +++ PyFloat.format_f 0 (1 / PathwayConfig.INTERNAL_POLL_INTERVAL)
         +++ "Hz)...")
  ≫= fun _ => while_true internal_iteration polls.

(** The dict that the grid adapter yields. *)
Definition grid_record (data : Py.value) : Py.result GridRow.t :=
  carbon_intensity ← Py.getitem data "carbon_intensity" ≫= Py.float;
  carbon_level ← Py.getitem data "carbon_level";
  electricity_price ← Py.getitem data "electricity_price" ≫= Py.float;
  pricing_tier ← Py.getitem data "pricing_tier";
  renewable_pct ← Py.getitem data "grid_renewable_percentage" ≫= Py.float;
  timestamp ← Py.getitem data "last_updated" ≫= Py.float;
  mret {| GridRow.carbon_intensity := carbon_intensity;
          GridRow.carbon_level := Py.str carbon_level;
          GridRow.electricity_price := electricity_price;
          GridRow.pricing_tier := Py.str pricing_tier;
          GridRow.renewable_pct := renewable_pct;
          GridRow.timestamp := timestamp |}.

Definition external_try (p : poll) : gen GridRow.t unit :=
  data ← lift (fetch_external_stream (outcome p));
  row ← lift (grid_record data);
  yield row.

(** One turn of the loop of the grid adapter. *)
Definition external_iteration (p : poll) : gen GridRow.t unit :=
  try_except (external_try p) (fun e => print_error "external" e)
  ≫= fun _ => sleep PathwayConfig.EXTERNAL_POLL_INTERVAL.

Definition external_stream_generator (polls : list poll)
    : gen GridRow.t unit :=
  print ("📡 Starting external stream ("
         +++ PyFloat.format_f 0 PathwayConfig.EXTERNAL_POLL_INTERVAL
         +++ "s updates)...")
  ≫= fun _ => while_true external_iteration polls.

End Adapters.

(** [needle] occurs in [hay]. *)
Definition embeds (needle hay : string) : Prop :=
  exists pre post : string, hay = pre +++ needle +++ post.

(* ===================================================================== *)
(** * utils.py: the short recommendation *)
(* ===================================================================== *)

Definition get_recommendation (power : float)
    (carbon_level pricing_tier : string) : string :=
  if String.eqb pricing_tier "HIGH" && String.eqb carbon_level "HIGH"
  then "REDUCE LOAD - High Price & Carbon"
  else if String.eqb pricing_tier "HIGH"
  then "PEAK DEMAND - Consider Reducing"
  else if String.eqb pricing_tier "LOW" && String.eqb carbon_level "LOW"
  then "OPTIMAL TIME - Low Cost & Carbon"
  else "NORMAL OPERATION".

(* ===================================================================== *)
(** * processor.py: the connectors *)
(* ===================================================================== *)

(** [DeviceConnector.run]: every dict the generator yields is passed to
    [self.next], in order; these are the rows of the device stream after
    the polls [polls]. *)
Definition DeviceConnector_run `{Py.Builtins} (polls : list poll)
    : list DeviceRow.t :=
  yields (events (internal_stream_generator polls)).

(** [GridConnector.run]. *)
Definition GridConnector_run `{Py.Builtins} (polls : list poll)
    : list GridRow.t :=
  yields (events (external_stream_generator polls)).

(* ===================================================================== *)
(** * routes/pathway_routes.py: reading the output files *)
(* ===================================================================== *)

(** A file of the output directory: absent, or such that opening or
    reading it raises, or its lines, each given by what [json.loads] does
    on it. *)
Inductive jsonl_file :=
| Absent
| Unreadable (e : Py.exn)
| Lines (lines : list (Py.result Py.value)).

(** [v > 0]. *)
Definition gt_zero (v : Py.value) : Py.result bool :=
  match v with
  | Py.Int z => Py.Ok (0 <? z)
  | Py.Float f => Py.Ok (0 <? f)%float
  | Py.Bool b => Py.Ok b
  | _ => Py.Raise Py.TypeError
  end.

(** [l[start:]]. *)
Definition slice_from {A : Type} (l : list A) (start : Z) : list A :=
  let n := Z.of_nat (List.length l) in
  let s := if start <? 0 then Z.max 0 (start + n) else Z.min start n in
  List.skipn (Z.to_nat s) l.

(** [lines[-max_lines:] if len(lines) > max_lines else lines]. *)
Definition recent_lines {A : Type} (lines : list A) (max_lines : Z)
    : list A :=
  if max_lines <? Z.of_nat (List.length lines)
  then slice_from lines (- max_lines)
  else lines.

(** The [for] loop of [read_latest_jsonl]: a line that is not JSON is
    passed over, any other exception leaves the loop. *)
Fixpoint read_lines (lines : list (Py.result Py.value))
    : Py.result (list Py.value) :=
  match lines with
  | [] => Py.Ok []
  | line :: rest =>
      match line with
      | Py.Raise Py.JSONDecodeError => read_lines rest
      | Py.Raise e => Py.Raise e
      | Py.Ok data =>
          match Py.get data "diff" (Py.Int 1) ≫= gt_zero with
          | Py.Ok true =>
              match read_lines rest with
              | Py.Ok results => Py.Ok (data :: results)
              | Py.Raise e => Py.Raise e
              end
          | Py.Ok false => read_lines rest
          | Py.Raise Py.JSONDecodeError => read_lines rest
          | Py.Raise e => Py.Raise e
          end
      end
  end.

(** [read_latest_jsonl(filepath, max_lines)]; the message that the outer
    [except] prints is not part of the result. *)
Definition read_latest_jsonl (f : jsonl_file) (max_lines : Z)
    : list Py.value :=
  match f with
  | Absent => []
  | Unreadable _ => []
  | Lines lines =>
      match read_lines (recent_lines lines max_lines) with
      | Py.Ok results => results
      | Py.Raise _ => []
      end
  end.

(** The response of [/anomalies] and of [/recommendations]: the count and
    the entries. *)
Definition get_anomalies (anomalies_file : jsonl_file) (limit : Z)
    : Z * list Py.value :=
  let anomalies := read_latest_jsonl anomalies_file limit in
  (Z.of_nat (List.length anomalies), anomalies).

Definition get_recommendations (recommendations_file : jsonl_file)
    (limit : Z) : Z * list Py.value :=
  let recommendations := read_latest_jsonl recommendations_file limit in
  (Z.of_nat (List.length recommendations), recommendations).

(** [bool(v)]. *)
Definition truthy (v : Py.value) : bool :=
  match v with
  | Py.NoneValue => false
  | Py.Bool b => b
  | Py.Int z => negb (z =? 0)
  | Py.Float f => negb (f =? 0)%float
  | Py.Str s => negb (String.eqb s "")
  | Py.List l => match l with [] => false | _ => true end
  | Py.Dict d => match d with [] => false | _ => true end
  end.

(** An integer and a float are equal when they are the same number. *)
Definition Z_eq_float (z : Z) (f : float) : bool :=
  match Prim2SF f with
  | S754_zero _ => z =? 0
  | S754_finite s m e =>
      let magnitude := if s then - z else z in
      if 0 <=? e then magnitude =? Z.pos m * 2 ^ e
      else magnitude * 2 ^ (- e) =? Z.pos m
  | _ => false
  end.

(** [a == b] on the values that can be keys of a dict. *)
Definition key_eqb (a b : Py.value) : bool :=
  let number (v : Py.value) : option (Z + float) :=
    match v with
    | Py.Bool b => Some (inl (if b then 1 else 0))
    | Py.Int z => Some (inl z)
    | Py.Float f => Some (inr f)
    | _ => None
    end in
  match a, b with
  | Py.Str s, Py.Str s' => String.eqb s s'
  | Py.NoneValue, Py.NoneValue => true
  | _, _ =>
      match number a, number b with
      | Some (inl z), Some (inl z') => z =? z'
      | Some (inl z), Some (inr f) | Some (inr f), Some (inl z) =>
          Z_eq_float z f
      | Some (inr f), Some (inr f') => (f =? f')%float
      | _, _ => false
      end
  end.

(** [d[k]] in a dict given by its items in insertion order. *)
Fixpoint dict_lookup (d : list (Py.value * Py.value)) (k : Py.value)
    : option Py.value :=
  match d with
  | [] => None
  | (k', v) :: rest => if key_eqb k' k then Some v else dict_lookup rest k
  end.

(** The items after [d[k] = v] for a hashable [k]: an equal key keeps its
    place and gets the new value, a new key goes last. *)
Fixpoint dict_set (d : list (Py.value * Py.value)) (k v : Py.value)
    : list (Py.value * Py.value) :=
  match d with
  | [] => [(k, v)]
  | (k', v') :: rest =>
      if key_eqb k' k then (k', v) :: rest else (k', v') :: dict_set rest k v
  end.

(** [d[k] = v]: lists and dicts are not hashable. *)
Definition setitem (d : list (Py.value * Py.value)) (k v : Py.value)
    : Py.result (list (Py.value * Py.value)) :=
  match k with
  | Py.List _ | Py.Dict _ => Py.Raise Py.TypeError
  | _ => Py.Ok (dict_set d k v)
  end.

(** The [for] loop of [get_device_statistics]. *)
Fixpoint latest_stats (stats : list Py.value)
    (acc : list (Py.value * Py.value))
    : Py.result (list (Py.value * Py.value)) :=
  match stats with
  | [] => Py.Ok acc
  | entry :: rest =>
      Py.get entry "device_type" Py.NoneValue ≫= fun device_type =>
      if truthy device_type
      then setitem acc device_type entry ≫= latest_stats rest
      else latest_stats rest acc
  end.

(** The response of [/statistics]: the device types and the entry of
    each; an exception leaves the handler. *)
Definition get_device_statistics (device_stats_file : jsonl_file)
    : Py.result (list Py.value * list (Py.value * Py.value)) :=
  let stats := read_latest_jsonl device_stats_file 100 in
  latest_stats stats [] ≫= fun latest => mret (List.map fst latest, latest).

(* ===================================================================== *)
(** * The vocabulary of the statements *)
(* ===================================================================== *)

(** ** The order of binary64 values *)

Module FloatOrder.

(** A key whose lexicographic order is the order of the non-NaN values. *)
Definition rank (f : spec_float) : option (Z * Z * Z) :=
  match f with
  | S754_nan => None
  | S754_infinity s => Some (if s then -2 else 2, 0, 0)
  | S754_zero _ => Some (0, 0, 0)
  | S754_finite s m e =>
      Some (if s then (-1, - e, - Z.pos m) else (1, e, Z.pos m))
  end.

Definition lex_le (a b : Z * Z * Z) : Prop :=
  let '(a1, a2, a3) := a in
  let '(b1, b2, b3) := b in
  a1 < b1 \/ (a1 = b1 /\ (a2 < b2 \/ (a2 = b2 /\ a3 <= b3))).

Definition lex_lt (a b : Z * Z * Z) : Prop :=
  let '(a1, a2, a3) := a in
  let '(b1, b2, b3) := b in
  a1 < b1 \/ (a1 = b1 /\ (a2 < b2 \/ (a2 = b2 /\ a3 < b3))).

Definition ranked (R : Z * Z * Z -> Z * Z * Z -> Prop) (x y : spec_float)
    : Prop :=
  match rank x, rank y with
  | Some a, Some b => R a b
  | _, _ => False
  end.

End FloatOrder.

(** ** The rule tables *)

(** The conditions of the four alert rules, in their order. *)
Definition alert_rule_inrush (current : float) (status : string) : bool :=
  String.eqb status "starting"
  && PyFloat.gt current PathwayConfig.HIGH_CURRENT_THRESHOLD.
Definition alert_rule_fault (status : string) : bool :=
  String.eqb status "fault".
Definition alert_rule_high (current : float) : bool :=
  PyFloat.gt current PathwayConfig.HIGH_CURRENT_THRESHOLD.

(** The conditions of the rules (a) to (e), in the order of the table. *)
Module Rule.
Definition a (pricing_tier : string) (power : float) : bool :=
  String.eqb pricing_tier "HIGH" && PyFloat.gt power 500.
Definition b (pricing_tier carbon_level : string) : bool :=
  String.eqb pricing_tier "HIGH" && String.eqb carbon_level "HIGH".
Definition c (carbon_level : string) (power : float) : bool :=
  String.eqb carbon_level "HIGH" && PyFloat.gt power 500.
Definition d (pricing_tier carbon_level : string) : bool :=
  String.eqb pricing_tier "LOW" && String.eqb carbon_level "LOW".
Definition e (renewable_pct : float) : bool :=
  PyFloat.gt renewable_pct 70.
End Rule.

(** ** The as-of match *)

(** What a backward as-of match for the instant [t] is: the matched row is
    a grid row at or before [t] and no grid row at or before [t] is later;
    there is no match exactly when no grid row is at or before [t]. *)
Definition most_recent_at_or_before (t : float) (grid_stream : list GridRow.t)
    (m : option GridRow.t) : Prop :=
  match m with
  | Some g =>
      In g grid_stream /\
      (GridRow.timestamp g <=? t)%float = true /\
      forall g', In g' grid_stream ->
                 (GridRow.timestamp g' <=? t)%float = true ->
                 (GridRow.timestamp g' <=? GridRow.timestamp g)%float = true
  | None =>
      forall g', In g' grid_stream ->
                 (GridRow.timestamp g' <=? t)%float = false
  end.

(** The scenario of the join: grid rows at t=10 and t=20, a device row at
    t=15. *)
Module Scenario.
Definition grid10 : GridRow.t :=
  GridRow.mk 300 "LOW" 0.10 "LOW" 80 10.
Definition grid20 : GridRow.t :=
  GridRow.mk 700 "HIGH" 0.30 "HIGH" 20 20.
Definition device15 : DeviceRow.t :=
  DeviceRow.mk "HVAC_001" "hvac" "running" 230 50 800 15.
Definition device25 : DeviceRow.t :=
  DeviceRow.mk "HVAC_001" "hvac" "running" 230 50 800 25.
Definition device5 : DeviceRow.t :=
  DeviceRow.mk "HVAC_001" "hvac" "running" 230 50 800 5.
End Scenario.

(** ** The statistics of a group *)

(** The row the specification gives for the rows [g] of the type [ty]. *)
Definition statistics_of (ty : string) (g : list DeviceRow.t)
    : AggregateRow.t :=
  {| AggregateRow.device_type := ty;
     AggregateRow.avg_current :=
       arithmetic_mean (List.map DeviceRow.current g);
     AggregateRow.max_current := maximum (List.map DeviceRow.current g);
     AggregateRow.avg_power := arithmetic_mean (List.map DeviceRow.power g);
     AggregateRow.total_samples := Z.of_nat (List.length g) |}.

(** Three motor readings: currents 10, 20 and 60 A, powers 2300, 4600 and
    13800 W. *)
Definition three_motor_rows : list DeviceRow.t :=
  [ DeviceRow.mk "MOTOR_1" "motor" "running" 230 10 2300 1;
    DeviceRow.mk "MOTOR_2" "motor" "running" 230 20 4600 1;
    DeviceRow.mk "MOTOR_1" "motor" "running" 230 60 13800 2 ].

(** ** Well-formed changelogs *)

(** Each entry of [log], replayed from [view], is the insertion of a row
    for a type that has no live row, or the retraction of the live row of
    its type. *)
Fixpoint well_formed_from (view : gmap string AggregateRow.t)
    (log : list ChangelogEntry.t) : Prop :=
  match log with
  | [] => True
  | e :: rest =>
      let ty := AggregateRow.device_type (ChangelogEntry.row e) in
      ((ChangelogEntry.diff e = 1 /\ view !! ty = None) \/
       (ChangelogEntry.diff e = -1 /\
        view !! ty = Some (ChangelogEntry.row e))) /\
      well_formed_from (apply_entry view e) rest
  end.

(** The device types of [view] are exactly those of net diff 1 in [log],
    the others have net diff 0. *)
Definition net_reconstructs (log : list ChangelogEntry.t)
    (view : gmap string AggregateRow.t) : Prop :=
  forall ty : string,
    net_diff ty log = match view !! ty with Some _ => 1 | None => 0 end.

(** The entries of [log] for the device type [ty], in their order. *)
Definition entries_of (ty : string) (log : list ChangelogEntry.t)
    : list ChangelogEntry.t :=
  List.filter
    (fun e => String.eqb (AggregateRow.device_type (ChangelogEntry.row e)) ty)
    log.

(** ** The polls of the adapters *)

(** The rows of the entries up to the first one that raises, and what it
    raises. *)
Fixpoint emitted `{Py.Builtins} (timestamp : Py.value)
    (entries : list (string * Py.value))
    : list DeviceRow.t * option Py.exn :=
  match entries with
  | [] => ([], None)
  | entry :: rest =>
      match device_record (fst entry) (snd entry) timestamp with
      | Py.Ok row =>
          let (rows, e) := emitted timestamp rest in (row :: rows, e)
      | Py.Raise e => ([], Some e)
      end
  end.

(** A scenario of the device adapter: a snapshot stamped 5 with a pump
    whose entry has a timestamp of its own, 7, and a motor whose entry has
    no power; the clock reads 9. Its values are floats and strings, so the
    text built-ins are never called on it. *)
Module Snapshot.
Definition builtins : Py.Builtins :=
  {| Py.float_of_str := fun _ => None; Py.repr := fun _ => EmptyString |}.
Definition pump : Py.value :=
  Py.Dict [ ("device_type", Py.Str "pump"); ("status", Py.Str "running");
            ("voltage", Py.Float 230); ("current", Py.Float 5);
            ("power", Py.Float 1150); ("timestamp", Py.Float 7) ]%string.
Definition motor_without_power : Py.value :=
  Py.Dict [ ("device_type", Py.Str "motor"); ("status", Py.Str "running");
            ("voltage", Py.Float 230); ("current", Py.Float 120) ]%string.
Definition pump_row : DeviceRow.t :=
  DeviceRow.mk "PUMP_1" "pump" "running" 230 5 1150 5.
Definition good : poll :=
  {| outcome :=
       Response 200
         (Some (Py.Dict [ ("timestamp", Py.Float 5);
                          ("devices", Py.Dict [ ("PUMP_1", pump) ]) ]%string));
     now := 9%float |}.
Definition half_bad : poll :=
  {| outcome :=
       Response 200
         (Some (Py.Dict [ ("timestamp", Py.Float 5);
                          ("devices",
                            Py.Dict [ ("PUMP_1", pump);
                                      ("MOTOR_1", motor_without_power) ]) ]%string));
     now := 9%float |}.
End Snapshot.

(** ** Counting *)

(** The number of samples the table records for the type [ty]. *)
Definition samples (table : gmap string AggregateRow.t) (ty : string) : Z :=
  match table !! ty with
  | Some r => AggregateRow.total_samples r
  | None => 0
  end.

(** The sum of [f] over a list of device types. *)
Fixpoint sum_over (f : string -> Z) (tys : list string) : Z :=
  match tys with
  | [] => 0
  | ty :: rest => f ty + sum_over f rest
  end.

(** A grid row is a candidate for the instant [t]. *)
Definition at_or_before (t : float) (g : GridRow.t) : bool :=
  (GridRow.timestamp g <=? t)%float.

(** The number of [Sleep] events, and the intervals slept. *)
Fixpoint sleeps {R : Type} (es : list (event R)) : list float :=
  match es with
  | [] => []
  | Sleep s :: rest => s :: sleeps rest
  | _ :: rest => sleeps rest
  end.

(** The errors printed. *)
Fixpoint errors {R : Type} (es : list (event R)) : list Py.exn :=
  match es with
  | [] => []
  | PrintError _ e :: rest => e :: errors rest
  | _ :: rest => errors rest
  end.

(** The entry is a JSON object whose [diff] is positive or absent. *)
Definition is_insertion (v : Py.value) : Prop :=
  exists fields,
    v = Py.Dict fields /\
    Py.get v "diff" (Py.Int 1) ≫= gt_zero = Py.Ok true.

(** The last entry of [stats] whose device type is the string [ty]. *)
Fixpoint last_of_type (ty : string) (stats : list Py.value)
    : option Py.value :=
  match stats with
  | [] => None
  | entry :: rest =>
      match last_of_type ty rest with
      | Some e => Some e
      | None =>
          match Py.get entry "device_type" Py.NoneValue with
          | Py.Ok (Py.Str ty') =>
              if String.eqb ty' ty then Some entry else None
          | _ => None
          end
      end
  end.

(** The device type of the entry is a string, or [None], or absent. *)
Definition typed_entry (entry : Py.value) : Prop :=
  exists fields,
    entry = Py.Dict fields /\
    (Py.lookup "device_type" fields = None \/
     Py.lookup "device_type" fields = Some Py.NoneValue \/
     exists ty, Py.lookup "device_type" fields = Some (Py.Str ty)).

(** The keys of a dict are non-empty strings. *)
Definition str_keys (d : list (Py.value * Py.value)) : Prop :=
  List.Forall (fun kv => exists ty, fst kv = Py.Str ty /\ ty <> ""%string) d.

(** A [device_stats] file of four lines: the pump's first row, its
    retraction, the pump's second row, and a row with the empty type. *)
Module StatsFile.
Definition entry (ty : string) (n diff : Z) : Py.value :=
  Py.Dict [ ("device_type", Py.Str ty); ("total_samples", Py.Int n);
            ("diff", Py.Int diff) ]%string.
Definition file : jsonl_file :=
  Lines [ Py.Ok (entry "pump" 1 1); Py.Ok (entry "pump" 1 (-1));
          Py.Ok (entry "pump" 2 1); Py.Ok (entry "" 1 1) ].
End StatsFile.

(* ===================================================================== *)
(** * Properties *)
(* ===================================================================== *)

(** ** The order of binary64 values *)

Module FloatOrderFacts.
Import FloatOrder.

Lemma SFcompare_rank (x y : spec_float) :
  match SFcompare x y with
  | Some Lt => ranked lex_lt x y
  | Some Eq => ranked lex_le x y /\ ranked lex_le y x
  | Some Gt => ranked lex_lt y x
  | None => rank x = None \/ rank y = None
  end.
Proof.
  destruct x as [sx|sx| |sx mx ex], y as [sy|sy| |sy my ey];
    cbn -[Z.compare]; auto;
    try (destruct sx); try (destruct sy); cbn -[Z.compare]; try lia.
  all: change (PosDef.Pos.compare_cont Eq mx my) with (mx ?= my)%positive.
  all: destruct (Z.compare_spec ex ey), (Pos.compare_spec mx my);
    cbn; lia.
Qed.

Lemma leb_ranked (x y : float) :
  (x <=? y)%float = true <-> ranked lex_le (Prim2SF x) (Prim2SF y).
Proof.
  rewrite leb_spec. unfold SFleb.
  pose proof (SFcompare_rank (Prim2SF x) (Prim2SF y)) as H.
  unfold ranked in *.
  destruct (SFcompare (Prim2SF x) (Prim2SF y)) as [[]|];
    destruct (rank (Prim2SF x)) as [[[a1 a2] a3]|],
             (rank (Prim2SF y)) as [[[b1 b2] b3]|];
    cbn in *; split; intros; try discriminate; try reflexivity;
    try tauto; try lia; try (destruct H; discriminate).
Qed.

Lemma ltb_ranked (x y : float) :
  (x <? y)%float = true <-> ranked lex_lt (Prim2SF x) (Prim2SF y).
Proof.
  rewrite ltb_spec. unfold SFltb.
  pose proof (SFcompare_rank (Prim2SF x) (Prim2SF y)) as H.
  unfold ranked in *.
  destruct (SFcompare (Prim2SF x) (Prim2SF y)) as [[]|];
    destruct (rank (Prim2SF x)) as [[[a1 a2] a3]|],
             (rank (Prim2SF y)) as [[[b1 b2] b3]|];
    cbn in *; split; intros; try discriminate; try reflexivity;
    try tauto; try lia; try (destruct H; discriminate).
Qed.

Ltac by_rank :=
  rewrite ?leb_ranked, ?ltb_ranked in *; unfold ranked in *;
  repeat match goal with
    | |- context [rank ?f] =>
        let a1 := fresh "a" in let a2 := fresh "a" in let a3 := fresh "a" in
        destruct (rank f) as [[[a1 a2] a3]|]
    | H : context [rank ?f] |- _ =>
        let a1 := fresh "a" in let a2 := fresh "a" in let a3 := fresh "a" in
        destruct (rank f) as [[[a1 a2] a3]|]
    end;
  cbn in *; try tauto; try lia.

Lemma leb_trans (x y z : float) :
  (x <=? y)%float = true -> (y <=? z)%float = true ->
  (x <=? z)%float = true.
Proof. intros H1 H2. by_rank. Qed.

Lemma ltb_leb_trans (x y z : float) :
  (x <? y)%float = true -> (y <=? z)%float = true ->
  (x <? z)%float = true.
Proof. intros H1 H2. by_rank. Qed.

(** A value that compares at all is not NaN, so it is below itself. *)
Lemma leb_refl_of_leb (x t : float) :
  (x <=? t)%float = true -> (x <=? x)%float = true.
Proof. intros H1. by_rank. Qed.

(** Two values that are both below some bound are comparable. *)
Lemma leb_total_below (x y t u : float) :
  (x <=? t)%float = true -> (y <=? u)%float = true ->
  (x <=? y)%float = false -> (y <=? x)%float = true.
Proof.
  intros H1 H2 H3. apply not_true_iff_false in H3.
  by_rank.
Qed.

End FloatOrderFacts.

Module FloatOrderMore.
Import FloatOrder FloatOrderFacts.

Lemma eqb_ranked (x y : float) :
  (x =? y)%float = true <->
  ranked lex_le (Prim2SF x) (Prim2SF y) /\
  ranked lex_le (Prim2SF y) (Prim2SF x).
Proof.
  rewrite FloatAxioms.eqb_spec. unfold SFeqb.
  pose proof (SFcompare_rank (Prim2SF x) (Prim2SF y)) as H.
  unfold ranked in *.
  destruct (SFcompare (Prim2SF x) (Prim2SF y)) as [[]|];
    destruct (rank (Prim2SF x)) as [[[a1 a2] a3]|],
             (rank (Prim2SF y)) as [[[b1 b2] b3]|];
    cbn in *; split; intros; try discriminate; try reflexivity;
    try tauto; try lia; try (destruct H; discriminate).
Qed.

Ltac by_rank' :=
  rewrite ?leb_ranked, ?ltb_ranked, ?eqb_ranked in *; unfold ranked in *;
  repeat match goal with
    | |- context [rank ?f] =>
        let a1 := fresh "a" in let a2 := fresh "a" in let a3 := fresh "a" in
        destruct (rank f) as [[[a1 a2] a3]|]
    | H : context [rank ?f] |- _ =>
        let a1 := fresh "a" in let a2 := fresh "a" in let a3 := fresh "a" in
        destruct (rank f) as [[[a1 a2] a3]|]
    end;
  cbn in *; try tauto; try lia.

Lemma leb_antisym (x y : float) :
  (x <=? y)%float = true -> (y <=? x)%float = true ->
  (x =? y)%float = true.
Proof. intros H1 H2. by_rank'. Qed.

Lemma ltb_leb (x y : float) :
  (x <? y)%float = true -> (x <=? y)%float = true.
Proof. intros H1. by_rank'. Qed.

(** Of two values that are not NaN, one is strictly below the other or
    the other is at most the first. *)
Lemma not_ltb_leb (x y : float) :
  (x =? x)%float = true -> (y =? y)%float = true ->
  (x <? y)%float = false -> (y <=? x)%float = true.
Proof.
  intros H1 H2 H3. apply not_true_iff_false in H3. by_rank'.
Qed.

Lemma leb_refl (x : float) :
  (x =? x)%float = true -> (x <=? x)%float = true.
Proof. intros H1. by_rank'. Qed.

(** NaN is at or below nothing and nothing is at or below it. *)
Lemma leb_not_nan (x y : float) :
  (x <=? y)%float = true ->
  (x =? x)%float = true /\ (y =? y)%float = true.
Proof. intros H1. split; by_rank'. Qed.

(** A value strictly below another is not at or above it. *)
Lemma ltb_not_leb (x y : float) :
  (x <? y)%float = true -> (y <=? x)%float = false.
Proof.
  intros H1. apply not_true_iff_false. intros H2. by_rank'.
Qed.

(** A value is not strictly below itself. *)
Lemma ltb_irrefl (x : float) : (x <? x)%float = false.
Proof. apply not_true_iff_false. intros H1. by_rank'. Qed.

(** Nothing is strictly above a value that is strictly above one that is
    not strictly below it. *)
Lemma not_ltb_above (a b y : float) :
  (a <? b)%float = true -> (a <? y)%float = false ->
  (b <? y)%float = false.
Proof.
  intros H1 H2. apply not_true_iff_false in H2. apply not_true_iff_false.
  intros H3. by_rank'.
Qed.

End FloatOrderMore.

(** ** Python's formatting and rounding on known values *)

Example format_examples :
  PyFloat.format_f 1 120%float = "120.0"%string /\
  PyFloat.format_f 2 0.125%float = "0.12"%string /\
  PyFloat.format_f 2 2.675%float = "2.67"%string /\
  PyFloat.format_f 0 0.5%float = "0"%string /\
  PyFloat.format_f 0 1.5%float = "2"%string /\
  PyFloat.format_f 1 (-0.04)%float = "-0.0"%string /\
  PyFloat.format_f 3 0.15%float = "0.150"%string /\
  PyFloat.format_f 2 1e22%float = "10000000000000000000000.00"%string /\
  PyFloat.format_f 3 0.0005%float = "0.001"%string /\
  PyFloat.format_f 1 infinity = "inf"%string.
Proof. vm_compute. repeat split. Qed.

Example round_examples :
  PyFloat.round (800 / 1000 * 0.15)%float 4 = 0.12%float /\
  PyFloat.round 2.675%float 2 = 2.67%float /\
  PyFloat.round 0.00005%float 4 = 0.0001%float /\
  PyFloat.round 123456789.123456789%float 4 = 123456789.1235%float /\
  PyFloat.round 1e300%float 4 = 1e300%float.
Proof. vm_compute. repeat split. Qed.

(* ===================================================================== *)
(** ** The anomaly detector *)
(* ===================================================================== *)

Lemma evaluate_some (r : DeviceRow.t) :
  is_anomalous r = true -> evaluate r = Some (anomaly_of r).
Proof. unfold evaluate. now intros ->. Qed.

Lemma evaluate_none (r : DeviceRow.t) :
  is_anomalous r = false -> evaluate r = None.
Proof. unfold evaluate. now intros ->. Qed.

Lemma in_detect_anomalies (rows : list DeviceRow.t) (a : AnomalyRow.t) :
  In a (_detect_anomalies rows) <->
  exists r, In r rows /\ is_anomalous r = true /\ a = anomaly_of r.
Proof.
  unfold _detect_anomalies. rewrite in_map_iff. split.
  - intros (r & <- & Hr). apply filter_In in Hr. destruct Hr. eauto.
  - intros (r & Hr & Ha & ->). exists r. split; [reflexivity|].
    apply filter_In. auto.
Qed.

(** C6: a device row yields an anomaly row exactly when its current is
    strictly greater than HIGH_CURRENT_THRESHOLD, which is 100.0; so of two
    rows, one above the threshold and one not, the first is emitted and the
    second is not, and a row whose current is at least that of an emitted
    row is emitted too. *)
Theorem C6_anomaly_iff_current_above_threshold :
  PathwayConfig.HIGH_CURRENT_THRESHOLD = 100.0%float /\
  (forall r : DeviceRow.t,
      (evaluate r = Some (anomaly_of r) <->
       (100.0 <? DeviceRow.current r)%float = true) /\
      (evaluate r = None <->
       (100.0 <? DeviceRow.current r)%float = false)) /\
  (forall (rows : list DeviceRow.t) (r : DeviceRow.t),
      In r rows ->
      (In (anomaly_of r) (_detect_anomalies rows) <->
       (100.0 <? DeviceRow.current r)%float = true)) /\
  (forall a b : DeviceRow.t,
      (100.0 <? DeviceRow.current a)%float = true ->
      (100.0 <? DeviceRow.current b)%float = false ->
      evaluate a = Some (anomaly_of a) /\ evaluate b = None) /\
  (forall a b : DeviceRow.t,
      evaluate a = Some (anomaly_of a) ->
      (DeviceRow.current a <=? DeviceRow.current b)%float = true ->
      evaluate b = Some (anomaly_of b)).
Proof.
  assert (Hev : forall r : DeviceRow.t,
             (evaluate r = Some (anomaly_of r) <->
              (100.0 <? DeviceRow.current r)%float = true) /\
             (evaluate r = None <->
              (100.0 <? DeviceRow.current r)%float = false)).
  { intros r. unfold evaluate, is_anomalous, PyFloat.gt.
    change PathwayConfig.HIGH_CURRENT_THRESHOLD with 100.0%float.
    destruct (100.0 <? DeviceRow.current r)%float;
      repeat split; congruence. }
  split; [reflexivity|]. split; [exact Hev|]. split; [|split].
  - intros rows r Hin. rewrite in_detect_anomalies. split.
    + intros (r' & _ & Hr' & Heq).
      assert (DeviceRow.current r = DeviceRow.current r') as ->
        by exact (f_equal AnomalyRow.current Heq).
      exact Hr'.
    + intros H. exists r. auto.
  - intros a b Ha Hb. split; [apply Hev, Ha | apply Hev, Hb].
  - intros a b Ha Hab. apply Hev. apply Hev in Ha.
    exact (FloatOrderFacts.ltb_leb_trans _ _ _ Ha Hab).
Qed.

(* ===================================================================== *)
(** ** The alert texts *)
(* ===================================================================== *)

(** C3: the alert text is that of the first rule that matches, in the
    order motor inrush (starting and above the threshold), fault (whatever
    the current), high current (above the threshold), generic; a starting
    device at 120 A gets the motor-inrush text and not the high-current
    one. *)
Theorem C3_alert_first_match_priority :
  (forall (current : float) (status : string),
      (alert_rule_inrush current status = true ->
       get_anomaly_alert current status = Alert.motor_inrush current) /\
      (alert_rule_inrush current status = false ->
       alert_rule_fault status = true ->
       get_anomaly_alert current status = Alert.fault current) /\
      (alert_rule_inrush current status = false ->
       alert_rule_fault status = false ->
       alert_rule_high current = true ->
       get_anomaly_alert current status = Alert.high_current current) /\
      (alert_rule_inrush current status = false ->
       alert_rule_fault status = false ->
       alert_rule_high current = false ->
       get_anomaly_alert current status = Alert.generic current)) /\
  get_anomaly_alert 120 "starting" = "⚠️ MOTOR INRUSH: 120.0A"%string /\
  get_anomaly_alert 120 "starting" = Alert.motor_inrush 120 /\
  get_anomaly_alert 120 "starting" <> Alert.high_current 120 /\
  get_anomaly_alert 120 "starting" <> Alert.generic 120.
Proof.
  split.
  - intros current status.
    unfold get_anomaly_alert, alert_rule_inrush, alert_rule_fault,
      alert_rule_high, PyFloat.gt.
    change PathwayConfig.HIGH_CURRENT_THRESHOLD with 100.0%float.
    destruct (String.eqb status "starting"), (String.eqb status "fault"),
      (100.0 <? current)%float; cbn [andb];
      repeat split; intros; reflexivity || discriminate.
  - repeat split; try (vm_compute; reflexivity); vm_compute; discriminate.
Qed.

Lemma append_assoc (a b c : string) : (a +++ b) +++ c = a +++ (b +++ c).
Proof.
  induction a as [|ch a IH]; [reflexivity|].
  change (String ch ((a +++ b) +++ c) = String ch (a +++ (b +++ c))).
  now rewrite IH.
Qed.

Lemma embeds_alert (prefix : string) (current : float) :
  embeds (PyFloat.format_f 1 current)
    (prefix +++ PyFloat.format_f 1 current +++ "A").
Proof. exists prefix, "A"%string. reflexivity. Qed.

(** C10: under the filter's condition, current above the threshold, the
    alert is the motor-inrush, the fault or the high-current text, never
    the generic one, and it contains the current formatted to one
    decimal; so no emitted anomaly row carries the generic text. *)
Theorem C10_generic_alert_unreachable_after_filter :
  (forall (current : float) (status : string),
      PyFloat.gt current PathwayConfig.HIGH_CURRENT_THRESHOLD = true ->
      (get_anomaly_alert current status = Alert.motor_inrush current \/
       get_anomaly_alert current status = Alert.fault current \/
       get_anomaly_alert current status = Alert.high_current current) /\
      get_anomaly_alert current status <> Alert.generic current /\
      embeds (PyFloat.format_f 1 current)
        (get_anomaly_alert current status)) /\
  (forall (rows : list DeviceRow.t) (a : AnomalyRow.t),
      In a (_detect_anomalies rows) ->
      AnomalyRow.alert a <> Alert.generic (AnomalyRow.current a) /\
      embeds (PyFloat.format_f 1 (AnomalyRow.current a))
        (AnomalyRow.alert a)).
Proof.
  assert (Hone : forall (current : float) (status : string),
      PyFloat.gt current PathwayConfig.HIGH_CURRENT_THRESHOLD = true ->
      (get_anomaly_alert current status = Alert.motor_inrush current \/
       get_anomaly_alert current status = Alert.fault current \/
       get_anomaly_alert current status = Alert.high_current current) /\
      get_anomaly_alert current status <> Alert.generic current /\
      embeds (PyFloat.format_f 1 current)
        (get_anomaly_alert current status)).
  { intros current status Hgt. unfold get_anomaly_alert. rewrite Hgt.
    destruct (String.eqb status "starting"), (String.eqb status "fault");
      cbn [andb]; (split; [auto|]); (split; [|apply embeds_alert]);
      unfold Alert.motor_inrush, Alert.fault, Alert.high_current,
        Alert.generic; cbn [String.append]; discriminate. }
  split; [exact Hone|].
  intros rows a Ha. apply in_detect_anomalies in Ha.
  destruct Ha as (r & _ & Hr & ->). cbn.
  destruct (Hone (DeviceRow.current r) (DeviceRow.status r) Hr) as (_ & H2 & H3).
  auto.
Qed.

(** A starting device at 120 A passes the filter and gets the motor-inrush
    text. *)
Lemma C10_witness :
  ((get_anomaly_alert 120 "starting" = Alert.motor_inrush 120 \/
    get_anomaly_alert 120 "starting" = Alert.fault 120 \/
    get_anomaly_alert 120 "starting" = Alert.high_current 120) /\
   get_anomaly_alert 120 "starting" <> Alert.generic 120 /\
   embeds (PyFloat.format_f 1 120) (get_anomaly_alert 120 "starting")).
Proof.
  apply (proj1 C10_generic_alert_unreachable_after_filter 120%float
           "starting"%string).
  reflexivity.
Defined.

(* ===================================================================== *)
(** ** The recommendation texts *)
(* ===================================================================== *)


(* ===================================================================== *)
(** ** The enrichment join *)
(* ===================================================================== *)

Lemma generate_recommendations_unfold
    (device_stream : list DeviceRow.t) (grid_stream : list GridRow.t) :
  _generate_recommendations device_stream grid_stream =
  List.map
    (fun d => combined d (asof_backward (DeviceRow.timestamp d) grid_stream))
    device_stream.
Proof.
  unfold _generate_recommendations, asof_join. rewrite List.map_map.
  reflexivity.
Qed.

(** C5: with no grid row at all, every device row is enriched with the
    defaults 500.0, MEDIUM, 0.15, MEDIUM and 35.0, and its cost per hour is
    round(power / 1000 * 0.15, 4); a device row with power 800 gets 0.12. *)
Theorem C5_defaults_before_any_grid_row :
  (forall device_stream : list DeviceRow.t,
      Forall2
        (fun d r =>
           RecommendationRow.device_id r = DeviceRow.device_id d /\
           RecommendationRow.power r = DeviceRow.power d /\
           RecommendationRow.timestamp r = DeviceRow.timestamp d /\
           RecommendationRow.carbon_intensity r = 500.0%float /\
           RecommendationRow.carbon_level r = "MEDIUM"%string /\
           RecommendationRow.electricity_price r = 0.15%float /\
           RecommendationRow.pricing_tier r = "MEDIUM"%string /\
           RecommendationRow.renewable_pct r = 35.0%float /\
           RecommendationRow.cost_per_hour r =
             PyFloat.round
               (DeviceRow.power d / 1000
                * RecommendationRow.electricity_price r)%float 4)
        device_stream (_generate_recommendations device_stream [])) /\
  (forall (device_id device_type status : string)
          (voltage current timestamp : float),
      List.map RecommendationRow.cost_per_hour
        (_generate_recommendations
           [DeviceRow.mk device_id device_type status voltage current
              800 timestamp] [])
      = [0.12%float]).
Proof.
  split.
  - intros device_stream. rewrite generate_recommendations_unfold.
    induction device_stream as [|d rest IH]; cbn [List.map].
    + constructor.
    + constructor; [|exact IH]. cbn. repeat split.
  - intros. vm_compute. reflexivity.
Qed.

Lemma asof_pick_most_recent (t : float) (seen : list GridRow.t)
    (best : option GridRow.t) (g : GridRow.t) :
  most_recent_at_or_before t seen best ->
  most_recent_at_or_before t (seen ++ [g]) (asof_pick t best g).
Proof.
  intros Hbest. unfold asof_pick.
  destruct (GridRow.timestamp g <=? t)%float eqn:Hg.
  - destruct best as [b|]; cbn in Hbest.
    + destruct Hbest as (Hin & Hb & Hmax).
      destruct (GridRow.timestamp b <=? GridRow.timestamp g)%float eqn:Hbg;
        cbn; (split; [apply in_or_app; cbn; auto|]); (split; [assumption|]);
        intros g' Hin' Hg'; apply in_app_or in Hin';
        destruct Hin' as [Hin'|[<-|[]]].
      * eapply FloatOrderFacts.leb_trans; [apply Hmax; assumption | exact Hbg].
      * eapply FloatOrderFacts.leb_refl_of_leb; exact Hg.
      * apply Hmax; assumption.
      * eapply FloatOrderFacts.leb_total_below; eassumption.
    + cbn. split; [apply in_or_app; cbn; auto|]. split; [assumption|].
      intros g' Hin' Hg'. apply in_app_or in Hin'.
      destruct Hin' as [Hin'|[<-|[]]].
      * rewrite (Hbest g' Hin') in Hg'. discriminate.
      * eapply FloatOrderFacts.leb_refl_of_leb; exact Hg.
  - destruct best as [b|]; cbn in *.
    + destruct Hbest as (Hin & Hb & Hmax).
      split; [apply in_or_app; auto|]. split; [assumption|].
      intros g' Hin' Hg'. apply in_app_or in Hin'.
      destruct Hin' as [Hin'|[<-|[]]]; [auto|congruence].
    + intros g' Hin'. apply in_app_or in Hin'.
      destruct Hin' as [Hin'|[<-|[]]]; auto.
Qed.

Lemma asof_backward_most_recent (t : float) (grid_stream : list GridRow.t) :
  most_recent_at_or_before t grid_stream (asof_backward t grid_stream).
Proof.
  unfold asof_backward.
  induction grid_stream as [|g seen IH] using rev_ind.
  - intros g' [].
  - rewrite fold_left_app. cbn [fold_left].
    apply asof_pick_most_recent. exact IH.
Qed.

(** C1 fails as the specification states it: with grid rows at t=10 and t=20 the device row
    at t=15 is enriched with the row at t=10, although the row at t=20 is
    the latest known one; its pricing tier is LOW, not HIGH. *)
Lemma C1_counterexample :
  latest_known [Scenario.grid10; Scenario.grid20] = Some Scenario.grid20 /\
  _generate_recommendations [Scenario.device15]
    [Scenario.grid10; Scenario.grid20]
  = [combined Scenario.device15 (Some Scenario.grid10)] /\
  List.map RecommendationRow.pricing_tier
    (_generate_recommendations [Scenario.device15]
       [Scenario.grid10; Scenario.grid20]) = ["LOW"%string] /\
  _generate_recommendations [Scenario.device15]
    [Scenario.grid10; Scenario.grid20]
  <> [combined Scenario.device15
        (latest_known [Scenario.grid10; Scenario.grid20])].
Proof.
  repeat split; try (vm_compute; reflexivity).
  intros H.
  apply (f_equal (List.map RecommendationRow.pricing_tier)) in H.
  vm_compute in H. discriminate.
Qed.

(** C1, amended: every device row gives one recommendation row, and the
    five grid fields of that row (carbon_intensity, carbon_level,
    pricing_tier, renewable_pct, electricity_price) and the price in its
    cost_per_hour are those of one grid row: a grid row at or before the
    device row's timestamp such that no grid row at or before it is later;
    when no grid row is at or before the device row's timestamp the five
    fields are the defaults 500.0, MEDIUM, MEDIUM, 35.0 and 0.15. With
    grid rows at t=10 and t=20, in either order of arrival, the row of a
    device row at t=15 has the fields of the grid row at t=10, that of a
    device row at t=25 the fields of the grid row at t=20, and that of a
    device row at t=5 the defaults. *)
Theorem C1_join_is_backward_asof :
  (forall (device_stream : list DeviceRow.t) (grid_stream : list GridRow.t),
      Forall2
        (fun d r =>
           RecommendationRow.device_id r = DeviceRow.device_id d /\
           RecommendationRow.timestamp r = DeviceRow.timestamp d /\
           ((exists g : GridRow.t,
                In g grid_stream /\
                (GridRow.timestamp g <=? DeviceRow.timestamp d)%float = true /\
                (forall g',
                    In g' grid_stream ->
                    (GridRow.timestamp g' <=? DeviceRow.timestamp d)%float
                    = true ->
                    (GridRow.timestamp g' <=? GridRow.timestamp g)%float
                    = true) /\
                RecommendationRow.carbon_intensity r
                = GridRow.carbon_intensity g /\
                RecommendationRow.carbon_level r = GridRow.carbon_level g /\
                RecommendationRow.pricing_tier r = GridRow.pricing_tier g /\
                RecommendationRow.renewable_pct r = GridRow.renewable_pct g /\
                RecommendationRow.electricity_price r
                = GridRow.electricity_price g /\
                RecommendationRow.cost_per_hour r
                = PyFloat.round
                    (DeviceRow.power d / 1000
                     * GridRow.electricity_price g)%float 4) \/
            ((forall g,
                 In g grid_stream ->
                 (GridRow.timestamp g <=? DeviceRow.timestamp d)%float
                 = false) /\
             RecommendationRow.carbon_intensity r = 500.0%float /\
             RecommendationRow.carbon_level r = "MEDIUM"%string /\
             RecommendationRow.pricing_tier r = "MEDIUM"%string /\
             RecommendationRow.renewable_pct r = 35.0%float /\
             RecommendationRow.electricity_price r = 0.15%float)))
        device_stream (_generate_recommendations device_stream grid_stream)) /\
  (forall grid_stream : list GridRow.t,
      grid_stream = [Scenario.grid10; Scenario.grid20] \/
      grid_stream = [Scenario.grid20; Scenario.grid10] ->
      List.map
        (fun r =>
           (RecommendationRow.timestamp r,
            RecommendationRow.carbon_intensity r,
            RecommendationRow.carbon_level r,
            RecommendationRow.pricing_tier r,
            RecommendationRow.renewable_pct r,
            RecommendationRow.electricity_price r))
        (_generate_recommendations
           [Scenario.device15; Scenario.device25; Scenario.device5]
           grid_stream)
      = [ (15, 300, "LOW", "LOW", 80, 0.10);
          (25, 700, "HIGH", "HIGH", 20, 0.30);
          (5, 500.0, "MEDIUM", "MEDIUM", 35.0, 0.15) ]%float%string).
Proof.
  split.
  - intros device_stream grid_stream.
    rewrite generate_recommendations_unfold.
    induction device_stream as [|d rest IH]; cbn [List.map];
      constructor; [|exact IH].
    split; [reflexivity|]. split; [reflexivity|].
    pose proof (asof_backward_most_recent (DeviceRow.timestamp d) grid_stream)
      as Hm.
    destruct (asof_backward (DeviceRow.timestamp d) grid_stream) as [g|];
      cbn in Hm.
    + left. exists g. destruct Hm as (Hin & Hle & Hmax).
      split; [exact Hin|]. split; [exact Hle|]. split; [exact Hmax|].
      cbn. repeat split.
    + right. split; [exact Hm|]. cbn. repeat split.
  - intros grid_stream [->| ->]; vm_compute; reflexivity.
Qed.

(* ===================================================================== *)
(** ** The per-type statistics *)
(* ===================================================================== *)

Lemma rows_of_type_app (ty : string) (l1 l2 : list DeviceRow.t) :
  rows_of_type ty (l1 ++ l2) = rows_of_type ty l1 ++ rows_of_type ty l2.
Proof. apply List.filter_app. Qed.

Lemma groupby_fold (ty : string) (rows : list DeviceRow.t)
    (m : gmap string (list DeviceRow.t)) :
  fold_left
    (fun (m : gmap string (list DeviceRow.t)) r =>
       <[DeviceRow.device_type r :=
           default [] (m !! DeviceRow.device_type r) ++ [r]]> m)
    rows m !! ty
  = match rows_of_type ty rows with
    | [] => m !! ty
    | g => Some (default [] (m !! ty) ++ g)
    end.
Proof.
  revert m. induction rows as [|r rest IH]; intros m; [reflexivity|].
  cbn [fold_left]. rewrite IH. unfold rows_of_type. cbn [List.filter].
  fold (rows_of_type ty rest).
  destruct (String.eqb_spec (DeviceRow.device_type r) ty) as [->|Hne].
  - rewrite lookup_insert_eq. cbn [default].
    destruct (rows_of_type ty rest) as [|r' g]; [reflexivity|].
    unfold id. now rewrite <- List.app_assoc.
  - rewrite lookup_insert_ne by exact Hne. reflexivity.
Qed.

Lemma groupby_lookup (ty : string) (rows : list DeviceRow.t) :
  groupby DeviceRow.device_type rows !! ty
  = match rows_of_type ty rows with
    | [] => None
    | g => Some g
    end.
Proof.
  unfold groupby. rewrite groupby_fold. rewrite lookup_empty. reflexivity.
Qed.

(** The table has a row for a type exactly when a row of that type has
    arrived, and it is the reduction of all the rows of that type. *)
Lemma statistics_lookup (ty : string) (rows : list DeviceRow.t) :
  _compute_statistics rows !! ty
  = match rows_of_type ty rows with
    | [] => None
    | g => Some (reduce_group ty g)
    end.
Proof.
  unfold _compute_statistics. rewrite map_lookup_imap, groupby_lookup.
  destruct (rows_of_type ty rows); reflexivity.
Qed.

Lemma statistics_device_type (ty : string) (rows : list DeviceRow.t)
    (r : AggregateRow.t) :
  _compute_statistics rows !! ty = Some r -> AggregateRow.device_type r = ty.
Proof.
  rewrite statistics_lookup. destruct (rows_of_type ty rows); [discriminate|].
  intros [= <-]. reflexivity.
Qed.

Lemma sum_fold (f : DeviceRow.t -> float) (g : list DeviceRow.t) (acc : float) :
  fold_left (fun a r => (a + f r)%float) g acc
  = fold_left PrimFloat.add (List.map f g) acc.
Proof.
  revert acc. induction g as [|r g IH]; intros acc; [reflexivity|].
  cbn. apply IH.
Qed.

Lemma avg_is_arithmetic_mean (f : DeviceRow.t -> float)
    (g : list DeviceRow.t) :
  reducers.avg f g = arithmetic_mean (List.map f g).
Proof.
  unfold reducers.avg, reducers.sum, reducers.count, arithmetic_mean.
  now rewrite sum_fold, List.length_map.
Qed.

Lemma max_fold (f : DeviceRow.t -> float) (g : list DeviceRow.t) (acc : float) :
  fold_left (fun a r => float_max a (f r)) g acc
  = fold_left float_max (List.map f g) acc.
Proof.
  revert acc. induction g as [|r g IH]; intros acc; [reflexivity|].
  cbn. apply IH.
Qed.

Lemma max_is_maximum (f : DeviceRow.t -> float) (g : list DeviceRow.t) :
  reducers.max f g = maximum (List.map f g).
Proof.
  destruct g as [|r g]; [reflexivity|]. cbn. apply max_fold.
Qed.

Lemma reduce_group_statistics (ty : string) (g : list DeviceRow.t) :
  reduce_group ty g = statistics_of ty g.
Proof.
  unfold reduce_group, statistics_of.
  now rewrite !avg_is_arithmetic_mean, max_is_maximum.
Qed.

Lemma rows_of_type_all (ty : string) (rows : list DeviceRow.t) :
  List.Forall (fun r => DeviceRow.device_type r = ty) rows ->
  rows_of_type ty rows = rows.
Proof.
  induction 1 as [|r rest Hr _ IH]; [reflexivity|].
  unfold rows_of_type. cbn [List.filter]. fold (rows_of_type ty rest).
  rewrite IH. apply String.eqb_eq in Hr. now rewrite Hr.
Qed.

Lemma rows_of_type_other (ty ty' : string) (rows : list DeviceRow.t) :
  List.Forall (fun r => DeviceRow.device_type r = ty) rows ->
  ty' <> ty -> rows_of_type ty' rows = [].
Proof.
  intros Hall Hne. induction Hall as [|r rest Hr _ IH]; [reflexivity|].
  unfold rows_of_type. cbn [List.filter]. fold (rows_of_type ty' rest).
  rewrite IH. destruct (String.eqb_spec (DeviceRow.device_type r) ty');
    [congruence | reflexivity].
Qed.

Lemma fold_max_in (l : list float) :
  forall a : float, In (fold_left float_max l a) (a :: l).
Proof.
  induction l as [|b l IH]; intros a; [now left|].
  cbn [fold_left]. specialize (IH (float_max a b)).
  unfold float_max in *. destruct (a <? b)%float; cbn in *; tauto.
Qed.

Lemma fold_max_upper (l : list float) :
  forall a : float,
    (a =? a)%float = true ->
    List.Forall (fun x => (x =? x)%float = true) l ->
    forall y, In y (a :: l) -> (y <=? fold_left float_max l a)%float = true.
Proof.
  induction l as [|b l IH]; intros a Ha Hl y Hy.
  - destruct Hy as [<-|[]]. now apply FloatOrderMore.leb_refl.
  - apply List.Forall_cons_iff in Hl. destruct Hl as [Hb Hl].
    cbn [fold_left].
    assert (Hm : (float_max a b =? float_max a b)%float = true)
      by (unfold float_max; destruct (a <? b)%float; assumption).
    assert (Hab : (a <=? float_max a b)%float = true /\
                  (b <=? float_max a b)%float = true).
    { unfold float_max. destruct (a <? b)%float eqn:Hlt.
      - split; [now apply FloatOrderMore.ltb_leb
               | now apply FloatOrderMore.leb_refl].
      - split; [now apply FloatOrderMore.leb_refl
               | now apply FloatOrderMore.not_ltb_leb]. }
    pose proof (IH (float_max a b) Hm Hl) as Hup.
    destruct Hy as [<-|[<-|Hy]].
    + eapply FloatOrderFacts.leb_trans; [apply Hab | apply Hup; now left].
    + eapply FloatOrderFacts.leb_trans; [apply Hab | apply Hup; now left].
    + apply Hup. now right.
Qed.

Lemma maximum_in (xs : list float) : xs <> [] -> In (maximum xs) xs.
Proof.
  destruct xs as [|x rest]; [congruence|]. intros _. apply fold_max_in.
Qed.

Lemma maximum_upper (xs : list float) (y : float) :
  List.Forall (fun x => (x =? x)%float = true) xs ->
  In y xs -> (y <=? maximum xs)%float = true.
Proof.
  destruct xs as [|x rest]; intros Hall Hy; [destruct Hy|].
  apply List.Forall_cons_iff in Hall. destruct Hall as [Hx Hrest].
  now apply fold_max_upper.
Qed.

(** Whatever the values are, none is strictly above the running maximum
    of the values seen. *)
Lemma fold_max_not_below (l : list float) :
  forall (a : float) (seen : list float),
    (forall y, In y seen -> (a <? y)%float = false) ->
    forall y, In y (seen ++ l) ->
              (fold_left float_max l a <? y)%float = false.
Proof.
  induction l as [|b l IH]; intros a seen Hseen y Hy.
  - rewrite List.app_nil_r in Hy. now apply Hseen.
  - cbn [fold_left]. apply (IH (float_max a b) (seen ++ [b])).
    + intros z Hz. apply in_app_or in Hz. unfold float_max.
      destruct (a <? b)%float eqn:Hab.
      * destruct Hz as [Hz|[<-|[]]].
        -- eapply FloatOrderMore.not_ltb_above; [exact Hab | now apply Hseen].
        -- apply FloatOrderMore.ltb_irrefl.
      * destruct Hz as [Hz|[<-|[]]]; [now apply Hseen | exact Hab].
    + rewrite <- List.app_assoc. exact Hy.
Qed.

Lemma maximum_not_below (xs : list float) (y : float) :
  In y xs -> (maximum xs <? y)%float = false.
Proof.
  destruct xs as [|x rest]; intros Hy; [destruct Hy|].
  apply (fold_max_not_below rest x [x]); [|exact Hy].
  intros z [<-|[]]. apply FloatOrderMore.ltb_irrefl.
Qed.

(** C2: after N device rows of one device type, whatever N is, the table
    holds one row, that of the type: its avg_current and avg_power are the
    sums of the N currents and of the N powers divided by N, its
    total_samples is N, and its max_current is the greatest of the N
    currents: it is one of them and none of them is above it (when none
    is NaN, each of them is at or below it). *)
Theorem C2_statistics_over_all_history
    (ty : string) (rows : list DeviceRow.t) :
  rows <> [] ->
  List.Forall (fun r => DeviceRow.device_type r = ty) rows ->
  exists r : AggregateRow.t,
    _compute_statistics rows = {[ ty := r ]} /\
    AggregateRow.device_type r = ty /\
    AggregateRow.avg_current r
    = arithmetic_mean (List.map DeviceRow.current rows) /\
    AggregateRow.avg_power r
    = arithmetic_mean (List.map DeviceRow.power rows) /\
    AggregateRow.total_samples r = Z.of_nat (List.length rows) /\
    (exists d, In d rows /\ AggregateRow.max_current r = DeviceRow.current d) /\
    (forall d,
        In d rows ->
        (AggregateRow.max_current r <? DeviceRow.current d)%float = false) /\
    (List.Forall (fun d => is_nan (DeviceRow.current d) = false) rows ->
     forall d,
       In d rows ->
       (DeviceRow.current d <=? AggregateRow.max_current r)%float = true).
Proof.
  intros Hne Hall. exists (statistics_of ty rows).
  split.
  { apply map_eq. intros ty'. rewrite statistics_lookup.
    destruct (decide (ty' = ty)) as [->|Hty].
    - rewrite lookup_singleton_eq, (rows_of_type_all _ _ Hall).
      destruct rows as [|r rest]; [congruence|].
      now rewrite reduce_group_statistics.
    - rewrite lookup_singleton_ne by congruence.
      now rewrite (rows_of_type_other _ _ _ Hall Hty). }
  unfold statistics_of. cbn.
  split; [reflexivity|]. split; [reflexivity|]. split; [reflexivity|].
  split; [reflexivity|].
  assert (Hmaps : List.map DeviceRow.current rows <> [])
    by (destruct rows; [congruence | discriminate]).
  split; [|split].
  - pose proof (maximum_in _ Hmaps) as Hin.
    apply List.in_map_iff in Hin. destruct Hin as (d & Hd & Hin).
    exists d. split; [exact Hin | now rewrite Hd].
  - intros d Hd. apply maximum_not_below. now apply List.in_map.
  - intros Hnan d Hd. apply maximum_upper; [|now apply List.in_map].
    apply List.Forall_map. eapply List.Forall_impl; [|exact Hnan].
    cbn. intros d' Hd'. unfold is_nan in Hd'.
    now apply negb_false_iff in Hd'.
Qed.

(** The three motor readings are a sequence of one device type. *)
Lemma C2_witness :
  exists r : AggregateRow.t,
    _compute_statistics three_motor_rows = {[ "motor"%string := r ]} /\
    AggregateRow.device_type r = "motor"%string /\
    AggregateRow.avg_current r
    = arithmetic_mean (List.map DeviceRow.current three_motor_rows) /\
    AggregateRow.avg_power r
    = arithmetic_mean (List.map DeviceRow.power three_motor_rows) /\
    AggregateRow.total_samples r = Z.of_nat (List.length three_motor_rows) /\
    (exists d,
        In d three_motor_rows /\
        AggregateRow.max_current r = DeviceRow.current d) /\
    (forall d,
        In d three_motor_rows ->
        (AggregateRow.max_current r <? DeviceRow.current d)%float = false) /\
    (List.Forall (fun d => is_nan (DeviceRow.current d) = false)
       three_motor_rows ->
     forall d,
       In d three_motor_rows ->
       (DeviceRow.current d <=? AggregateRow.max_current r)%float = true).
Proof.
  apply (C2_statistics_over_all_history "motor" three_motor_rows).
  - discriminate.
  - repeat constructor.
Defined.

Example three_motor_statistics :
  _compute_statistics three_motor_rows !! "motor"%string
  = Some (AggregateRow.mk "motor" 30 60 6900 3).
Proof. vm_compute. reflexivity. Qed.

(* ===================================================================== *)
(** ** The [device_stats] changelog *)
(* ===================================================================== *)

Lemma cumulative_diff_app (r : AggregateRow.t)
    (l1 l2 : list ChangelogEntry.t) :
  cumulative_diff r (l1 ++ l2) = cumulative_diff r l1 + cumulative_diff r l2.
Proof.
  induction l1 as [|e l1 IH]; cbn; [reflexivity|].
  fold (cumulative_diff r (l1 ++ l2)). fold (cumulative_diff r l1).
  rewrite IH. destruct (decide (ChangelogEntry.row e = r)); lia.
Qed.

Lemma net_diff_app (ty : string) (l1 l2 : list ChangelogEntry.t) :
  net_diff ty (l1 ++ l2) = net_diff ty l1 + net_diff ty l2.
Proof.
  induction l1 as [|e l1 IH]; cbn; [reflexivity|].
  fold (net_diff ty (l1 ++ l2)). fold (net_diff ty l1).
  rewrite IH.
  destruct (decide (AggregateRow.device_type (ChangelogEntry.row e) = ty));
    lia.
Qed.

Lemma reconstructs_step (log : list ChangelogEntry.t)
    (view : gmap string AggregateRow.t) (e : ChangelogEntry.t) :
  reconstructs log view ->
  well_formed_from view [e] ->
  reconstructs (log ++ [e]) (apply_entry view e).
Proof.
  intros Hrec [Hwf _] r. rewrite cumulative_diff_app, (Hrec r).
  unfold apply_entry. cbn [cumulative_diff fold_right].
  destruct e as [x d]. cbn in *.
  destruct Hwf as [[-> Hview]|[-> Hview]]; cbn.
  - destruct (decide (AggregateRow.device_type x = AggregateRow.device_type r))
      as [Hty|Hty].
    + rewrite <- Hty, Hview, lookup_insert_eq.
      repeat case_decide; congruence || lia.
    + rewrite lookup_insert_ne by exact Hty.
      repeat case_decide; congruence || lia.
  - destruct (decide (AggregateRow.device_type x = AggregateRow.device_type r))
      as [Hty|Hty].
    + rewrite <- Hty, Hview, lookup_delete_eq.
      repeat case_decide; congruence || lia.
    + rewrite lookup_delete_ne by exact Hty.
      repeat case_decide; congruence || lia.
Qed.

Lemma net_reconstructs_step (log : list ChangelogEntry.t)
    (view : gmap string AggregateRow.t) (e : ChangelogEntry.t) :
  net_reconstructs log view ->
  well_formed_from view [e] ->
  net_reconstructs (log ++ [e]) (apply_entry view e).
Proof.
  intros Hrec [Hwf _] ty. rewrite net_diff_app, (Hrec ty).
  unfold apply_entry. cbn [net_diff fold_right].
  destruct e as [x d]. cbn in *.
  destruct Hwf as [[-> Hview]|[-> Hview]]; cbn.
  - destruct (decide (AggregateRow.device_type x = ty)) as [<-|Hty].
    + rewrite Hview, lookup_insert_eq. lia.
    + rewrite lookup_insert_ne by exact Hty.
      destruct (view !! ty); lia.
  - destruct (decide (AggregateRow.device_type x = ty)) as [<-|Hty].
    + rewrite Hview, lookup_delete_eq. lia.
    + rewrite lookup_delete_ne by exact Hty.
      destruct (view !! ty); lia.
Qed.

(** Along a well-formed log the replayed view reconstructs every prefix. *)
Lemma well_formed_prefixes (log : list ChangelogEntry.t) :
  forall (before : list ChangelogEntry.t)
         (view : gmap string AggregateRow.t),
    reconstructs before view -> net_reconstructs before view ->
    well_formed_from view log ->
    forall p q, log = p ++ q ->
      reconstructs (before ++ p) (replay_from view p) /\
      net_reconstructs (before ++ p) (replay_from view p).
Proof.
  induction log as [|e log IH]; intros before view Hrec Hnet Hwf p q Hpq.
  - symmetry in Hpq. apply List.app_eq_nil in Hpq. destruct Hpq as [-> _].
    rewrite List.app_nil_r. auto.
  - destruct p as [|e' p].
    + rewrite List.app_nil_r. auto.
    + cbn in Hpq. injection Hpq as <- Hlog.
      destruct Hwf as [He Hrest].
      unfold replay_from. cbn [fold_left]. fold (replay_from (apply_entry view e) p).
      replace (before ++ e :: p) with ((before ++ [e]) ++ p)
        by (rewrite <- List.app_assoc; reflexivity).
      apply (IH (before ++ [e]) (apply_entry view e)) with (q := q).
      * apply reconstructs_step; [exact Hrec | split; [exact He | exact I]].
      * apply net_reconstructs_step; [exact Hnet | split; [exact He | exact I]].
      * exact Hrest.
      * exact Hlog.
Qed.

Lemma replay_from_app (view : gmap string AggregateRow.t)
    (l1 l2 : list ChangelogEntry.t) :
  replay_from view (l1 ++ l2) = replay_from (replay_from view l1) l2.
Proof. unfold replay_from. apply fold_left_app. Qed.

Lemma well_formed_app (l1 l2 : list ChangelogEntry.t) :
  forall view : gmap string AggregateRow.t,
    well_formed_from view l1 ->
    well_formed_from (replay_from view l1) l2 ->
    well_formed_from view (l1 ++ l2).
Proof.
  induction l1 as [|e l1 IH]; intros view H1 H2; [exact H2|].
  destruct H1 as [He H1]. split; [exact He|].
  apply IH; [exact H1 | exact H2].
Qed.

(** The changes of the keys [ks], replayed from a view that agrees with
    [old] on them, are well formed and move these keys to [new]. *)
Lemma key_changes_replay (old new : gmap string AggregateRow.t) :
  (forall k r, old !! k = Some r -> AggregateRow.device_type r = k) ->
  (forall k r, new !! k = Some r -> AggregateRow.device_type r = k) ->
  forall (ks : list string) (view : gmap string AggregateRow.t),
    NoDup ks ->
    (forall k, k ∈ ks -> view !! k = old !! k) ->
    (forall k, k ∈ ks -> is_Some (new !! k)) ->
    well_formed_from view (flat_map (key_changes old new) ks) /\
    forall k,
      replay_from view (flat_map (key_changes old new) ks) !! k
      = if decide (k ∈ ks) then new !! k else view !! k.
Proof.
  intros Hold Hnew ks.
  induction ks as [|k0 ks IH]; intros view Hnd Hview Hsome.
  - split; [exact I|]. intros k. cbn. case_decide as Hk; [|reflexivity].
    apply not_elem_of_nil in Hk. destruct Hk.
  - apply NoDup_cons in Hnd. destruct Hnd as [Hk0 Hnd].
    destruct (Hsome k0) as [n Hn]; [left|].
    pose proof (Hnew _ _ Hn) as Htn.
    pose proof (Hview k0 ltac:(left)) as Hv0.
    cbn [flat_map]. unfold key_changes at 1 3. rewrite Hn.
    assert (Hrest : forall view',
      (forall k, k <> k0 -> view' !! k = view !! k) ->
      view' !! k0 = Some n ->
      well_formed_from view' (flat_map (key_changes old new) ks) /\
      forall k,
        replay_from view' (flat_map (key_changes old new) ks) !! k
        = if decide (k ∈ k0 :: ks) then new !! k else view !! k).
    { intros view' Hother Hsame.
      destruct (IH view' Hnd) as [Hwf Hlook].
      - intros k Hk. rewrite Hother; [apply Hview; now right|].
        intros ->. contradiction.
      - intros k Hk. apply Hsome. now right.
      - split; [exact Hwf|]. intros k. rewrite Hlook.
        destruct (decide (k = k0)) as [->|Hne].
        + rewrite decide_False by exact Hk0.
          rewrite decide_True by left. congruence.
        + destruct (decide (k ∈ ks)) as [Hin|Hin].
          * rewrite decide_True by (now right). reflexivity.
          * rewrite decide_False; [apply Hother, Hne|].
            intros Hc. apply elem_of_cons in Hc. tauto. }
    destruct (old !! k0) as [o|] eqn:Ho.
    + pose proof (Hold _ _ Ho) as Hto.
      destruct (Hrest (<[k0 := n]> (delete k0 view))) as [Hwf Hlook].
      * intros k Hne. rewrite lookup_insert_ne by congruence.
        apply lookup_delete_ne. congruence.
      * apply lookup_insert_eq.
      * assert (Hstep : replay_from view [retraction o; insertion n]
                        = <[k0 := n]> (delete k0 view)).
        { unfold replay_from, apply_entry. cbn. now rewrite Hto, Htn. }
        split.
        -- apply (well_formed_app [retraction o; insertion n]).
           ++ cbn. rewrite Hto, Htn. repeat split.
              ** right. split; [reflexivity|]. now rewrite Hv0.
              ** left. split; [reflexivity|].
                 unfold apply_entry. cbn. apply lookup_delete_eq.
           ++ rewrite Hstep. exact Hwf.
        -- intros k.
           change (retraction o :: insertion n
                   :: flat_map (key_changes old new) ks)
             with ([retraction o; insertion n]
                   ++ flat_map (key_changes old new) ks).
           rewrite replay_from_app, Hstep. apply Hlook.
    + destruct (Hrest (<[k0 := n]> view)) as [Hwf Hlook].
      * intros k Hne. apply lookup_insert_ne. congruence.
      * apply lookup_insert_eq.
      * assert (Hstep : replay_from view [insertion n] = <[k0 := n]> view).
        { unfold replay_from, apply_entry. cbn. now rewrite Htn. }
        split.
        -- apply (well_formed_app [insertion n]).
           ++ cbn. rewrite Htn. repeat split.
              left. split; [reflexivity|]. now rewrite Hv0.
           ++ rewrite Hstep. exact Hwf.
        -- intros k.
           change (insertion n :: flat_map (key_changes old new) ks)
             with ([insertion n] ++ flat_map (key_changes old new) ks).
           rewrite replay_from_app, Hstep. apply Hlook.
Qed.

Lemma rows_of_type_nil_iff (ty : string) (rows : list DeviceRow.t) :
  rows_of_type ty rows = [] <->
  ~ In ty (List.map DeviceRow.device_type rows).
Proof.
  induction rows as [|r rows IH]; cbn; [tauto|].
  fold (rows_of_type ty rows).
  destruct (String.eqb_spec (DeviceRow.device_type r) ty) as [Heq|Hne].
  - split; [discriminate | tauto].
  - rewrite IH. tauto.
Qed.

(** One commit: its entries are well formed from the table before it and
    replay to the table after it. *)
Lemma commit_replay (seen batch : list DeviceRow.t) :
  well_formed_from (_compute_statistics seen) (commit_changes seen batch) /\
  replay_from (_compute_statistics seen) (commit_changes seen batch)
  = _compute_statistics (seen ++ batch).
Proof.
  unfold commit_changes.
  destruct (key_changes_replay (_compute_statistics seen)
              (_compute_statistics (seen ++ batch))
              (fun k r => statistics_device_type k seen r)
              (fun k r => statistics_device_type k (seen ++ batch) r)
              (remove_dups (List.map DeviceRow.device_type batch))
              (_compute_statistics seen)) as [Hwf Hlook].
  - apply NoDup_remove_dups.
  - reflexivity.
  - intros k Hk. rewrite elem_of_remove_dups, list_elem_of_In in Hk.
    rewrite statistics_lookup, rows_of_type_app.
    destruct (rows_of_type k batch) as [|r g] eqn:Hg.
    + apply rows_of_type_nil_iff in Hg. contradiction.
    + destruct (rows_of_type k seen); cbn; eauto.
  - split; [exact Hwf|]. apply map_eq. intros k. rewrite Hlook.
    case_decide as Hk; [reflexivity|].
    rewrite elem_of_remove_dups, list_elem_of_In in Hk.
    apply rows_of_type_nil_iff in Hk.
    now rewrite !statistics_lookup, rows_of_type_app, Hk, List.app_nil_r.
Qed.

Lemma changelog_from_replay (commits : list (list DeviceRow.t)) :
  forall seen : list DeviceRow.t,
    well_formed_from (_compute_statistics seen) (changelog_from seen commits) /\
    replay_from (_compute_statistics seen) (changelog_from seen commits)
    = _compute_statistics (seen ++ List.concat commits).
Proof.
  induction commits as [|batch commits IH]; intros seen;
    cbn [changelog_from List.concat].
  - rewrite List.app_nil_r. split; [exact I | reflexivity].
  - destruct (commit_replay seen batch) as [Hwf Hrep].
    destruct (IH (seen ++ batch)) as [Hwf' Hrep'].
    split.
    + apply well_formed_app; [exact Hwf|]. rewrite Hrep. exact Hwf'.
    + rewrite replay_from_app, Hrep, Hrep', <- List.app_assoc. reflexivity.
Qed.

Lemma statistics_nil : _compute_statistics [] = ∅.
Proof. apply map_eq. intros k. now rewrite statistics_lookup, lookup_empty. Qed.

Lemma retract_then_insert_app (l1 l2 : list ChangelogEntry.t) :
  retract_then_insert l1 -> retract_then_insert l2 ->
  retract_then_insert (l1 ++ l2).
Proof.
  induction 1; intros H2; cbn; [exact H2| |]; constructor; auto.
Qed.

Lemma key_changes_retract_then_insert (old new : gmap string AggregateRow.t) :
  (forall k r, old !! k = Some r -> AggregateRow.device_type r = k) ->
  (forall k r, new !! k = Some r -> AggregateRow.device_type r = k) ->
  forall ks, retract_then_insert (flat_map (key_changes old new) ks).
Proof.
  intros Hold Hnew ks. induction ks as [|k ks IH]; [constructor|].
  cbn [flat_map]. apply retract_then_insert_app; [|exact IH].
  unfold key_changes.
  destruct (new !! k) as [n|] eqn:Hn; [|constructor].
  destruct (old !! k) as [o|] eqn:Ho; repeat constructor.
  rewrite (Hold _ _ Ho), (Hnew _ _ Hn). reflexivity.
Qed.

Lemma changelog_from_retract_then_insert (commits : list (list DeviceRow.t)) :
  forall seen, retract_then_insert (changelog_from seen commits).
Proof.
  induction commits as [|batch commits IH]; intros seen; cbn;
    [constructor|].
  apply retract_then_insert_app; [|apply IH].
  apply key_changes_retract_then_insert;
    intros k r; apply statistics_device_type.
Qed.

Lemma changelog_from_app (c1 c2 : list (list DeviceRow.t)) :
  forall seen : list DeviceRow.t,
    changelog_from seen (c1 ++ c2)
    = changelog_from seen c1 ++ changelog_from (seen ++ List.concat c1) c2.
Proof.
  induction c1 as [|batch c1 IH]; intros seen; cbn [app changelog_from List.concat].
  - now rewrite List.app_nil_r.
  - rewrite IH, <- !List.app_assoc. reflexivity.
Qed.

Lemma entries_of_app (ty : string) (l1 l2 : list ChangelogEntry.t) :
  entries_of ty (l1 ++ l2) = entries_of ty l1 ++ entries_of ty l2.
Proof. apply List.filter_app. Qed.

(** The changes of a key are entries of that key only. *)
Lemma entries_of_key_changes (old new : gmap string AggregateRow.t) :
  (forall k r, old !! k = Some r -> AggregateRow.device_type r = k) ->
  (forall k r, new !! k = Some r -> AggregateRow.device_type r = k) ->
  forall ty k,
    entries_of ty (key_changes old new k)
    = if decide (k = ty) then key_changes old new k else [].
Proof.
  intros Hold Hnew ty k. unfold key_changes.
  destruct (new !! k) as [n|] eqn:Hn; [|now case_decide].
  pose proof (Hnew _ _ Hn) as Htn.
  destruct (old !! k) as [o|] eqn:Ho.
  - pose proof (Hold _ _ Ho) as Hto. unfold entries_of. cbn.
    rewrite Hto, Htn.
    destruct (String.eqb_spec k ty) as [Heq|Hne];
      [now rewrite decide_True | now rewrite decide_False].
  - unfold entries_of. cbn. rewrite Htn.
    destruct (String.eqb_spec k ty) as [Heq|Hne];
      [now rewrite decide_True | now rewrite decide_False].
Qed.

Lemma entries_of_flat_key_changes (old new : gmap string AggregateRow.t) :
  (forall k r, old !! k = Some r -> AggregateRow.device_type r = k) ->
  (forall k r, new !! k = Some r -> AggregateRow.device_type r = k) ->
  forall (ty : string) (ks : list string),
    NoDup ks ->
    entries_of ty (flat_map (key_changes old new) ks)
    = if decide (ty ∈ ks) then key_changes old new ty else [].
Proof.
  intros Hold Hnew ty ks. induction ks as [|k ks IH]; intros Hnd.
  - cbn. rewrite decide_False; [reflexivity | apply not_elem_of_nil].
  - apply NoDup_cons in Hnd. destruct Hnd as [Hk Hnd].
    cbn [flat_map]. rewrite entries_of_app, (IH Hnd).
    rewrite (entries_of_key_changes old new Hold Hnew).
    destruct (decide (k = ty)) as [->|Hne].
    + rewrite (decide_False (P := ty ∈ ks)) by exact Hk.
      rewrite decide_True by left. apply List.app_nil_r.
    + cbn [app]. destruct (decide (ty ∈ ks)) as [Hin|Hin].
      * rewrite decide_True by (now right). reflexivity.
      * rewrite decide_False; [reflexivity|].
        intros Hc. apply elem_of_cons in Hc. destruct Hc; congruence.
Qed.

(** What a commit writes for a device type: nothing when its batch has no
    row of the type, and otherwise the changes of that key. *)
Lemma entries_of_commit_changes (seen batch : list DeviceRow.t) (ty : string) :
  entries_of ty (commit_changes seen batch)
  = match rows_of_type ty batch with
    | [] => []
    | _ :: _ =>
        key_changes (_compute_statistics seen)
          (_compute_statistics (seen ++ batch)) ty
    end.
Proof.
  unfold commit_changes.
  rewrite (entries_of_flat_key_changes _ _
             (fun k r => statistics_device_type k seen r)
             (fun k r => statistics_device_type k (seen ++ batch) r)
             ty _ (NoDup_remove_dups _)).
  destruct (rows_of_type ty batch) as [|r g] eqn:Hg.
  - apply rows_of_type_nil_iff in Hg. rewrite decide_False; [reflexivity|].
    now rewrite elem_of_remove_dups, list_elem_of_In.
  - rewrite decide_True; [reflexivity|].
    rewrite elem_of_remove_dups, list_elem_of_In.
    destruct (List.in_dec String.string_dec ty
                (List.map DeviceRow.device_type batch)) as [Hin|Hout];
      [exact Hin|].
    apply rows_of_type_nil_iff in Hout. congruence.
Qed.

(** Along a log in which every retraction is followed at once by an
    insertion for the same type, a type has no live row only before its
    first entry and between a retraction and its insertion. *)
Lemma no_live_row_only_inside_update (log : list ChangelogEntry.t) :
  retract_then_insert log ->
  forall (view : gmap string AggregateRow.t)
         (p q : list ChangelogEntry.t) (ty : string),
    log = p ++ q ->
    replay_from view p !! ty = None ->
    (view !! ty = None /\ entries_of ty p = []) \/
    exists p' o n q',
      p = p' ++ [retraction o] /\ q = insertion n :: q' /\
      AggregateRow.device_type o = ty /\ AggregateRow.device_type n = ty.
Proof.
  induction 1 as [|n log Hlog IH|o n log Hty Hlog IH];
    intros view p q ty Hpq Hnone.
  - symmetry in Hpq. apply List.app_eq_nil in Hpq. destruct Hpq as [-> _].
    left. split; [exact Hnone | reflexivity].
  - destruct p as [|e p]; [left; split; [exact Hnone | reflexivity]|].
    cbn in Hpq. injection Hpq as <- Hpq.
    unfold replay_from in Hnone. cbn [fold_left] in Hnone.
    unfold apply_entry at 2 in Hnone. cbn in Hnone.
    destruct (IH _ p q ty Hpq Hnone) as [[Hv Hp]|(p' & o & n' & q' & -> & Hq)].
    + left.
      destruct (decide (AggregateRow.device_type n = ty)) as [Heq|Hne].
      * rewrite Heq, lookup_insert_eq in Hv. discriminate.
      * rewrite lookup_insert_ne in Hv by exact Hne. split; [exact Hv|].
        unfold entries_of. cbn.
        destruct (String.eqb_spec (AggregateRow.device_type n) ty);
          [contradiction | exact Hp].
    + right. exists (insertion n :: p'), o, n', q'. split; [reflexivity|exact Hq].
  - destruct p as [|e1 p]; [left; split; [exact Hnone | reflexivity]|].
    cbn in Hpq. injection Hpq as <- Hpq.
    destruct p as [|e2 p].
    + cbn in Hpq. subst q.
      unfold replay_from, apply_entry in Hnone. cbn in Hnone.
      destruct (decide (AggregateRow.device_type o = ty)) as [Heq|Hne].
      * right. exists [], o, n, log. repeat split; congruence.
      * left. rewrite lookup_delete_ne in Hnone by exact Hne.
        split; [exact Hnone|]. unfold entries_of. cbn.
        destruct (String.eqb_spec (AggregateRow.device_type o) ty);
          [contradiction | reflexivity].
    + cbn in Hpq. injection Hpq as <- Hpq.
      unfold replay_from in Hnone. cbn [fold_left] in Hnone.
      unfold apply_entry at 2 3 in Hnone. cbn in Hnone.
      destruct (IH _ p q ty Hpq Hnone) as [[Hv Hp]|(p' & o' & n' & q' & -> & Hq)].
      * left.
        destruct (decide (AggregateRow.device_type n = ty)) as [Heq|Hne].
        -- rewrite Heq, lookup_insert_eq in Hv. discriminate.
        -- rewrite lookup_insert_ne in Hv by exact Hne.
           rewrite lookup_delete_ne in Hv by congruence.
           split; [exact Hv|]. unfold entries_of. cbn.
           destruct (String.eqb_spec (AggregateRow.device_type o) ty);
             [congruence|].
           destruct (String.eqb_spec (AggregateRow.device_type n) ty);
             [contradiction | exact Hp].
      * right. exists (retraction o :: insertion n :: p'), o', n', q'.
        split; [reflexivity | exact Hq].
Qed.

(** C8: in the changelog of [device_stats], every retraction is
    immediately followed by an insertion for the same device type, and
    each commit adds to the log, for every device type of its batch, the
    insertion of the type's new row, preceded by the retraction of its old
    row unless these are the first rows of the type, and nothing for the
    other types. At every point of the log the cumulative diff of a row is
    1 when it is the live row of its type and 0 otherwise and no type has
    two live rows; the diffs of a type sum to 1, except before its first
    entry and between a retraction and the insertion that follows it,
    where they sum to 0. After every commit the live rows are exactly the
    rows of the table, one per device type received. *)
Theorem C8_one_live_row_per_device_type (commits : list (list DeviceRow.t)) :
  let log := device_stats_changelog commits in
  let table := _compute_statistics (List.concat commits) in
  retract_then_insert log /\
  (forall (before : list (list DeviceRow.t)) (batch : list DeviceRow.t)
          (after : list (list DeviceRow.t)),
      commits = before ++ batch :: after ->
      exists written rest : list ChangelogEntry.t,
        device_stats_changelog (before ++ [batch])
        = device_stats_changelog before ++ written /\
        log = device_stats_changelog before ++ written ++ rest /\
        forall ty : string,
          (rows_of_type ty batch = [] -> entries_of ty written = []) /\
          (rows_of_type ty batch <> [] ->
           exists n : AggregateRow.t,
             _compute_statistics (List.concat before ++ batch) !! ty = Some n /\
             match _compute_statistics (List.concat before) !! ty with
             | None => entries_of ty written = [insertion n]
             | Some o => entries_of ty written = [retraction o; insertion n]
             end)) /\
  (forall p q : list ChangelogEntry.t,
      log = p ++ q ->
      reconstructs p (replay p) /\
      (forall ty, net_diff ty p = 0 \/ net_diff ty p = 1) /\
      (forall r1 r2 : AggregateRow.t,
          AggregateRow.device_type r1 = AggregateRow.device_type r2 ->
          0 < cumulative_diff r1 p -> 0 < cumulative_diff r2 p ->
          r1 = r2) /\
      (forall ty,
          net_diff ty p = 1 \/
          entries_of ty p = [] \/
          exists p' o n q',
            p = p' ++ [retraction o] /\ q = insertion n :: q' /\
            AggregateRow.device_type o = ty /\
            AggregateRow.device_type n = ty)) /\
  (forall before after : list (list DeviceRow.t),
      commits = before ++ after ->
      exists rest : list ChangelogEntry.t,
        log = device_stats_changelog before ++ rest /\
        replay (device_stats_changelog before)
        = _compute_statistics (List.concat before) /\
        forall ty : string,
          net_diff ty (device_stats_changelog before)
          = match rows_of_type ty (List.concat before) with
            | [] => 0
            | _ :: _ => 1
            end) /\
  replay log = table /\
  reconstructs log table /\
  (forall ty : string,
      net_diff ty log = match rows_of_type ty (List.concat commits) with
                        | [] => 0
                        | _ :: _ => 1
                        end).
Proof.
  intros log table.
  assert (Hall : forall cs : list (list DeviceRow.t),
            well_formed_from ∅ (device_stats_changelog cs) /\
            replay (device_stats_changelog cs)
            = _compute_statistics (List.concat cs)).
  { intros cs. destruct (changelog_from_replay cs []) as [Hwf Hrep].
    rewrite statistics_nil in Hwf, Hrep. cbn [app] in Hrep.
    split; [exact Hwf | exact Hrep]. }
  assert (Hprefixes : forall (cs : list (list DeviceRow.t)) p q,
            device_stats_changelog cs = p ++ q ->
            reconstructs p (replay p) /\ net_reconstructs p (replay p)).
  { intros cs p q Hpq. destruct (Hall cs) as [Hwf _].
    apply (well_formed_prefixes (device_stats_changelog cs) [] ∅)
      with (q := q); [ | | exact Hwf | exact Hpq].
    - intros r. cbn. rewrite lookup_empty. now rewrite decide_False.
    - intros ty. cbn. now rewrite lookup_empty. }
  assert (Hnet : forall (cs : list (list DeviceRow.t)) (ty : string),
            net_diff ty (device_stats_changelog cs)
            = match rows_of_type ty (List.concat cs) with
              | [] => 0
              | _ :: _ => 1
              end).
  { intros cs ty.
    destruct (Hprefixes cs (device_stats_changelog cs) []) as [_ Hn];
      [now rewrite List.app_nil_r|].
    destruct (Hall cs) as [_ Hrep].
    rewrite (Hn ty), Hrep, statistics_lookup.
    destruct (rows_of_type ty (List.concat cs)); reflexivity. }
  destruct (Hall commits) as [Hwf Hrep]. fold log in Hwf, Hrep.
  fold table in Hrep.
  split; [apply changelog_from_retract_then_insert|].
  split; [|split; [|split; [|split; [exact Hrep|split]]]].
  - intros before batch after ->.
    exists (commit_changes (List.concat before) batch),
           (changelog_from (List.concat before ++ batch) after).
    split; [|split].
    + unfold device_stats_changelog. rewrite changelog_from_app.
      cbn [app changelog_from]. now rewrite List.app_nil_r.
    + unfold log, device_stats_changelog. rewrite changelog_from_app.
      cbn [app changelog_from]. reflexivity.
    + intros ty. rewrite entries_of_commit_changes.
      split; [intros ->; reflexivity|].
      intros Hne. destruct (rows_of_type ty batch) as [|r g] eqn:Hg;
        [congruence|].
      unfold key_changes. rewrite !statistics_lookup, rows_of_type_app, Hg.
      destruct (rows_of_type ty (List.concat before)) as [|r0 g0]; cbn [app];
        eexists; (split; [reflexivity|]); reflexivity.
  - intros p q Hpq. destruct (Hprefixes commits p q Hpq) as [Hrec Hn].
    split; [exact Hrec|]. split; [|split].
    + intros ty. rewrite (Hn ty). destruct (replay p !! ty); auto.
    + intros r1 r2 Hty H1 H2. rewrite (Hrec r1) in H1. rewrite (Hrec r2) in H2.
      repeat case_decide; try lia. congruence.
    + intros ty. rewrite (Hn ty).
      destruct (replay p !! ty) eqn:Hlive; [now left|]. right.
      destruct (no_live_row_only_inside_update log
                  (changelog_from_retract_then_insert commits [])
                  ∅ p q ty Hpq Hlive) as [[_ Hnone]|Hin]; [now left|now right].
  - intros before after ->.
    exists (changelog_from (List.concat before) after).
    split; [|split].
    + unfold log, device_stats_changelog. now rewrite changelog_from_app.
    + apply Hall.
    + apply Hnet.
  - rewrite <- Hrep. apply (Hprefixes commits log []). now rewrite List.app_nil_r.
  - apply Hnet.
Qed.

(** Two commits: a motor and a pump reading, then two more motor
    readings. *)
Example two_commits_changelog :
  List.map
    (fun e =>
       (AggregateRow.device_type (ChangelogEntry.row e),
        AggregateRow.total_samples (ChangelogEntry.row e),
        ChangelogEntry.diff e))
    (device_stats_changelog
       [ [ DeviceRow.mk "MOTOR_1" "motor" "running" 230 10 2300 1;
           DeviceRow.mk "PUMP_1" "pump" "running" 230 5 1150 1 ];
         [ DeviceRow.mk "MOTOR_2" "motor" "running" 230 20 4600 2;
           DeviceRow.mk "MOTOR_1" "motor" "running" 230 60 13800 2 ] ])
  = [ ("motor"%string, 1, 1); ("pump"%string, 1, 1);
      ("motor"%string, 1, -1); ("motor"%string, 3, 1) ].
Proof. vm_compute. reflexivity. Qed.

(* ===================================================================== *)
(** ** The source adapters *)
(* ===================================================================== *)

Section AdapterProperties.
Context `{Py.Builtins}.

Lemma for_each_entries (timestamp : Py.value)
    (entries : list (string * Py.value)) :
  for_each entries (yield_entry timestamp)
  = (List.map Yield (fst (emitted timestamp entries)),
     match snd (emitted timestamp entries) with
     | None => Py.Ok tt
     | Some e => Py.Raise e
     end).
Proof.
  induction entries as [|entry rest IH]; [reflexivity|].
  cbn [for_each emitted].
  assert (Hentry : yield_entry timestamp entry
                   = match device_record (fst entry) (snd entry) timestamp with
                     | Py.Ok row => ([Yield row], Py.Ok tt)
                     | Py.Raise e => ([], Py.Raise e)
                     end).
  { unfold yield_entry.
    destruct (device_record (fst entry) (snd entry) timestamp); reflexivity. }
  rewrite Hentry.
  destruct (device_record (fst entry) (snd entry) timestamp) as [row|e];
    [|reflexivity].
  cbn [mbind gen_bind app]. rewrite IH.
  destruct (emitted timestamp rest) as [rows [e|]]; reflexivity.
Qed.

Lemma emitted_all (timestamp : Py.value)
    (entries : list (string * Py.value)) (rows : list DeviceRow.t) :
  Forall2
    (fun entry row =>
       device_record (fst entry) (snd entry) timestamp = Py.Ok row)
    entries rows ->
  emitted timestamp entries = (rows, None).
Proof.
  induction 1 as [|entry row entries rows Hrow _ IH]; [reflexivity|].
  cbn [emitted]. now rewrite Hrow, IH.
Qed.

Lemma emitted_until (timestamp : Py.value)
    (pre post : list (string * Py.value)) (bad : string * Py.value)
    (rows : list DeviceRow.t) (e : Py.exn) :
  Forall2
    (fun entry row =>
       device_record (fst entry) (snd entry) timestamp = Py.Ok row)
    pre rows ->
  device_record (fst bad) (snd bad) timestamp = Py.Raise e ->
  emitted timestamp (pre ++ bad :: post) = (rows, Some e).
Proof.
  intros Hpre Hbad.
  induction Hpre as [|entry row entries rows Hrow _ IH];
    cbn [emitted app]; [now rewrite Hbad|].
  now rewrite Hrow, IH.
Qed.

(** What one turn of the device adapter does, by cases. *)
Lemma internal_iteration_cases (p : poll) :
  internal_iteration p =
  match fetch (outcome p) with
  | Py.Raise e =>
      ([PrintError "internal" e; Sleep PathwayConfig.INTERNAL_POLL_INTERVAL],
       Py.Ok tt)
  | Py.Ok data =>
      match Py.get data "timestamp" (Py.Float (now p)) with
      | Py.Raise e =>
          ([PrintError "internal" e;
            Sleep PathwayConfig.INTERNAL_POLL_INTERVAL], Py.Ok tt)
      | Py.Ok timestamp =>
          match Py.get data "devices" (Py.Dict []) ≫= Py.items with
          | Py.Raise e =>
              ([PrintError "internal" e;
                Sleep PathwayConfig.INTERNAL_POLL_INTERVAL], Py.Ok tt)
          | Py.Ok entries =>
              (List.map Yield (fst (emitted timestamp entries))
               ++ match snd (emitted timestamp entries) with
                  | Some e => [PrintError "internal" e]
                  | None => []
                  end
               ++ [Sleep PathwayConfig.INTERNAL_POLL_INTERVAL], Py.Ok tt)
          end
      end
  end.
Proof.
  unfold internal_iteration, internal_try, fetch_internal_stream.
  destruct (fetch (outcome p)) as [data|e]; [|reflexivity].
  cbn [lift mbind gen_bind].
  destruct (Py.get data "timestamp" (Py.Float (now p))) as [timestamp|e];
    [|reflexivity].
  destruct (Py.get data "devices" (Py.Dict [])) as [devices|e];
    [|reflexivity].
  cbn [mbind result_bind].
  destruct (Py.items devices) as [entries|e]; [|reflexivity].
  rewrite for_each_entries.
  destruct (emitted timestamp entries) as [rows [e|]]; cbn;
    rewrite <- ?List.app_assoc, ?List.app_nil_r; reflexivity.
Qed.

(** What one turn of the grid adapter does, by cases. *)
Lemma external_iteration_cases (p : poll) :
  external_iteration p =
  match fetch (outcome p) ≫= grid_record with
  | Py.Raise e =>
      ([PrintError "external" e; Sleep PathwayConfig.EXTERNAL_POLL_INTERVAL],
       Py.Ok tt)
  | Py.Ok row =>
      ([Yield row; Sleep PathwayConfig.EXTERNAL_POLL_INTERVAL], Py.Ok tt)
  end.
Proof.
  unfold external_iteration, external_try, fetch_external_stream.
  destruct (fetch (outcome p)) as [data|e]; [|reflexivity].
  cbn [lift mbind gen_bind result_bind].
  destruct (grid_record data) as [row|e]; reflexivity.
Qed.

Lemma internal_iteration_goes_on (p : poll) :
  snd (internal_iteration p) = Py.Ok tt /\
  exists es,
    events (internal_iteration p)
    = es ++ [Sleep PathwayConfig.INTERNAL_POLL_INTERVAL].
Proof.
  rewrite internal_iteration_cases.
  destruct (fetch (outcome p)) as [data|e];
    [|split; [reflexivity | now eexists [_] ]].
  destruct (Py.get data "timestamp" (Py.Float (now p))) as [timestamp|e];
    [|split; [reflexivity | now eexists [_] ]].
  destruct (Py.get data "devices" (Py.Dict []) ≫= Py.items) as [entries|e];
    [|split; [reflexivity | now eexists [_] ]].
  split; [reflexivity|]. unfold events. cbn [fst].
  rewrite List.app_assoc. eauto.
Qed.

Lemma external_iteration_goes_on (p : poll) :
  snd (external_iteration p) = Py.Ok tt /\
  exists es,
    events (external_iteration p)
    = es ++ [Sleep PathwayConfig.EXTERNAL_POLL_INTERVAL].
Proof.
  rewrite external_iteration_cases.
  destruct (fetch (outcome p) ≫= grid_record);
    (split; [reflexivity | now eexists [_] ]).
Qed.

(** A loop whose body never raises takes every poll in turn. *)
Lemma while_true_goes_on {R : Type} (body : poll -> gen R unit)
    (polls : list poll) :
  (forall p, snd (body p) = Py.Ok tt) ->
  while_true body polls
  = (List.concat (List.map (fun p => events (body p)) polls), Py.Ok tt).
Proof.
  intros Hbody. induction polls as [|p rest IH]; [reflexivity|].
  cbn [while_true List.map List.concat]. rewrite IH.
  specialize (Hbody p). unfold events.
  destruct (body p) as [es [[]|e]]; cbn in *; [reflexivity|discriminate].
Qed.

Lemma yields_map_yield {R : Type} (rows : list R) (rest : list (event R)) :
  yields (List.map Yield rows ++ rest) = rows ++ yields rest.
Proof.
  induction rows as [|r rows IH]; [reflexivity|].
  cbn. now rewrite IH.
Qed.

(** A record that is built carries the identifier of its entry and the
    snapshot's timestamp. *)
Lemma device_record_ok (device_id : string) (telemetry timestamp : Py.value)
    (row : DeviceRow.t) :
  device_record device_id telemetry timestamp = Py.Ok row ->
  DeviceRow.device_id row = device_id /\
  Py.float timestamp = Py.Ok (DeviceRow.timestamp row).
Proof.
  intros Hrow. unfold device_record in Hrow.
  repeat match type of Hrow with
         | context [mbind _ ?x] =>
             destruct x eqn:?; cbn [mbind result_bind] in Hrow;
             try discriminate
         end.
  injection Hrow as <-. split; reflexivity.
Qed.

(** The fields of a record are read by name: a timestamp of the entry's
    own changes nothing. *)
Lemma device_record_ignores_own_timestamp (device_id : string)
    (own : Py.value) (fields : list (string * Py.value))
    (timestamp : Py.value) :
  device_record device_id (Py.Dict (("timestamp"%string, own) :: fields))
    timestamp
  = device_record device_id (Py.Dict fields) timestamp.
Proof. reflexivity. Qed.

(** C7, amended: a fetch fails on a connection error, a timeout, a 4xx or
    5xx status or a body that is not JSON; a failed fetch, a payload that
    is not a snapshot and (grid adapter) a missing or non-coercible field
    make the poll yield no record; a missing or non-coercible field in an
    entry of a device snapshot makes the poll yield the records of the
    entries before it only; in each case the error is printed and the
    adapter sleeps its interval; no poll ends the loop: the generator
    takes every later poll in turn. *)
Theorem C7_failed_poll_is_logged_and_loop_goes_on :
  (fetch ConnectionFailed = Py.Raise Py.ConnectionError /\
   fetch TimedOut = Py.Raise Py.Timeout /\
   (forall code json,
       400 <= code < 600 ->
       fetch (Response code json) = Py.Raise (Py.HTTPError code)) /\
   (forall code,
       ~ 400 <= code < 600 ->
       fetch (Response code None) = Py.Raise Py.JSONDecodeError)) /\
  (forall p e,
      fetch (outcome p) = Py.Raise e ->
      internal_iteration p
      = ([PrintError "internal" e;
          Sleep PathwayConfig.INTERNAL_POLL_INTERVAL], Py.Ok tt) /\
      external_iteration p
      = ([PrintError "external" e;
          Sleep PathwayConfig.EXTERNAL_POLL_INTERVAL], Py.Ok tt)) /\
  (forall p data e,
      fetch (outcome p) = Py.Ok data ->
      grid_record data = Py.Raise e ->
      external_iteration p
      = ([PrintError "external" e;
          Sleep PathwayConfig.EXTERNAL_POLL_INTERVAL], Py.Ok tt)) /\
  (forall p data e,
      fetch (outcome p) = Py.Ok data ->
      Py.get data "timestamp" (Py.Float (now p)) = Py.Raise e \/
      Py.get data "devices" (Py.Dict []) ≫= Py.items = Py.Raise e ->
      exists e',
        internal_iteration p
        = ([PrintError "internal" e';
            Sleep PathwayConfig.INTERNAL_POLL_INTERVAL], Py.Ok tt)) /\
  (forall p data timestamp pre bad post rows e,
      fetch (outcome p) = Py.Ok data ->
      Py.get data "timestamp" (Py.Float (now p)) = Py.Ok timestamp ->
      Py.get data "devices" (Py.Dict []) ≫= Py.items
      = Py.Ok (pre ++ bad :: post) ->
      Forall2
        (fun entry row =>
           device_record (fst entry) (snd entry) timestamp = Py.Ok row)
        pre rows ->
      device_record (fst bad) (snd bad) timestamp = Py.Raise e ->
      internal_iteration p
      = (List.map Yield rows
         ++ [PrintError "internal" e;
             Sleep PathwayConfig.INTERNAL_POLL_INTERVAL], Py.Ok tt)) /\
  (forall polls,
      snd (internal_stream_generator polls) = Py.Ok tt /\
      snd (external_stream_generator polls) = Py.Ok tt) /\
  (forall polls,
      while_true internal_iteration polls
      = (List.concat
           (List.map (fun p => events (internal_iteration p)) polls),
         Py.Ok tt) /\
      while_true external_iteration polls
      = (List.concat
           (List.map (fun p => events (external_iteration p)) polls),
         Py.Ok tt)) /\
  (forall p,
      (exists es,
          events (internal_iteration p)
          = es ++ [Sleep PathwayConfig.INTERNAL_POLL_INTERVAL]) /\
      (exists es,
          events (external_iteration p)
          = es ++ [Sleep PathwayConfig.EXTERNAL_POLL_INTERVAL])).
Proof.
  assert (Hloops : forall polls,
      while_true internal_iteration polls
      = (List.concat
           (List.map (fun p => events (internal_iteration p)) polls),
         Py.Ok tt) /\
      while_true external_iteration polls
      = (List.concat
           (List.map (fun p => events (external_iteration p)) polls),
         Py.Ok tt)).
  { intros polls. split; apply while_true_goes_on; intros p.
    - apply internal_iteration_goes_on.
    - apply external_iteration_goes_on. }
  repeat apply conj.
  - reflexivity.
  - reflexivity.
  - intros code json [Hlo Hhi]. cbn [fetch].
    apply Z.leb_le in Hlo. apply Z.ltb_lt in Hhi. now rewrite Hlo, Hhi.
  - intros code Hcode. cbn [fetch].
    destruct (400 <=? code) eqn:Hlo, (code <? 600) eqn:Hhi; try reflexivity.
    apply Z.leb_le in Hlo. apply Z.ltb_lt in Hhi. lia.
  - intros p e He. rewrite internal_iteration_cases, external_iteration_cases.
    now rewrite He.
  - intros p data e Hdata He. rewrite external_iteration_cases, Hdata.
    cbn [mbind result_bind]. now rewrite He.
  - intros p data e Hdata He. rewrite internal_iteration_cases, Hdata.
    destruct He as [He|He].
    + rewrite He. eauto.
    + destruct (Py.get data "timestamp" (Py.Float (now p))); [|eauto].
      rewrite He. eauto.
  - intros p data timestamp pre bad post rows e Hdata Hts Hentries Hpre Hbad.
    rewrite internal_iteration_cases, Hdata, Hts, Hentries.
    now rewrite (emitted_until _ _ _ _ _ _ Hpre Hbad).
  - intros polls. unfold internal_stream_generator, external_stream_generator.
    destruct (Hloops polls) as [-> ->]. split; reflexivity.
  - exact Hloops.
  - intros p. split.
    + apply internal_iteration_goes_on.
    + apply external_iteration_goes_on.
Qed.

(** C9, amended: when the snapshot and all its entries are well formed,
    the poll yields one device row per entry, in the order of the
    snapshot and with the identifier of the entry, and every row carries
    the timestamp of the snapshot, or the clock's time when the snapshot
    has none. *)
Theorem C9_one_row_per_entry_with_snapshot_timestamp
    (p : poll) (fields : list (string * Py.value)) (timestamp : Py.value)
    (t : PrimFloat.float) (entries : list (string * Py.value))
    (rows : list DeviceRow.t) :
  fetch (outcome p) = Py.Ok (Py.Dict fields) ->
  timestamp = default (Py.Float (now p)) (Py.lookup "timestamp" fields) ->
  Py.float timestamp = Py.Ok t ->
  Py.get (Py.Dict fields) "devices" (Py.Dict []) ≫= Py.items
  = Py.Ok entries ->
  Forall2
    (fun entry row =>
       device_record (fst entry) (snd entry) timestamp = Py.Ok row)
    entries rows ->
  internal_iteration p
  = (List.map Yield rows ++ [Sleep PathwayConfig.INTERNAL_POLL_INTERVAL],
     Py.Ok tt) /\
  yields (events (internal_iteration p)) = rows /\
  List.length rows = List.length entries /\
  List.map DeviceRow.device_id rows = List.map fst entries /\
  List.Forall (fun r => DeviceRow.timestamp r = t) rows.
Proof.
  intros Hdata Hts Ht Hentries Hrows.
  assert (Hit : internal_iteration p
                = (List.map Yield rows
                   ++ [Sleep PathwayConfig.INTERNAL_POLL_INTERVAL],
                   Py.Ok tt)).
  { rewrite internal_iteration_cases, Hdata.
    assert (Py.get (Py.Dict fields) "timestamp" (Py.Float (now p))
            = Py.Ok timestamp) as ->.
    { rewrite Hts. cbn. destruct (Py.lookup "timestamp" fields); reflexivity. }
    rewrite Hentries. now rewrite (emitted_all _ _ _ Hrows). }
  split; [exact Hit|]. split.
  - rewrite Hit. unfold events. cbn [fst]. rewrite yields_map_yield.
    cbn. apply List.app_nil_r.
  - clear Hit Hentries. induction Hrows as [|entry row entries rows Hrow _ IH].
    + repeat split. constructor.
    + destruct IH as (Hlen & Hids & Hall).
      apply device_record_ok in Hrow. destruct Hrow as [Hid Hrt].
      cbn. repeat split.
      * now rewrite Hlen.
      * now rewrite Hid, Hids.
      * constructor; [congruence | exact Hall].
Qed.

End AdapterProperties.

(** C7 fails as the specification states it: the poll [Snapshot.half_bad] fails on its second
    entry and prints the error, but the record of its first entry has been
    yielded. *)
Lemma C7_counterexample :
  @internal_iteration Snapshot.builtins Snapshot.half_bad
  = ([Yield Snapshot.pump_row;
      PrintError "internal" (Py.KeyError "power");
      Sleep PathwayConfig.INTERNAL_POLL_INTERVAL], Py.Ok tt) /\
  logs_error (events (@internal_iteration Snapshot.builtins Snapshot.half_bad)) /\
  yields (events (@internal_iteration Snapshot.builtins Snapshot.half_bad))
  <> [].
Proof.
  assert (Hrun : @internal_iteration Snapshot.builtins Snapshot.half_bad
                 = ([Yield Snapshot.pump_row;
                     PrintError "internal" (Py.KeyError "power");
                     Sleep PathwayConfig.INTERNAL_POLL_INTERVAL], Py.Ok tt))
    by (vm_compute; reflexivity).
  split; [exact Hrun|]. rewrite Hrun. split.
  - exists "internal"%string, (Py.KeyError "power"). cbn. auto.
  - discriminate.
Qed.

(** C9 fails as the specification states it: the pump's entry of [Snapshot.good] has the
    timestamp 7 of its own, and its row carries the snapshot's timestamp 5. *)
Lemma C9_counterexample :
  Py.getitem Snapshot.pump "timestamp" = Py.Ok (Py.Float 7) /\
  yields (events (@internal_iteration Snapshot.builtins Snapshot.good))
  = [Snapshot.pump_row] /\
  DeviceRow.timestamp Snapshot.pump_row = 5%float /\
  (DeviceRow.timestamp Snapshot.pump_row =? 7)%float = false.
Proof. repeat split; vm_compute; reflexivity. Qed.

(** The poll [Snapshot.good] is well formed: one row for its one entry,
    stamped 5. *)
Lemma C9_witness :
  @internal_iteration Snapshot.builtins Snapshot.good
  = (List.map Yield [Snapshot.pump_row]
     ++ [Sleep PathwayConfig.INTERNAL_POLL_INTERVAL], Py.Ok tt) /\
  yields (events (@internal_iteration Snapshot.builtins Snapshot.good))
  = [Snapshot.pump_row] /\
  List.length [Snapshot.pump_row]
  = List.length [("PUMP_1"%string, Snapshot.pump)] /\
  List.map DeviceRow.device_id [Snapshot.pump_row]
  = List.map fst [("PUMP_1"%string, Snapshot.pump)] /\
  List.Forall (fun r => DeviceRow.timestamp r = 5%float) [Snapshot.pump_row].
Proof.
  apply (@C9_one_row_per_entry_with_snapshot_timestamp Snapshot.builtins
           Snapshot.good
           [ ("timestamp", Py.Float 5);
             ("devices", Py.Dict [ ("PUMP_1", Snapshot.pump) ]) ]%string
           (Py.Float 5) 5%float).
  - reflexivity.
  - reflexivity.
  - reflexivity.
  - reflexivity.
  - repeat constructor.
Defined.

(* ===================================================================== *)
(** * Further properties *)
(* ===================================================================== *)

(** ** More on the order of binary64 values *)


(* ===================================================================== *)
(** ** The anomaly view *)
(* ===================================================================== *)

(** X1: anomaly detection keeps no state: the anomalies of a stream that
    continues another are those of the first followed by those of the
    second, in the order of arrival, and never more than the rows read. *)
Theorem detect_anomalies_is_stateless (s1 s2 : list DeviceRow.t) :
  _detect_anomalies (s1 ++ s2)
  = _detect_anomalies s1 ++ _detect_anomalies s2 /\
  (List.length (_detect_anomalies s1) <= List.length s1)%nat /\
  List.map AnomalyRow.device_id (_detect_anomalies s1)
  = List.map DeviceRow.device_id (List.filter is_anomalous s1).
Proof.
  unfold _detect_anomalies. repeat split.
  - now rewrite List.filter_app, List.map_app.
  - rewrite List.length_map. apply List.filter_length_le.
  - rewrite List.map_map. reflexivity.
Qed.

(** X2: in the anomaly view the status alone decides the alert: a starting
    device has the motor-inrush text, a faulty one the fault text and any
    other the high-current text, each with a current above the threshold;
    so a faulty device whose current is not above the threshold has no row
    at all. *)
Theorem alert_kind_follows_status (rows : list DeviceRow.t) :
  (forall a : AnomalyRow.t,
      In a (_detect_anomalies rows) ->
      (100.0 <? AnomalyRow.current a)%float = true /\
      ((AnomalyRow.status a = "starting"%string /\
        AnomalyRow.alert a = Alert.motor_inrush (AnomalyRow.current a)) \/
       (AnomalyRow.status a = "fault"%string /\
        AnomalyRow.alert a = Alert.fault (AnomalyRow.current a)) \/
       (AnomalyRow.status a <> "starting"%string /\
        AnomalyRow.status a <> "fault"%string /\
        AnomalyRow.alert a = Alert.high_current (AnomalyRow.current a)))) /\
  (forall r : DeviceRow.t,
      In r rows ->
      DeviceRow.status r = "fault"%string ->
      (100.0 <? DeviceRow.current r)%float = false ->
      ~ In (anomaly_of r) (_detect_anomalies rows)).
Proof.
  split.
  - intros a Ha. apply in_detect_anomalies in Ha.
    destruct Ha as (r & _ & Hr & ->). cbn.
    unfold is_anomalous in Hr. split; [exact Hr|].
    unfold get_anomaly_alert. rewrite Hr.
    destruct (String.eqb_spec (DeviceRow.status r) "starting") as [Hs|Hs];
      cbn [andb]; [left; auto|].
    destruct (String.eqb_spec (DeviceRow.status r) "fault") as [Hf|Hf];
      [right; left; auto | right; right; auto].
  - intros r _ _ Hlow Hin. apply in_detect_anomalies in Hin.
    destruct Hin as (r' & _ & Hr' & Heq).
    assert (DeviceRow.current r = DeviceRow.current r') as Hc
      by exact (f_equal AnomalyRow.current Heq).
    unfold is_anomalous, PyFloat.gt in Hr'.
    change PathwayConfig.HIGH_CURRENT_THRESHOLD with 100.0%float in Hr'.
    rewrite <- Hc in Hr'. congruence.
Qed.

(* ===================================================================== *)
(** ** More on the enrichment join *)
(* ===================================================================== *)

Lemma asof_fold_filter (t : float) (grid_stream : list GridRow.t) :
  forall best : option GridRow.t,
    fold_left (asof_pick t) grid_stream best
    = fold_left (asof_pick t) (List.filter (at_or_before t) grid_stream) best.
Proof.
  induction grid_stream as [|g rest IH]; intros best; [reflexivity|].
  cbn [fold_left List.filter]. unfold at_or_before at 1.
  destruct (GridRow.timestamp g <=? t)%float eqn:Hg.
  - cbn [fold_left]. apply IH.
  - unfold asof_pick at 2. rewrite Hg. apply IH.
Qed.

Lemma filter_none {A : Type} (f : A -> bool) (l : list A) :
  List.Forall (fun x => f x = false) l -> List.filter f l = [].
Proof.
  induction 1 as [|x l Hx _ IH]; [reflexivity|].
  cbn. now rewrite Hx.
Qed.

Lemma asof_ignores_later (t : float) (before later after : list GridRow.t) :
  List.Forall (fun g => (GridRow.timestamp g <=? t)%float = false) later ->
  asof_backward t (before ++ later ++ after)
  = asof_backward t (before ++ after).
Proof.
  intros Hlater. unfold asof_backward.
  rewrite asof_fold_filter, (asof_fold_filter _ (before ++ after)).
  rewrite !List.filter_app.
  now rewrite (filter_none (at_or_before t) later Hlater).
Qed.

(** X4: a grid row later than a device row plays no part in the
    enrichment of that row: inserting such rows anywhere in the grid
    stream leaves its recommendation row unchanged. *)
Theorem later_grid_rows_are_irrelevant
    (d : DeviceRow.t) (before later after : list GridRow.t) :
  List.Forall
    (fun g => (GridRow.timestamp g <=? DeviceRow.timestamp d)%float = false)
    later ->
  _generate_recommendations [d] (before ++ later ++ after)
  = _generate_recommendations [d] (before ++ after).
Proof.
  intros Hlater. rewrite !generate_recommendations_unfold. cbn [List.map].
  do 2 f_equal. now apply asof_ignores_later.
Qed.

(** The row at t=20 is later than the device row at t=15. *)
Lemma later_grid_rows_are_irrelevant_witness :
  _generate_recommendations [Scenario.device15]
    ([Scenario.grid10] ++ [Scenario.grid20] ++ [])
  = _generate_recommendations [Scenario.device15] ([Scenario.grid10] ++ []).
Proof.
  apply (later_grid_rows_are_irrelevant Scenario.device15
           [Scenario.grid10] [Scenario.grid20] []).
  repeat constructor.
Defined.

(** X5: a device row older than every grid row is enriched with the
    defaults, as if no grid row had arrived. *)
Theorem no_earlier_grid_row_gives_defaults
    (d : DeviceRow.t) (grid_stream : list GridRow.t) :
  List.Forall
    (fun g => (DeviceRow.timestamp d <? GridRow.timestamp g)%float = true)
    grid_stream ->
  _generate_recommendations [d] grid_stream
  = _generate_recommendations [d] [] /\
  List.map
    (fun r =>
       (RecommendationRow.carbon_intensity r,
        RecommendationRow.carbon_level r,
        RecommendationRow.pricing_tier r,
        RecommendationRow.renewable_pct r,
        RecommendationRow.electricity_price r))
    (_generate_recommendations [d] grid_stream)
  = [ (500.0, "MEDIUM", "MEDIUM", 35.0, 0.15) ]%float%string.
Proof.
  intros Hlater.
  assert (Hall : List.Forall
            (fun g =>
               (GridRow.timestamp g <=? DeviceRow.timestamp d)%float = false)
            grid_stream).
  { eapply List.Forall_impl; [|exact Hlater]. cbn. intros g Hg.
    now apply FloatOrderMore.ltb_not_leb. }
  assert (Heq : _generate_recommendations [d] grid_stream
                = _generate_recommendations [d] []).
  { rewrite !generate_recommendations_unfold. cbn [List.map]. do 2 f_equal.
    pose proof (asof_ignores_later (DeviceRow.timestamp d) [] grid_stream []
                  Hall) as H.
    now rewrite List.app_nil_r in H. }
  rewrite Heq. split; reflexivity.
Qed.

(** The device row at t=5 is older than both grid rows. *)
Lemma no_earlier_grid_row_gives_defaults_witness :
  _generate_recommendations [Scenario.device5]
    [Scenario.grid10; Scenario.grid20]
  = _generate_recommendations [Scenario.device5] [] /\
  List.map
    (fun r =>
       (RecommendationRow.carbon_intensity r,
        RecommendationRow.carbon_level r,
        RecommendationRow.pricing_tier r,
        RecommendationRow.renewable_pct r,
        RecommendationRow.electricity_price r))
    (_generate_recommendations [Scenario.device5]
       [Scenario.grid10; Scenario.grid20])
  = [ (500.0, "MEDIUM", "MEDIUM", 35.0, 0.15) ]%float%string.
Proof.
  apply (no_earlier_grid_row_gives_defaults Scenario.device5
           [Scenario.grid10; Scenario.grid20]).
  repeat constructor.
Defined.

(** X6: the enrichment does not depend on the order in which the grid
    rows arrived, as long as no two different grid rows have the same
    timestamp. *)
Theorem enrichment_is_independent_of_arrival_order
    (d : DeviceRow.t) (grid_stream grid_stream' : list GridRow.t) :
  Permutation grid_stream grid_stream' ->
  (forall g g',
      In g grid_stream -> In g' grid_stream ->
      (GridRow.timestamp g =? GridRow.timestamp g')%float = true ->
      g = g') ->
  _generate_recommendations [d] grid_stream
  = _generate_recommendations [d] grid_stream'.
Proof.
  intros Hperm Hdistinct. rewrite !generate_recommendations_unfold.
  cbn [List.map]. do 2 f_equal.
  pose proof (asof_backward_most_recent (DeviceRow.timestamp d) grid_stream)
    as H1.
  pose proof (asof_backward_most_recent (DeviceRow.timestamp d) grid_stream')
    as H2.
  destruct (asof_backward (DeviceRow.timestamp d) grid_stream) as [g1|],
    (asof_backward (DeviceRow.timestamp d) grid_stream') as [g2|];
    cbn in H1, H2.
  - destruct H1 as (Hin1 & Hle1 & Hmax1), H2 as (Hin2 & Hle2 & Hmax2).
    apply (Permutation_in _ (Permutation_sym Hperm)) in Hin2.
    f_equal. apply Hdistinct; [assumption..|].
    apply FloatOrderMore.leb_antisym.
    + apply Hmax2; [eapply Permutation_in; eassumption | exact Hle1].
    + apply Hmax1; assumption.
  - destruct H1 as (Hin1 & Hle1 & _).
    rewrite (H2 g1) in Hle1; [discriminate|].
    eapply Permutation_in; eassumption.
  - destruct H2 as (Hin2 & Hle2 & _).
    apply (Permutation_in _ (Permutation_sym Hperm)) in Hin2.
    rewrite (H1 g2 Hin2) in Hle2. discriminate.
  - reflexivity.
Qed.

(** The two grid rows of the scenario, in either order. *)
Lemma enrichment_is_independent_of_arrival_order_witness :
  _generate_recommendations [Scenario.device25]
    [Scenario.grid10; Scenario.grid20]
  = _generate_recommendations [Scenario.device25]
      [Scenario.grid20; Scenario.grid10].
Proof.
  apply (enrichment_is_independent_of_arrival_order Scenario.device25
           [Scenario.grid10; Scenario.grid20]
           [Scenario.grid20; Scenario.grid10]).
  - apply perm_swap.
  - intros g g' [<-|[<-|[]]] [<-|[<-|[]]] Heq; try reflexivity;
      vm_compute in Heq; discriminate.
Defined.

(** X7: the match moves forward in time with the device rows: if a device
    row at [t1] is matched with a grid row, a device row at a later [t2]
    is matched too, with a grid row that is not older. *)
Theorem asof_match_is_monotone
    (t1 t2 : float) (grid_stream : list GridRow.t) (g1 : GridRow.t) :
  (t1 <=? t2)%float = true ->
  asof_backward t1 grid_stream = Some g1 ->
  exists g2,
    asof_backward t2 grid_stream = Some g2 /\
    (GridRow.timestamp g1 <=? GridRow.timestamp g2)%float = true.
Proof.
  intros Ht Hg1.
  pose proof (asof_backward_most_recent t1 grid_stream) as H1.
  pose proof (asof_backward_most_recent t2 grid_stream) as H2.
  rewrite Hg1 in H1. cbn in H1. destruct H1 as (Hin1 & Hle1 & _).
  assert (Hle12 : (GridRow.timestamp g1 <=? t2)%float = true)
    by (eapply FloatOrderFacts.leb_trans; eassumption).
  destruct (asof_backward t2 grid_stream) as [g2|]; cbn in H2.
  - exists g2. split; [reflexivity|].
    destruct H2 as (_ & _ & Hmax2). apply Hmax2; assumption.
  - rewrite (H2 g1 Hin1) in Hle12. discriminate.
Qed.

(** The device rows at t=15 and t=25 of the scenario. *)
Lemma asof_match_is_monotone_witness :
  exists g2,
    asof_backward 25 [Scenario.grid10; Scenario.grid20] = Some g2 /\
    (GridRow.timestamp Scenario.grid10 <=? GridRow.timestamp g2)%float = true.
Proof.
  apply (asof_match_is_monotone 15 25 [Scenario.grid10; Scenario.grid20]
           Scenario.grid10); reflexivity.
Defined.

(* ===================================================================== *)
(** ** More on the per-type statistics *)
(* ===================================================================== *)

Lemma rows_of_type_length_cons (ty : string) (r : DeviceRow.t)
    (rows : list DeviceRow.t) :
  Z.of_nat (List.length (rows_of_type ty (r :: rows)))
  = (if String.eqb (DeviceRow.device_type r) ty then 1 else 0)
    + Z.of_nat (List.length (rows_of_type ty rows)).
Proof.
  unfold rows_of_type. cbn [List.filter].
  destruct (String.eqb (DeviceRow.device_type r) ty); cbn [List.length]; lia.
Qed.

Lemma sum_over_add (f g : string -> Z) (tys : list string) :
  sum_over (fun ty => f ty + g ty) tys = sum_over f tys + sum_over g tys.
Proof. induction tys as [|ty tys IH]; cbn; lia. Qed.

Lemma sum_over_ext (f g : string -> Z) (tys : list string) :
  (forall ty, f ty = g ty) -> sum_over f tys = sum_over g tys.
Proof. intros H. induction tys as [|ty tys IH]; cbn; [|rewrite H, IH]; reflexivity. Qed.

Lemma sum_over_indicator (k : string) (tys : list string) :
  NoDup tys ->
  sum_over (fun ty => if String.eqb k ty then 1 else 0) tys
  = if decide (k ∈ tys) then 1 else 0.
Proof.
  induction 1 as [|ty tys Hty _ IH]; cbn.
  - rewrite decide_False; [reflexivity | apply not_elem_of_nil].
  - rewrite IH.
    destruct (decide (k ∈ tys)) as [Hin|Hin],
      (String.eqb_spec k ty) as [->|Hne];
      try (rewrite decide_True by set_solver);
      try (rewrite decide_False by set_solver);
      try lia; set_solver.
Qed.

Lemma samples_length (ty : string) (rows : list DeviceRow.t) :
  samples (_compute_statistics rows) ty
  = Z.of_nat (List.length (rows_of_type ty rows)).
Proof.
  unfold samples. rewrite statistics_lookup.
  destruct (rows_of_type ty rows); reflexivity.
Qed.

Lemma count_by_type (tys : list string) (rows : list DeviceRow.t) :
  NoDup tys ->
  (forall r, In r rows -> DeviceRow.device_type r ∈ tys) ->
  sum_over (fun ty => Z.of_nat (List.length (rows_of_type ty rows))) tys
  = Z.of_nat (List.length rows).
Proof.
  intros Hnd. induction rows as [|r rows IH]; intros Hcover.
  - clear Hnd Hcover. induction tys as [|ty tys IHt]; [reflexivity|].
    cbn [sum_over]. rewrite IHt. reflexivity.
  - rewrite (sum_over_ext _
               (fun ty =>
                  (if String.eqb (DeviceRow.device_type r) ty then 1 else 0)
                  + Z.of_nat (List.length (rows_of_type ty rows))))
      by (intros ty; apply rows_of_type_length_cons).
    rewrite sum_over_add, sum_over_indicator by exact Hnd.
    rewrite decide_True by (apply Hcover; now left).
    rewrite IH by (intros r' Hr'; apply Hcover; now right).
    cbn [List.length]. lia.
Qed.

(** X8: the table has a row for a device type exactly when a row of that
    type has been received, that row is stored under its own type, and
    the sample counts of the table add up to the number of rows received:
    every device row is counted once. *)
Theorem table_covers_and_counts_every_row (rows : list DeviceRow.t) :
  (forall ty,
      is_Some (_compute_statistics rows !! ty) <->
      In ty (List.map DeviceRow.device_type rows)) /\
  (forall ty r,
      _compute_statistics rows !! ty = Some r ->
      AggregateRow.device_type r = ty /\
      0 < AggregateRow.total_samples r) /\
  sum_over (samples (_compute_statistics rows))
    (remove_dups (List.map DeviceRow.device_type rows))
  = Z.of_nat (List.length rows).
Proof.
  repeat split.
  - intros [r Hr]. rewrite statistics_lookup in Hr.
    destruct (List.in_dec String.string_dec ty
                (List.map DeviceRow.device_type rows)) as [Hin|Hin];
      [exact Hin|].
    apply rows_of_type_nil_iff in Hin. rewrite Hin in Hr. discriminate.
  - intros Hin. rewrite statistics_lookup.
    destruct (rows_of_type ty rows) eqn:Hg; [|eauto].
    apply rows_of_type_nil_iff in Hg. contradiction.
  - eapply statistics_device_type; eassumption.
  - rewrite statistics_lookup in H.
    destruct (rows_of_type ty rows); [discriminate|].
    injection H as <-.
    unfold reduce_group, reducers.count.
    cbn [AggregateRow.total_samples List.length]. lia.
  - rewrite (sum_over_ext _ _ _ (fun ty => samples_length ty rows)).
    apply count_by_type; [apply NoDup_remove_dups|].
    intros r Hr. apply elem_of_remove_dups, list_elem_of_In.
    apply List.in_map. exact Hr.
Qed.

(** X9: the statistics of a device type depend only on the rows of that
    type, in their order: rows of other types, wherever they come in the
    stream, change nothing; and after a further batch the sample count of
    the type has grown by the number of rows of that type in the batch. *)
Theorem statistics_depend_on_own_type_only
    (ty : string) (rows rows' batch : list DeviceRow.t) :
  (rows_of_type ty rows = rows_of_type ty rows' ->
   _compute_statistics rows !! ty = _compute_statistics rows' !! ty) /\
  (rows_of_type ty batch = [] ->
   _compute_statistics (rows ++ batch) !! ty = _compute_statistics rows !! ty) /\
  samples (_compute_statistics (rows ++ batch)) ty
  = samples (_compute_statistics rows) ty
    + Z.of_nat (List.length (rows_of_type ty batch)).
Proof.
  repeat split.
  - intros Heq. now rewrite !statistics_lookup, Heq.
  - intros Hnone.
    now rewrite !statistics_lookup, rows_of_type_app, Hnone, List.app_nil_r.
  - rewrite !samples_length, rows_of_type_app, List.length_app. lia.
Qed.

Lemma in_rows_of_type (ty : string) (rows : list DeviceRow.t)
    (d : DeviceRow.t) :
  In d (rows_of_type ty rows) <-> In d rows /\ DeviceRow.device_type d = ty.
Proof.
  unfold rows_of_type. rewrite List.filter_In, String.eqb_eq. reflexivity.
Qed.

(** X10: the max_current of a type is the current of one of the rows of
    that type; when none of these currents is NaN, no row of the type has
    a greater current, and the max_current never goes down as further
    rows arrive. *)
Theorem max_current_is_attained_and_greatest
    (rows : list DeviceRow.t) (ty : string) (r : AggregateRow.t) :
  _compute_statistics rows !! ty = Some r ->
  (exists d,
      In d rows /\ DeviceRow.device_type d = ty /\
      DeviceRow.current d = AggregateRow.max_current r) /\
  (forall more : list DeviceRow.t,
      List.Forall (fun d => is_nan (DeviceRow.current d) = false)
        (rows_of_type ty (rows ++ more)) ->
      (forall d,
          In d rows -> DeviceRow.device_type d = ty ->
          (DeviceRow.current d <=? AggregateRow.max_current r)%float = true) /\
      (forall r',
          _compute_statistics (rows ++ more) !! ty = Some r' ->
          (AggregateRow.max_current r <=? AggregateRow.max_current r')%float
          = true)).
Proof.
  intros Hr. rewrite statistics_lookup in Hr.
  destruct (rows_of_type ty rows) as [|d0 g] eqn:Hg; [discriminate|].
  injection Hr as <-. rewrite reduce_group_statistics.
  unfold statistics_of. cbn [AggregateRow.max_current].
  assert (Hin : In (maximum (List.map DeviceRow.current (d0 :: g)))
                  (List.map DeviceRow.current (d0 :: g)))
    by (apply maximum_in; discriminate).
  split.
  - apply List.in_map_iff in Hin. destruct Hin as (d & Hd & Hdin).
    rewrite <- Hg in Hdin. apply in_rows_of_type in Hdin.
    exists d. tauto.
  - intros more Hnan.
    assert (Hnum : forall l,
               List.Forall (fun d => is_nan (DeviceRow.current d) = false) l ->
               List.Forall (fun x => (x =? x)%float = true)
                 (List.map DeviceRow.current l)).
    { intros l Hl. apply List.Forall_map.
      eapply List.Forall_impl; [|exact Hl]. cbn. intros d Hd.
      unfold is_nan in Hd. now apply negb_false_iff in Hd. }
    rewrite rows_of_type_app, Hg in Hnan.
    pose proof (Hnum _ Hnan) as Hall. rewrite List.map_app in Hall.
    split.
    + intros d Hd Hty.
      apply maximum_upper; [now apply List.Forall_app in Hall|].
      apply List.in_map. rewrite <- Hg. now apply in_rows_of_type.
    + intros r' Hr'. rewrite statistics_lookup, rows_of_type_app, Hg in Hr'.
      cbn [app] in Hr'. injection Hr' as <-.
      rewrite reduce_group_statistics.
      unfold statistics_of. cbn [AggregateRow.max_current].
      change (d0 :: g ++ rows_of_type ty more)
        with ((d0 :: g) ++ rows_of_type ty more).
      rewrite List.map_app. apply maximum_upper; [exact Hall|].
      apply List.in_or_app. left. exact Hin.
Qed.

(** The three motor readings have the maximum 60. *)
Lemma max_current_is_attained_and_greatest_witness :
  (exists d,
      In d three_motor_rows /\ DeviceRow.device_type d = "motor"%string /\
      DeviceRow.current d
      = AggregateRow.max_current (AggregateRow.mk "motor" 30 60 6900 3)) /\
  (forall more : list DeviceRow.t,
      List.Forall (fun d => is_nan (DeviceRow.current d) = false)
        (rows_of_type "motor" (three_motor_rows ++ more)) ->
      (forall d,
          In d three_motor_rows -> DeviceRow.device_type d = "motor"%string ->
          (DeviceRow.current d
           <=? AggregateRow.max_current (AggregateRow.mk "motor" 30 60 6900 3))%float
          = true) /\
      (forall r',
          _compute_statistics (three_motor_rows ++ more) !! "motor"%string
          = Some r' ->
          (AggregateRow.max_current (AggregateRow.mk "motor" 30 60 6900 3)
           <=? AggregateRow.max_current r')%float = true)).
Proof.
  apply (max_current_is_attained_and_greatest three_motor_rows "motor"
           (AggregateRow.mk "motor" 30 60 6900 3)).
  vm_compute. reflexivity.
Defined.

(* ===================================================================== *)
(** ** More on the source adapters *)
(* ===================================================================== *)

Lemma yields_app {R : Type} (es1 es2 : list (event R)) :
  yields (es1 ++ es2) = yields es1 ++ yields es2.
Proof.
  induction es1 as [|[] es1 IH]; cbn; rewrite ?IH; reflexivity.
Qed.

Lemma sleeps_app {R : Type} (es1 es2 : list (event R)) :
  sleeps (es1 ++ es2) = sleeps es1 ++ sleeps es2.
Proof.
  induction es1 as [|[] es1 IH]; cbn; rewrite ?IH; reflexivity.
Qed.

Lemma errors_app {R : Type} (es1 es2 : list (event R)) :
  errors (es1 ++ es2) = errors es1 ++ errors es2.
Proof.
  induction es1 as [|[] es1 IH]; cbn; rewrite ?IH; reflexivity.
Qed.

Lemma sleeps_map_yield {R : Type} (rows : list R) :
  sleeps (List.map Yield rows) = [].
Proof. induction rows; cbn; auto. Qed.

Lemma errors_map_yield {R : Type} (rows : list R) :
  errors (List.map Yield rows) = [].
Proof. induction rows; cbn; auto. Qed.

Lemma yields_concat {R : Type} (ess : list (list (event R))) :
  yields (List.concat ess) = List.concat (List.map yields ess).
Proof.
  induction ess as [|es ess IH]; [reflexivity|].
  cbn [List.concat List.map]. now rewrite yields_app, IH.
Qed.

(** X11: a fetch succeeds exactly when the request got a response whose
    status is below 400 or at least 600 and whose body is JSON; the value
    is then the decoded body. *)
Theorem fetch_succeeds_iff (o : http_outcome) (v : Py.value) :
  fetch o = Py.Ok v <->
  exists status_code,
    o = Response status_code (Some v) /\
    (status_code < 400 \/ 600 <= status_code).
Proof.
  split.
  - destruct o as [| |code [body|]]; cbn; try discriminate.
    + destruct (400 <=? code) eqn:Hlo, (code <? 600) eqn:Hhi; cbn;
        try discriminate; intros [= ->]; exists code;
        (split; [reflexivity|]);
        apply Z.leb_gt in Hlo || apply Z.ltb_ge in Hhi; lia.
    + destruct ((400 <=? code) && (code <? 600)); discriminate.
  - intros (code & -> & Hcode). cbn.
    destruct (400 <=? code) eqn:Hlo, (code <? 600) eqn:Hhi; cbn;
      try reflexivity.
    apply Z.leb_le in Hlo. apply Z.ltb_lt in Hhi. lia.
Qed.

Section MoreAdapterProperties.
Context `{Py.Builtins}.

Lemma emitted_prefix (timestamp : Py.value)
    (entries : list (string * Py.value)) :
  (exists rest,
      List.map fst entries
      = List.map DeviceRow.device_id (fst (emitted timestamp entries))
        ++ rest) /\
  (forall t,
      Py.float timestamp = Py.Ok t ->
      List.Forall (fun r => DeviceRow.timestamp r = t)
        (fst (emitted timestamp entries))) /\
  (snd (emitted timestamp entries) = None ->
   List.length (fst (emitted timestamp entries)) = List.length entries).
Proof.
  induction entries as [|entry rest IH]; cbn [emitted].
  - repeat split; [now exists [] | constructor].
  - destruct (device_record (fst entry) (snd entry) timestamp) as [row|e]
      eqn:Hrow.
    + destruct (emitted timestamp rest) as [rows err].
      destruct IH as ((k & Hk) & Hts & Hlen). cbn [fst snd] in *.
      apply device_record_ok in Hrow. destruct Hrow as [Hid Hrt].
      repeat split.
      * exists k. cbn. now rewrite Hid, Hk.
      * intros t Ht. constructor; [congruence | now apply Hts].
      * intros Herr. cbn. now rewrite Hlen.
    + repeat split; [now eexists | constructor | discriminate].
Qed.

(** X12: whatever a poll of the device adapter brings, its events are
    rows, then at most one printed error, then one sleep of the interval:
    nothing is yielded after an error. The rows are those of the first
    entries of the snapshot, in its order, and they all carry the same
    timestamp. *)
Theorem device_poll_yields_a_prefix (p : poll) :
  (exists rows err,
      events (internal_iteration p)
      = List.map Yield rows
        ++ match err with
           | Some e => [PrintError "internal" e]
           | None => []
           end
        ++ [Sleep PathwayConfig.INTERNAL_POLL_INTERVAL]) /\
  (forall fields entries,
      fetch (outcome p) = Py.Ok (Py.Dict fields) ->
      Py.get (Py.Dict fields) "devices" (Py.Dict []) ≫= Py.items
      = Py.Ok entries ->
      exists rest,
        List.map fst entries
        = List.map DeviceRow.device_id (yields (events (internal_iteration p)))
          ++ rest) /\
  (forall r1 r2,
      In r1 (yields (events (internal_iteration p))) ->
      In r2 (yields (events (internal_iteration p))) ->
      DeviceRow.timestamp r1 = DeviceRow.timestamp r2).
Proof.
  rewrite internal_iteration_cases. unfold events.
  destruct (fetch (outcome p)) as [data|e].
  2:{ repeat split.
      - exists [], (Some e). reflexivity.
      - discriminate.
      - intros r1 r2 []. }
  destruct (Py.get data "timestamp" (Py.Float (now p))) as [timestamp|e]
    eqn:Hts.
  2:{ repeat split.
      - exists [], (Some e). reflexivity.
      - intros fields entries [= ->]. cbn in Hts.
        destruct (Py.lookup "timestamp" fields); discriminate.
      - intros r1 r2 []. }
  destruct (Py.get data "devices" (Py.Dict []) ≫= Py.items) as [entries|e]
    eqn:Hentries.
  2:{ repeat split.
      - exists [], (Some e). reflexivity.
      - intros fields entries [= ->]. rewrite Hentries. discriminate.
      - intros r1 r2 []. }
  cbn [fst].
  assert (Hy : yields
                 (List.map Yield (fst (emitted timestamp entries))
                  ++ match snd (emitted timestamp entries) with
                     | Some e => [PrintError "internal" e]
                     | None => []
                     end
                  ++ [Sleep PathwayConfig.INTERNAL_POLL_INTERVAL])
               = fst (emitted timestamp entries)).
  { rewrite yields_map_yield.
    destruct (snd (emitted timestamp entries)); cbn; apply List.app_nil_r. }
  rewrite Hy.
  destruct (emitted_prefix timestamp entries) as (Hpre & Hsame & _).
  repeat split.
  - eauto.
  - intros fields entries' [= ->]. rewrite Hentries. intros [= <-].
    exact Hpre.
  - intros r1 r2 H1 H2.
    destruct (fst (emitted timestamp entries)) as [|r0 rows] eqn:Hrows;
      [destruct H1|].
    assert (Hr0 : exists t, Py.float timestamp = Py.Ok t).
    { clear -Hrows. induction entries as [|entry rest IH];
        cbn [emitted] in Hrows; [discriminate|].
      destruct (device_record (fst entry) (snd entry) timestamp) as [row|e]
        eqn:Hrow; [|discriminate].
      apply device_record_ok in Hrow. destruct Hrow as [_ Hrt]. eauto. }
    destruct Hr0 as [t Ht]. specialize (Hsame t Ht).
    rewrite List.Forall_forall in Hsame.
    now rewrite (Hsame r1 H1), (Hsame r2 H2).
Qed.

(** X13: a snapshot without devices, or with an empty set of devices, is
    not an error: the poll yields nothing, prints nothing and sleeps,
    whatever the snapshot's timestamp is. *)
Theorem snapshot_without_devices_is_silent
    (p : poll) (fields : list (string * Py.value)) :
  fetch (outcome p) = Py.Ok (Py.Dict fields) ->
  Py.lookup "devices" fields = None \/
  Py.lookup "devices" fields = Some (Py.Dict []) ->
  internal_iteration p
  = ([Sleep PathwayConfig.INTERNAL_POLL_INTERVAL], Py.Ok tt).
Proof.
  intros Hdata Hdevices. rewrite internal_iteration_cases, Hdata. cbn.
  destruct (Py.lookup "timestamp" fields);
    destruct Hdevices as [-> | ->]; reflexivity.
Qed.

Lemma grid_record_ok (data : Py.value) (row : GridRow.t) :
  grid_record data = Py.Ok row ->
  Py.getitem data "grid_renewable_percentage" ≫= Py.float
  = Py.Ok (GridRow.renewable_pct row) /\
  Py.getitem data "last_updated" ≫= Py.float
  = Py.Ok (GridRow.timestamp row) /\
  Py.getitem data "carbon_intensity" ≫= Py.float
  = Py.Ok (GridRow.carbon_intensity row) /\
  Py.getitem data "electricity_price" ≫= Py.float
  = Py.Ok (GridRow.electricity_price row).
Proof.
  intros Hrow. unfold grid_record in Hrow.
  repeat match type of Hrow with
         | context [mbind _ ?x] =>
             destruct x eqn:?; cbn [mbind result_bind] in Hrow;
             try discriminate
         end.
  injection Hrow as <-. repeat split.
Qed.

(** X14: one turn of the grid adapter yields at most one row; it yields a
    row exactly when the fetch succeeds and the six fields can be read,
    and prints an error exactly when not; the row takes its renewable
    share from [grid_renewable_percentage] and its timestamp from
    [last_updated]. *)
Theorem grid_poll_yields_at_most_one_row (p : poll) :
  (List.length (yields (events (external_iteration p))) <= 1)%nat /\
  (forall row,
      yields (events (external_iteration p)) = [row] <->
      fetch (outcome p) ≫= grid_record = Py.Ok row) /\
  (forall e,
      errors (events (external_iteration p)) = [e] <->
      fetch (outcome p) ≫= grid_record = Py.Raise e) /\
  (forall data row,
      grid_record data = Py.Ok row ->
      Py.getitem data "grid_renewable_percentage" ≫= Py.float
      = Py.Ok (GridRow.renewable_pct row) /\
      Py.getitem data "last_updated" ≫= Py.float
      = Py.Ok (GridRow.timestamp row) /\
      Py.getitem data "carbon_intensity" ≫= Py.float
      = Py.Ok (GridRow.carbon_intensity row) /\
      Py.getitem data "electricity_price" ≫= Py.float
      = Py.Ok (GridRow.electricity_price row)).
Proof.
  rewrite external_iteration_cases. unfold events.
  split; [|split; [|split]].
  - destruct (fetch (outcome p) ≫= grid_record); cbn; lia.
  - intros row.
    destruct (fetch (outcome p) ≫= grid_record) as [row'|e]; cbn;
      split; congruence.
  - intros e.
    destruct (fetch (outcome p) ≫= grid_record) as [row'|e']; cbn;
      split; congruence.
  - exact grid_record_ok.
Qed.

Lemma internal_generator_events (polls : list poll) :
  events (internal_stream_generator polls)
  = Print "📡 Starting internal stream (10Hz)..."
    :: List.concat (List.map (fun p => events (internal_iteration p)) polls).
Proof.
  unfold internal_stream_generator.
  rewrite (while_true_goes_on internal_iteration polls)
    by (intros p; apply internal_iteration_goes_on).
  unfold events at 1. cbn [print mbind gen_bind fst app].
  f_equal. all: vm_compute; reflexivity.
Qed.

Lemma external_generator_events (polls : list poll) :
  events (external_stream_generator polls)
  = Print "📡 Starting external stream (15s updates)..."
    :: List.concat (List.map (fun p => events (external_iteration p)) polls).
Proof.
  unfold external_stream_generator.
  rewrite (while_true_goes_on external_iteration polls)
    by (intros p; apply external_iteration_goes_on).
  unfold events at 1. cbn [print mbind gen_bind fst app].
  f_equal. all: vm_compute; reflexivity.
Qed.

Lemma internal_iteration_sleeps (p : poll) :
  sleeps (events (internal_iteration p)) = [0.1%float].
Proof.
  rewrite internal_iteration_cases. unfold events.
  destruct (fetch (outcome p)) as [data|e]; [|reflexivity].
  destruct (Py.get data "timestamp" (Py.Float (now p))) as [ts|e];
    [|reflexivity].
  destruct (Py.get data "devices" (Py.Dict []) ≫= Py.items) as [entries|e];
    [|reflexivity].
  cbn [fst]. rewrite !sleeps_app, sleeps_map_yield.
  destruct (snd (emitted ts entries)); reflexivity.
Qed.

Lemma external_iteration_sleeps (p : poll) :
  sleeps (events (external_iteration p)) = [15%float].
Proof.
  rewrite external_iteration_cases. unfold events.
  destruct (fetch (outcome p) ≫= grid_record); reflexivity.
Qed.

Lemma sleeps_concat_map {R : Type} (f : poll -> list (event R))
    (s : float) (polls : list poll) :
  (forall p, sleeps (f p) = [s]) ->
  sleeps (List.concat (List.map f polls))
  = List.repeat s (List.length polls).
Proof.
  intros Hf. induction polls as [|p rest IH]; [reflexivity|].
  cbn [List.map List.concat List.length List.repeat].
  now rewrite sleeps_app, Hf, IH.
Qed.

(** X15: the generators never poll twice without sleeping: after the
    start-up line, the device adapter run against n polls has slept n
    times, each time 0.1 s, and the grid adapter n times 15 s; and the
    rows that reach the stream are those of the polls, poll after poll. *)
Theorem one_sleep_per_poll (polls : list poll) :
  (exists es,
      events (internal_stream_generator polls)
      = Print "📡 Starting internal stream (10Hz)..." :: es /\
      sleeps es = List.repeat 0.1%float (List.length polls)) /\
  (exists es,
      events (external_stream_generator polls)
      = Print "📡 Starting external stream (15s updates)..." :: es /\
      sleeps es = List.repeat 15%float (List.length polls)) /\
  DeviceConnector_run polls
  = List.concat
      (List.map (fun p => yields (events (internal_iteration p))) polls) /\
  GridConnector_run polls
  = List.concat
      (List.map (fun p => yields (events (external_iteration p))) polls).
Proof.
  unfold DeviceConnector_run, GridConnector_run.
  rewrite internal_generator_events, external_generator_events.
  repeat split.
  - eexists. split; [reflexivity|].
    apply sleeps_concat_map, internal_iteration_sleeps.
  - eexists. split; [reflexivity|].
    apply sleeps_concat_map, external_iteration_sleeps.
  - cbn [yields]. now rewrite yields_concat, List.map_map.
  - cbn [yields]. now rewrite yields_concat, List.map_map.
Qed.

Lemma device_connector_rows (polls : list poll) :
  DeviceConnector_run polls
  = List.concat
      (List.map (fun p => yields (events (internal_iteration p))) polls).
Proof.
  unfold DeviceConnector_run. rewrite internal_generator_events.
  cbn [yields]. now rewrite yields_concat, List.map_map.
Qed.

(** X16: from the polls to the anomaly view: the anomalies of the device
    stream are, poll after poll, the anomalies of the rows that the poll
    yielded; a poll that failed before its first row adds none. *)
Theorem anomalies_follow_the_polls (polls : list poll) :
  _detect_anomalies (DeviceConnector_run polls)
  = List.concat
      (List.map
         (fun p => _detect_anomalies (yields (events (internal_iteration p))))
         polls) /\
  (forall p e,
      fetch (outcome p) = Py.Raise e ->
      _detect_anomalies (yields (events (internal_iteration p))) = []).
Proof.
  split.
  - rewrite device_connector_rows.
    induction polls as [|p rest IH]; [reflexivity|].
    cbn [List.map List.concat].
    unfold _detect_anomalies in *.
    now rewrite List.filter_app, List.map_app, IH.
  - intros p e He. rewrite internal_iteration_cases, He. reflexivity.
Qed.

End MoreAdapterProperties.

(** A poll that brings a snapshot without devices and with a timestamp
    that is not a number. *)
Lemma snapshot_without_devices_is_silent_witness :
  @internal_iteration Snapshot.builtins
    {| outcome :=
         Response 200 (Some (Py.Dict [("timestamp"%string, Py.NoneValue)]));
       now := 9%float |}
  = ([Sleep PathwayConfig.INTERNAL_POLL_INTERVAL], Py.Ok tt).
Proof.
  apply (@snapshot_without_devices_is_silent Snapshot.builtins
           {| outcome :=
                Response 200
                  (Some (Py.Dict [("timestamp"%string, Py.NoneValue)]));
              now := 9%float |}
           [("timestamp"%string, Py.NoneValue)]).
  - reflexivity.
  - left. reflexivity.
Defined.

(* ===================================================================== *)
(** ** The short recommendation *)
(* ===================================================================== *)

(** X17: [get_recommendation] answers with one of four texts: the
    reduce-load text exactly when price and carbon are both HIGH, the
    peak-demand text exactly when the price is HIGH and the carbon is not,
    the optimal-time text exactly when both are LOW, and the
    normal-operation text in every other case; the power plays no part. *)
Theorem get_recommendation_table
    (power power' : float) (carbon_level pricing_tier : string) :
  (get_recommendation power carbon_level pricing_tier
   = "REDUCE LOAD - High Price & Carbon"%string <->
   pricing_tier = "HIGH"%string /\ carbon_level = "HIGH"%string) /\
  (get_recommendation power carbon_level pricing_tier
   = "PEAK DEMAND - Consider Reducing"%string <->
   pricing_tier = "HIGH"%string /\ carbon_level <> "HIGH"%string) /\
  (get_recommendation power carbon_level pricing_tier
   = "OPTIMAL TIME - Low Cost & Carbon"%string <->
   pricing_tier = "LOW"%string /\ carbon_level = "LOW"%string) /\
  (get_recommendation power carbon_level pricing_tier
   = "NORMAL OPERATION"%string <->
   pricing_tier <> "HIGH"%string /\
   ~ (pricing_tier = "LOW"%string /\ carbon_level = "LOW"%string)) /\
  get_recommendation power carbon_level pricing_tier
  = get_recommendation power' carbon_level pricing_tier.
Proof.
  unfold get_recommendation.
  destruct (String.eqb_spec pricing_tier "HIGH") as [Hp|Hp],
    (String.eqb_spec carbon_level "HIGH") as [Hc|Hc],
    (String.eqb_spec pricing_tier "LOW") as [Hpl|Hpl],
    (String.eqb_spec carbon_level "LOW") as [Hcl|Hcl];
    cbn [andb]; subst; repeat split; intros;
    try discriminate; try congruence; try tauto;
    try (match goal with H : _ /\ _ |- _ => destruct H end;
         congruence || discriminate).
Qed.

(* ===================================================================== *)
(** ** Reading the output files *)
(* ===================================================================== *)

Lemma read_lines_insertions (lines : list (Py.result Py.value)) :
  forall results,
    read_lines lines = Py.Ok results ->
    List.Forall is_insertion results /\
    (List.length results <= List.length lines)%nat.
Proof.
  induction lines as [|line rest IH]; intros results Hread; cbn in Hread.
  - injection Hread as <-. split; [constructor | reflexivity].
  - destruct line as [data|e].
    + destruct (Py.get data "diff" (Py.Int 1) ≫= gt_zero) as [[]|e] eqn:Hdiff.
      * destruct (read_lines rest) as [rs|e]; [|discriminate].
        injection Hread as <-. destruct (IH rs eq_refl) as [Hall Hlen].
        split; [|cbn; lia]. constructor; [|exact Hall].
        destruct data; try discriminate. eexists. split; [reflexivity|].
        exact Hdiff.
      * destruct (IH results Hread). split; [assumption | cbn; lia].
      * destruct e; try discriminate.
        destruct (IH results Hread). split; [assumption | cbn; lia].
    + destruct e; try discriminate.
      destruct (IH results Hread). split; [assumption | cbn; lia].
Qed.

Lemma recent_lines_spec {A : Type} (lines : list A) (max_lines : Z) :
  recent_lines lines max_lines
  = if 0 <? max_lines
    then List.skipn (List.length lines - Z.to_nat max_lines) lines
    else List.skipn (Z.to_nat (- max_lines)) lines.
Proof.
  unfold recent_lines, slice_from.
  destruct (Z.ltb_spec max_lines (Z.of_nat (List.length lines))) as [Hlt|Hge].
  - destruct (Z.ltb_spec 0 max_lines) as [Hpos|Hnonpos].
    + rewrite (proj2 (Z.ltb_lt (- max_lines) 0)) by lia. f_equal. lia.
    + rewrite (proj2 (Z.ltb_ge (- max_lines) 0)) by lia.
      destruct (Z.le_gt_cases (- max_lines) (Z.of_nat (List.length lines)))
        as [Hin|Hout].
      * f_equal. lia.
      * transitivity (@nil A); [|symmetry]; apply List.skipn_all2; lia.
  - destruct (Z.ltb_spec 0 max_lines) as [Hpos|Hnonpos].
    + replace (List.length lines - Z.to_nat max_lines)%nat with 0%nat by lia.
      reflexivity.
    + destruct lines as [|x lines]; [now rewrite List.skipn_nil|].
      cbn [List.length] in Hge. lia.
Qed.

Lemma read_latest_insertions (f : jsonl_file) (max_lines : Z) :
  List.Forall is_insertion (read_latest_jsonl f max_lines).
Proof.
  destruct f as [|e|lines]; cbn; try constructor.
  destruct (read_lines (recent_lines lines max_lines)) as [rs|e] eqn:Hread;
    [|constructor].
  now apply read_lines_insertions in Hread.
Qed.

(** X18: whatever the file and the limit, [read_latest_jsonl] returns only
    JSON objects whose [diff] is positive or absent, never a retraction;
    an absent or unreadable file gives the empty list; and with a positive
    limit it returns at most that many entries. *)
Theorem read_latest_returns_insertions_only (f : jsonl_file) (max_lines : Z) :
  List.Forall is_insertion (read_latest_jsonl f max_lines) /\
  (forall fields d,
      Py.lookup "diff" fields = Some (Py.Int d) -> d <= 0 ->
      ~ In (Py.Dict fields) (read_latest_jsonl f max_lines)) /\
  (0 < max_lines ->
   Z.of_nat (List.length (read_latest_jsonl f max_lines)) <= max_lines) /\
  read_latest_jsonl Absent max_lines = [] /\
  (forall e, read_latest_jsonl (Unreadable e) max_lines = []).
Proof.
  pose proof (read_latest_insertions f max_lines) as Hins.
  repeat split; [exact Hins| | ].
  - intros fields d Hd Hneg Hin.
    rewrite List.Forall_forall in Hins. apply Hins in Hin.
    destruct Hin as (fields' & [= <-] & Hpos). cbn in Hpos.
    rewrite Hd in Hpos. cbn in Hpos. injection Hpos as Hpos.
    apply Z.ltb_lt in Hpos. lia.
  - intros Hpos. destruct f as [|e|lines]; cbn; try lia.
    destruct (read_lines (recent_lines lines max_lines)) as [rs|e] eqn:Hread;
      [|cbn; lia].
    apply read_lines_insertions in Hread. destruct Hread as [_ Hlen].
    rewrite recent_lines_spec in Hlen.
    rewrite (proj2 (Z.ltb_lt 0 max_lines)) in Hlen by exact Hpos.
    rewrite List.length_skipn in Hlen. lia.
Qed.

(** X19: the limit of [/anomalies] and [/recommendations] bounds the
    answer only when it is positive: a positive limit reads the last
    [limit] lines, the limit 0 reads the whole file, and a negative limit
    [-k] reads all the lines but the first [k]. *)
Theorem limit_zero_reads_the_whole_file
    (lines : list (Py.result Py.value)) (k : nat) :
  get_anomalies (Lines lines) 0
  = get_anomalies (Lines lines) (Z.of_nat (List.length lines)) /\
  get_anomalies (Lines lines) (- Z.of_nat (S k))
  = get_anomalies (Lines (List.skipn (S k) lines))
      (Z.of_nat (List.length lines)) /\
  get_anomalies (Lines lines) (Z.of_nat (S k))
  = get_anomalies (Lines (List.skipn (List.length lines - S k) lines))
      (Z.of_nat (List.length lines)) /\
  (forall limit,
      get_recommendations (Lines lines) limit
      = get_anomalies (Lines lines) limit).
Proof.
  assert (Hall : forall l : list (Py.result Py.value),
             (List.length l <= List.length lines)%nat ->
             recent_lines l (Z.of_nat (List.length lines)) = l).
  { intros l Hl. unfold recent_lines.
    now rewrite (proj2 (Z.ltb_ge _ _)) by lia. }
  unfold get_anomalies, get_recommendations, read_latest_jsonl.
  repeat split.
  - rewrite (Hall lines) by lia. rewrite recent_lines_spec. reflexivity.
  - rewrite (Hall (List.skipn (S k) lines))
      by (rewrite List.length_skipn; lia).
    rewrite recent_lines_spec.
    rewrite (proj2 (Z.ltb_ge 0 (- Z.of_nat (S k)))) by lia.
    now rewrite Z.opp_involutive, Nat2Z.id.
  - rewrite (Hall (List.skipn (List.length lines - S k) lines))
      by (rewrite List.length_skipn; lia).
    rewrite recent_lines_spec.
    rewrite (proj2 (Z.ltb_lt 0 (Z.of_nat (S k)))) by lia.
    now rewrite Nat2Z.id.
Qed.

Lemma read_lines_app (l1 l2 : list (Py.result Py.value)) :
  read_lines (l1 ++ l2)
  = match read_lines l1 with
    | Py.Ok r1 =>
        match read_lines l2 with
        | Py.Ok r2 => Py.Ok (r1 ++ r2)
        | Py.Raise e => Py.Raise e
        end
    | Py.Raise e => Py.Raise e
    end.
Proof.
  induction l1 as [|line l1 IH]; cbn [app read_lines].
  - destruct (read_lines l2); reflexivity.
  - destruct line as [data|e].
    + destruct (Py.get data "diff" (Py.Int 1) ≫= gt_zero) as [[]|e];
        rewrite ?IH.
      * destruct (read_lines l1); [|reflexivity].
        destruct (read_lines l2); reflexivity.
      * reflexivity.
      * destruct e; rewrite ?IH; reflexivity.
    + destruct e; rewrite ?IH; reflexivity.
Qed.

(** X20: a line that is not JSON is passed over, but a line that is JSON
    and not an object, or an object whose [diff] is not a number, empties
    the whole answer when it is among the lines read. *)
Theorem one_bad_entry_empties_the_answer
    (before after : list (Py.result Py.value)) (v : Py.value)
    (max_lines : Z) :
  Z.of_nat (List.length (before ++ Py.Ok v :: after)) <= max_lines ->
  (forall fields, v <> Py.Dict fields) \/
  (exists fields d,
      v = Py.Dict fields /\ Py.lookup "diff" fields = Some d /\
      gt_zero d = Py.Raise Py.TypeError) ->
  read_latest_jsonl (Lines (before ++ Py.Ok v :: after)) max_lines = [] /\
  read_latest_jsonl
    (Lines (before ++ Py.Raise Py.JSONDecodeError :: after)) max_lines
  = read_latest_jsonl (Lines (before ++ after)) max_lines.
Proof.
  intros Hlen Hbad.
  assert (Hwin : forall l : list (Py.result Py.value),
             Z.of_nat (List.length l) <= max_lines ->
             recent_lines l max_lines = l).
  { intros l Hl. unfold recent_lines.
    now rewrite (proj2 (Z.ltb_ge _ _)) by lia. }
  rewrite !List.length_app in Hlen. cbn [List.length] in Hlen.
  unfold read_latest_jsonl.
  rewrite !Hwin by (rewrite !List.length_app; cbn [List.length]; lia).
  rewrite !read_lines_app. split.
  - destruct (read_lines before); [|reflexivity].
    assert (Hv : exists e, Py.get v "diff" (Py.Int 1) ≫= gt_zero = Py.Raise e
                           /\ e <> Py.JSONDecodeError).
    { destruct Hbad as [Hnot|(fields & d & -> & Hd & Hgt)].
      - destruct v; try (eexists; split; [reflexivity|discriminate]).
        now destruct (Hnot items).
      - cbn. rewrite Hd. cbn. rewrite Hgt. eexists. split;
          [reflexivity|discriminate]. }
    destruct Hv as (e & He & Hne). cbn [read_lines]. rewrite He.
    destruct e; try reflexivity. congruence.
  - cbn [read_lines]. reflexivity.
Qed.

(** A file of one insertion followed by a line that holds the number 7,
    or by a line that is not JSON. *)
Lemma one_bad_entry_empties_the_answer_witness :
  read_latest_jsonl
    (Lines ([Py.Ok (Py.Dict [("diff"%string, Py.Int 1)])]
            ++ Py.Ok (Py.Int 7) :: [])) 50 = [] /\
  read_latest_jsonl
    (Lines ([Py.Ok (Py.Dict [("diff"%string, Py.Int 1)])]
            ++ Py.Raise Py.JSONDecodeError :: [])) 50
  = read_latest_jsonl
      (Lines ([Py.Ok (Py.Dict [("diff"%string, Py.Int 1)])] ++ [])) 50.
Proof.
  apply (one_bad_entry_empties_the_answer
           [Py.Ok (Py.Dict [("diff"%string, Py.Int 1)])] [] (Py.Int 7) 50).
  - cbn. lia.
  - left. discriminate.
Defined.

Ltac splits := repeat match goal with |- _ /\ _ => split end.

Lemma dict_set_str (d : list (Py.value * Py.value)) (ty : string)
    (v : Py.value) :
  str_keys d -> ty <> ""%string ->
  NoDup (List.map fst d) ->
  str_keys (dict_set d (Py.Str ty) v) /\
  NoDup (List.map fst (dict_set d (Py.Str ty) v)) /\
  (forall ty',
      dict_lookup (dict_set d (Py.Str ty) v) (Py.Str ty')
      = if String.eqb ty ty' then Some v else dict_lookup d (Py.Str ty')) /\
  (forall e, In e (List.map snd (dict_set d (Py.Str ty) v)) ->
             e = v \/ In e (List.map snd d)) /\
  (forall k, In k (List.map fst (dict_set d (Py.Str ty) v)) ->
             k = Py.Str ty \/ In k (List.map fst d)).
Proof.
  intros Hkeys Hty Hnd. induction d as [|[k x] d IH]; cbn.
  - splits.
    + constructor; [|constructor]. exists ty. auto.
    + apply NoDup_singleton.
    + intros ty'. now destruct (String.eqb ty ty').
    + intros e [<-|[]]. now left.
    + intros k [<-|[]]. now left.
  - apply List.Forall_cons_iff in Hkeys. destruct Hkeys as [(t & Hk & Ht) Hkeys].
    cbn in Hk. subst k. cbn [List.map fst] in Hnd.
    apply NoDup_cons in Hnd. destruct Hnd as [Hfresh Hnd].
    destruct (IH Hkeys Hnd) as (IH1 & IH2 & IH3 & IH4 & IH5).
    cbn [key_eqb]. destruct (String.eqb_spec t ty) as [->|Hne].
    + cbn. splits.
      * constructor; [exists ty; auto | exact Hkeys].
      * apply NoDup_cons. auto.
      * intros ty'. cbn [key_eqb]. now destruct (String.eqb ty ty').
      * intros e [<-|He]; auto.
      * intros k [<-|Hk]; auto.
    + cbn. splits.
      * constructor; [exists t; auto | exact IH1].
      * apply NoDup_cons. split; [|exact IH2].
        intros Hin. apply list_elem_of_In in Hin. apply IH5 in Hin.
        destruct Hin as [[= ->]|Hin]; [congruence|].
        apply Hfresh. now apply list_elem_of_In.
      * intros ty'. cbn [key_eqb]. rewrite IH3.
        destruct (String.eqb_spec t ty') as [->|Hne'],
          (String.eqb_spec ty ty') as [->|Hne'']; congruence.
      * intros e [<-|He]; [auto|]. apply IH4 in He. tauto.
      * intros k [<-|Hk]; [auto|]. apply IH5 in Hk. tauto.
Qed.

Lemma latest_stats_typed (stats : list Py.value) :
  List.Forall typed_entry stats ->
  forall acc,
    str_keys acc -> NoDup (List.map fst acc) ->
    exists d,
      latest_stats stats acc = Py.Ok d /\
      str_keys d /\ NoDup (List.map fst d) /\
      (forall ty,
          ty <> ""%string ->
          dict_lookup d (Py.Str ty)
          = match last_of_type ty stats with
            | Some e => Some e
            | None => dict_lookup acc (Py.Str ty)
            end) /\
      (forall e, In e (List.map snd d) ->
                 In e stats \/ In e (List.map snd acc)).
Proof.
  induction 1 as [|entry rest Hentry _ IH]; intros acc Hkeys Hnd.
  - exists acc. cbn. splits; auto.
  - destruct Hentry as (fields & -> & Htype).
    cbn [latest_stats last_of_type Py.get].
    assert (Hskip : forall v,
               truthy v = false ->
               (forall ty', v = Py.Str ty' -> ty' = ""%string) ->
               (forall ty, ty <> ""%string ->
                  match v with
                  | Py.Str ty' => if String.eqb ty' ty
                                  then Some (Py.Dict fields) else None
                  | _ => None
                  end = @None Py.value) ->
               exists d,
                 (if truthy v
                  then setitem acc v (Py.Dict fields) ≫= latest_stats rest
                  else latest_stats rest acc) = Py.Ok d /\
                 str_keys d /\ NoDup (List.map fst d) /\
                 (forall ty,
                     ty <> ""%string ->
                     dict_lookup d (Py.Str ty)
                     = match
                         match last_of_type ty rest with
                         | Some e => Some e
                         | None =>
                             match v with
                             | Py.Str ty' =>
                                 if String.eqb ty' ty
                                 then Some (Py.Dict fields) else None
                             | _ => None
                             end
                         end
                       with
                       | Some e => Some e
                       | None => dict_lookup acc (Py.Str ty)
                       end) /\
                 (forall e, In e (List.map snd d) ->
                            In e (Py.Dict fields :: rest)
                            \/ In e (List.map snd acc))).
    { intros v Hfalsy _ Hnone. rewrite Hfalsy.
      destruct (IH acc Hkeys Hnd) as (d & Hd & Hk & Hn & Hl & Hv).
      exists d. splits; auto.
      - intros ty Hty. rewrite (Hl ty Hty), (Hnone ty Hty).
        now destruct (last_of_type ty rest).
      - intros e He. apply Hv in He. cbn. tauto. }
    destruct Htype as [Hnone|[Hnone|[ty0 Hstr]]].
    + rewrite Hnone. cbn [mbind result_bind].
      apply Hskip; [reflexivity | discriminate | reflexivity].
    + rewrite Hnone. cbn [mbind result_bind].
      apply Hskip; [reflexivity | discriminate | reflexivity].
    + rewrite Hstr. cbn [mbind result_bind].
      destruct (String.eqb_spec ty0 "") as [->|Hne0].
      * apply Hskip; [reflexivity | now intros ty' [= <-] |].
        intros ty Hty. destruct (String.eqb_spec "" ty); congruence.
      * assert (Htruthy : truthy (Py.Str ty0) = true).
        { cbn. now destruct (String.eqb_spec ty0 ""). }
        rewrite Htruthy. cbn [setitem mbind result_bind].
        destruct (dict_set_str acc ty0 (Py.Dict fields) Hkeys Hne0 Hnd)
          as (Hk' & Hn' & Hl' & Hv' & _).
        destruct (IH _ Hk' Hn') as (d & Hd & Hk & Hn & Hl & Hv).
        exists d. splits; auto.
        -- intros ty Hty. rewrite (Hl ty Hty), Hl'.
           destruct (last_of_type ty rest); [reflexivity|].
           now destruct (String.eqb ty0 ty).
        -- intros e He. apply Hv in He. destruct He as [He|He]; [cbn; tauto|].
           apply Hv' in He. cbn. destruct He as [->|He]; tauto.
Qed.

(** X21: when the device types of the file are strings, [/statistics]
    answers with one entry per non-empty device type among the lines
    read, the last insertion of that type; its list of device types has
    no repetition; entries without a device type or with the empty type
    are left out, and so is every retraction. *)
Theorem statistics_keep_the_latest_entry_of_each_type (f : jsonl_file) :
  List.Forall typed_entry (read_latest_jsonl f 100) ->
  exists types latest,
    get_device_statistics f = Py.Ok (types, latest) /\
    types = List.map fst latest /\
    NoDup types /\
    (forall k, In k types -> exists ty, k = Py.Str ty /\ ty <> ""%string) /\
    (forall ty,
        ty <> ""%string ->
        dict_lookup latest (Py.Str ty)
        = last_of_type ty (read_latest_jsonl f 100)) /\
    (forall e, In e (List.map snd latest) -> is_insertion e).
Proof.
  intros Htyped. unfold get_device_statistics.
  destruct (latest_stats_typed _ Htyped [])
    as (d & Hd & Hk & Hn & Hl & Hv); [constructor | constructor |].
  exists (List.map fst d), d. rewrite Hd. cbn [mbind result_bind mret result_ret].
  splits; auto.
  - intros k Hin. apply List.in_map_iff in Hin.
    destruct Hin as (kv & <- & Hkv).
    unfold str_keys in Hk. rewrite List.Forall_forall in Hk. now apply Hk.
  - intros ty Hty. rewrite (Hl ty Hty).
    now destruct (last_of_type ty (read_latest_jsonl f 100)).
  - intros e He. apply Hv in He. destruct He as [He|[]].
    pose proof (read_latest_insertions f 100) as Hins.
    rewrite List.Forall_forall in Hins. now apply Hins.
Qed.

(** The three entries read from [StatsFile.file] have string types. *)
Lemma statistics_keep_the_latest_entry_of_each_type_witness :
  exists types latest,
    get_device_statistics StatsFile.file = Py.Ok (types, latest) /\
    types = List.map fst latest /\
    NoDup types /\
    (forall k, In k types -> exists ty, k = Py.Str ty /\ ty <> ""%string) /\
    (forall ty,
        ty <> ""%string ->
        dict_lookup latest (Py.Str ty)
        = last_of_type ty (read_latest_jsonl StatsFile.file 100)) /\
    (forall e, In e (List.map snd latest) -> is_insertion e).
Proof.
  apply (statistics_keep_the_latest_entry_of_each_type StatsFile.file).
  assert (E : read_latest_jsonl StatsFile.file 100
              = [StatsFile.entry "pump" 1 1; StatsFile.entry "pump" 2 1;
                 StatsFile.entry "" 1 1]) by reflexivity.
  rewrite E.
  repeat (apply List.Forall_cons;
          [eexists; split; [reflexivity|];
           right; right; eexists; reflexivity|]).
  apply List.Forall_nil.
Defined.

Example statistics_of_the_file :
  get_device_statistics StatsFile.file
  = Py.Ok ([Py.Str "pump"], [(Py.Str "pump", StatsFile.entry "pump" 2 1)]).
Proof. reflexivity. Qed.

(* ===================================================================== *)
(** ** More on the texts *)
(* ===================================================================== *)

(** X22: every alert, also the generic one, contains the current
    formatted to one decimal and ends with the unit, and every
    recommendation, whichever rule gives it, names the device. *)
Theorem texts_name_their_subject :
  (forall (current : float) (status : string),
      exists kind,
        get_anomaly_alert current status
        = kind +++ PyFloat.format_f 1 current +++ "A") /\
  (forall (device_id device_type : string)
          (power current carbon_intensity : float) (carbon_level : string)
          (electricity_price : float) (pricing_tier : string)
          (renewable_pct cost_per_hour : float),
      embeds device_id
        (generate_llm_recommendation device_id device_type power current
           carbon_intensity carbon_level electricity_price pricing_tier
           renewable_pct cost_per_hour)).
Proof.
  split.
  - intros current status. unfold get_anomaly_alert.
    destruct (_ && _); [eexists; reflexivity|].
    destruct (String.eqb status "fault"); [eexists; reflexivity|].
    destruct (PyFloat.gt _ _); eexists; reflexivity.
  - intros. unfold generate_llm_recommendation.
    repeat match goal with
           | |- context [if ?b then _ else _] => destruct b
           end.
    + unfold Recommendation.stop_device. cbv zeta.
      exists ("Grid Price is $" +++ PyFloat.format_f 3 electricity_price
              +++ "/kWh (High). " +++ "Stopping ")%string.
      eexists. rewrite !append_assoc. reflexivity.
    + unfold Recommendation.price_and_carbon. cbv zeta.
      exists ("Peak pricing ($" +++ PyFloat.format_f 3 electricity_price
              +++ "/kWh) + High carbon ("
              +++ PyFloat.format_f 0 carbon_intensity
              +++ "gCO2/kWh). " +++ "Reducing ")%string.
      eexists. rewrite !append_assoc. reflexivity.
    + unfold Recommendation.defer_carbon. cbv zeta.
      exists ("Carbon intensity is " +++ PyFloat.format_f 0 carbon_intensity
              +++ "gCO2/kWh (High). " +++ "Deferring ")%string.
      eexists. rewrite !append_assoc. reflexivity.
    + unfold Recommendation.optimal.
      exists ("Optimal conditions: $" +++ PyFloat.format_f 3 electricity_price
              +++ "/kWh, " +++ PyFloat.format_f 0 renewable_pct
              +++ "% renewable. " +++ "Good time to run ")%string.
      eexists. rewrite !append_assoc. reflexivity.
    + unfold Recommendation.clean_energy.
      exists ("Grid is " +++ PyFloat.format_f 0 renewable_pct
              +++ "% renewable (Clean energy!). ")%string.
      eexists. rewrite !append_assoc. reflexivity.
    + unfold Recommendation.normal.
      exists ""%string. eexists. reflexivity.
Qed.
